(** * Run-Rate Forecaster: the model-selection pipeline

    A shallow embedding of
      - backend/app/models/forecasting_models.py
      - backend/app/core/backtester.py
      - backend/app/core/grid_search.py
    and the properties of the selection rule, the parameter grid, the
    forecasting models, the metric calculator and the backtester.

    Conventions of the embedding.
    - A data value (an observation, a forecast, a score) is a Python float
      taken as its exact value: a rational, one of the two infinities, or
      NaN.  Comparisons are then exactly IEEE comparisons; the rounding of
      the arithmetic on data values is not represented.
    - The training proportion [train_size] decides an integer, the split
      index, through one rounded product.  It is a binary64 float, bit for
      bit, and the product is the correctly rounded IEEE product.
    - A pandas Series with a DatetimeIndex is a list of (timestamp, value)
      pairs, timestamps counted in nanoseconds since the epoch.  A
      timestamp that pandas computes must not exceed [Timestamp.max]
      (2262-04-11): date arithmetic beyond it raises OutOfBoundsDatetime.
    - A Python dict is an association list in insertion order.
    - A raised exception is the [Raise] case of [result]; methods that
      mutate [self] or write to the logger thread an explicit state.
    - The [steps] argument of [predict] is a natural number; Python
      integers are unbounded.
    - numpy's mean, scikit-learn's regression and metrics and statsmodels'
      Holt-Winters are external numerical routines: they are fields of the
      class [Libraries], and every definition that calls one is
      parameterised by it. *)

From Stdlib Require Import SpecFloat String ZArith QArith Qabs Qround Bool Lia Arith List.
Import ListNotations.

Set Implicit Arguments.
Local Open Scope Z_scope.

(** ** Python floats *)

Inductive pyfloat : Type :=
| Fin (q : Q)
| PInf
| NInf
| NaN.

Definition Qlt_bool (a b : Q) : bool := negb (Qle_bool b a).

(** [x < y] on floats: false as soon as one side is NaN. *)
Definition flt (x y : pyfloat) : bool :=
  match x, y with
  | NaN, _ | _, NaN => false
  | NInf, NInf => false
  | NInf, _ => true
  | _, NInf => false
  | PInf, _ => false
  | Fin _, PInf => true
  | Fin a, Fin b => Qlt_bool a b
  end.

(** [x == 0] on floats. *)
Definition fis_zero (x : pyfloat) : bool :=
  match x with
  | Fin q => Qeq_bool q 0
  | _ => false
  end.

Definition fis_nan (x : pyfloat) : bool :=
  match x with
  | NaN => true
  | _ => false
  end.

Definition Qsign_inf (q : Q) (pos : bool) : pyfloat :=
  if Qeq_bool q 0 then NaN
  else if Qlt_bool 0 q then (if pos then PInf else NInf)
       else (if pos then NInf else PInf).

Definition fmul (x y : pyfloat) : pyfloat :=
  match x, y with
  | NaN, _ | _, NaN => NaN
  | Fin a, Fin b => Fin (a * b)
  | Fin a, PInf | PInf, Fin a => Qsign_inf a true
  | Fin a, NInf | NInf, Fin a => Qsign_inf a false
  | PInf, PInf | NInf, NInf => PInf
  | PInf, NInf | NInf, PInf => NInf
  end.

Definition fadd (x y : pyfloat) : pyfloat :=
  match x, y with
  | NaN, _ | _, NaN => NaN
  | Fin a, Fin b => Fin (a + b)
  | PInf, NInf | NInf, PInf => NaN
  | PInf, _ | _, PInf => PInf
  | NInf, _ | _, NInf => NInf
  end.

Definition of_int (z : Z) : pyfloat := Fin (inject_Z z).

(** The literal [1e-10]. *)
Definition epsilon : pyfloat := Fin (1 # 10000000000).

(** ** Exceptions *)

Inductive exn_kind : Type :=
| IndexError
| ValueError
| TypeError
| ZeroDivisionError
| OverflowError
| AttributeError
| OutOfBoundsDatetime
| LibraryError.

Record exn : Type := mkExn { kind : exn_kind; message : string }.

Inductive result (A : Type) : Type :=
| Ok (a : A)
| Raise (e : exn).

Arguments Ok {A} a.
Arguments Raise {A} e.

(** ** Floats bit for bit

    A binary64 float as IEEE 754 has it: a signed zero, a signed infinity,
    NaN, or [(-1)^s * m * 2^e].  The operations are those of the standard
    library's specification of IEEE arithmetic, at precision 53 and maximal
    exponent 1024, rounding to nearest, ties to even. *)
Definition float64 : Type := spec_float.

Definition prec : Z := 53.
Definition emax : Z := 1024.

(** [float(n)] for a Python integer, as in [n * x]: the nearest float, and
    OverflowError when there is none. *)
Definition float_of_int (n : Z) : result float64 :=
  match binary_normalize prec emax n 0 false with
  | S754_infinity _ => Raise (mkExn OverflowError "int too large to convert to float")
  | x => Ok x
  end.

(** [x * y] on floats. *)
Definition float_mul (x y : float64) : float64 := SFmul prec emax x y.

(** [int(x)] on a float: truncation toward zero. *)
Definition py_int (x : float64) : result Z :=
  match x with
  | S754_zero _ => Ok 0
  | S754_finite s m e => Ok (cond_Zopp s (Z.shiftl (Zpos m) e))
  | S754_infinity _ => Raise (mkExn OverflowError "cannot convert float infinity to integer")
  | S754_nan => Raise (mkExn ValueError "cannot convert float NaN to integer")
  end.

(** The float literals [0.7] and [0.8]. *)
Definition float_0_7 : float64 := S754_finite false 6305039478318694 (-53).
Definition float_0_8 : float64 := S754_finite false 7205759403792794 (-53).

(** ** BacktestResult: a dict with optional keys *)

Record BacktestResult : Type := mkResult {
  mae : option pyfloat;
  mape : option pyfloat;
  predictions : option (list pyfloat);
  actual : option (list pyfloat);
  error : option string
}.

(** The empty dict [{}]. *)
Definition empty_result : BacktestResult := mkResult None None None None None.

Definition has_error (r : BacktestResult) : bool :=
  match error r with
  | Some _ => true
  | None => false
  end.

(** [results.get("mae", float('inf'))] *)
Definition get_mae (r : BacktestResult) : pyfloat :=
  match mae r with
  | Some m => m
  | None => PInf
  end.

Definition Results : Type := list (string * BacktestResult).

Fixpoint dict_get {V} (d : list (string * V)) (k : string) : option V :=
  match d with
  | [] => None
  | (k', v) :: d' => if String.eqb k k' then Some v else dict_get d' k
  end.

(** ** Backtester.select_best_model *)

Definition select_step (st : option string * pyfloat * BacktestResult)
    (item : string * BacktestResult) : option string * pyfloat * BacktestResult :=
  let '(best_model_name, best_mae, best_results) := st in
  let '(model_name, results) := item in
  if has_error results then st
  else
    let mae := get_mae results in
    if flt mae best_mae then (Some model_name, mae, results) else st.

Definition select_best_model (backtest_results : Results) : result (string * BacktestResult) :=
  let '(best_model_name, _, best_results) :=
    fold_left select_step backtest_results (None, PInf, empty_result) in
  match best_model_name with
  | Some name => Ok (name, best_results)
  | None =>
      match map fst backtest_results with
      | [] => Raise (mkExn IndexError "list index out of range")
      | name :: _ =>
          match dict_get backtest_results name with
          | Some r => Ok (name, r)
          | None => Raise (mkExn IndexError name)
          end
      end
  end.

(** An entry the loop can select: no error field and an MAE below [inf]. *)
Definition scorable (item : string * BacktestResult) : bool :=
  negb (has_error (snd item)) && flt (get_mae (snd item)) PInf.

Definition item_mae (item : string * BacktestResult) : pyfloat := get_mae (snd item).

(** [out] sits at position [i] of [rs], is among the entries satisfying [ok],
    no such entry has a lower MAE, and every one before it has a strictly
    higher MAE. *)
Definition first_lowest (ok : string * BacktestResult -> bool) (rs : Results)
    (out : string * BacktestResult) : Prop :=
  exists i, nth_error rs i = Some out /\ ok out = true /\
    forall j c, nth_error rs j = Some c -> ok c = true ->
      flt (item_mae c) (item_mae out) = false /\
      ((j < i)%nat -> flt (item_mae out) (item_mae c) = true).

Definition error_free (item : string * BacktestResult) : bool :=
  negb (has_error (snd item)).

(** The selection rule as the specification words it: the first lowest
    among the error-free entries, and the first entry when all have an
    error. *)
Definition spec_selection (rs : Results) (out : string * BacktestResult) : Prop :=
  (existsb error_free rs = true -> first_lowest error_free rs out) /\
  (existsb error_free rs = false -> nth_error rs 0 = Some out).

(** What the loop of [select_best_model] has established after a prefix. *)
Definition select_inv (pre : Results) (st : option string * pyfloat * BacktestResult) : Prop :=
  let '(best_model_name, best_mae, best_results) := st in
  match best_model_name with
  | None => best_mae = PInf /\ existsb scorable pre = false
  | Some name =>
      best_mae = get_mae best_results /\ first_lowest scorable pre (name, best_results)
  end.

(** Two results: an errored first entry, then an error-free entry whose MAE is
    +infinity (what a backtest with no aligned points returns). *)
Definition c1_results : Results :=
  [ ("A"%string, mkResult (Some PInf) (Some PInf) (Some []) None (Some "boom"%string));
    ("B"%string, mkResult (Some PInf) (Some PInf) (Some []) None None) ].


(** ** pandas: Series, positional indexing, date ranges *)

(** A Series with a DatetimeIndex: (timestamp in ns, value), in index order. *)
Definition Series : Type := list (Z * pyfloat).

Definition values (s : Series) : list pyfloat := map snd s.
Definition index (s : Series) : list Z := map fst s.

Definition len {A} (l : list A) : Z := Z.of_nat (List.length l).

(** [pd.Timedelta(days=1)] in nanoseconds. *)
Definition DAY : Z := 86400000000000.

(** A slice bound [k] on a sequence of length [n]: negative bounds count from
    the end, and bounds are clipped to [0, n]. *)
Definition slice_bound (n k : Z) : Z :=
  if k <? 0 then Z.max (n + k) 0 else Z.min k n.

(** [s.iloc[:k]] *)
Definition iloc_upto {A} (s : list A) (k : Z) : list A :=
  firstn (Z.to_nat (slice_bound (len s) k)) s.

(** [s.iloc[k:]] *)
Definition iloc_from {A} (s : list A) (k : Z) : list A :=
  skipn (Z.to_nat (slice_bound (len s) k)) s.

(** [s.iloc[k]] and [s.index[k]]: a negative [k] counts from the end; out of
    range raises IndexError. *)
Definition iloc_at {A} (s : list A) (k : Z) : result A :=
  let i := if k <? 0 then len s + k else k in
  if (0 <=? i) && (i <? len s) then
    match nth_error s (Z.to_nat i) with
    | Some x => Ok x
    | None => Raise (mkExn IndexError "single positional indexer is out-of-bounds")
    end
  else Raise (mkExn IndexError "single positional indexer is out-of-bounds").

(** [pd.Timestamp.max], in nanoseconds: 2262-04-11 23:47:16.854775807. *)
Definition Timestamp_max : Z := 9223372036854775807.

Definition out_of_bounds : exn := mkExn OutOfBoundsDatetime "Out of bounds nanosecond timestamp".

(** [t + pd.Timedelta(...)] for a positive duration [d]: the sum must be a
    timestamp. *)
Definition Timestamp_add (t d : Z) : result Z :=
  if t + d <=? Timestamp_max then Ok (t + d) else Raise out_of_bounds.

(** [periods] consecutive days from [start]. *)
Definition days_from (start : Z) (periods : nat) : list Z :=
  map (fun i => start + Z.of_nat i * DAY) (seq 0 periods).

(** [pd.date_range(start=start, periods=periods, freq='D')]: every day of
    the range must be a timestamp. *)
Definition date_range (start : Z) (periods : nat) : result (list Z) :=
  match periods with
  | O => Ok []
  | S n =>
      if start + Z.of_nat n * DAY <=? Timestamp_max then Ok (days_from start periods)
      else Raise out_of_bounds
  end.

Arguments Timestamp_add : simpl never.
Arguments date_range : simpl never.

(** [pd.Series(data, index=index)]: the lengths must agree. *)
Definition mk_series (data : list pyfloat) (idx : list Z) : result Series :=
  if (List.length data =? List.length idx)%nat then Ok (combine idx data)
  else Raise (mkExn ValueError "Length of values does not match length of index").

(** [np.arange(a, b)] *)
Definition arange (a b : Z) : list Z :=
  map (fun i => a + Z.of_nat i) (seq 0 (Z.to_nat (b - a))).

Fixpoint series_get (s : Series) (t : Z) : option pyfloat :=
  match s with
  | [] => None
  | (t', v) :: s' => if t =? t' then Some v else series_get s' t
  end.

(** The inner join of two indexes without repeated labels: the labels of
    [actual] that [predicted] has too, in the order of [actual], each with
    both values. *)
Fixpoint align_inner (actual predicted : Series) : list (Z * (pyfloat * pyfloat)) :=
  match actual with
  | [] => []
  | (t, a) :: rest =>
      match series_get predicted t with
      | Some p => (t, (a, p)) :: align_inner rest predicted
      | None => align_inner rest predicted
      end
  end.

(** [actual.index.equals(predicted.index)] *)
Fixpoint index_equals (i1 i2 : list Z) : bool :=
  match i1, i2 with
  | [], [] => true
  | t1 :: r1, t2 :: r2 => (t1 =? t2) && index_equals r1 r2
  | _, _ => false
  end.

(** Two series of the same index, position by position. *)
Definition pair_up (actual predicted : Series) : list (Z * (pyfloat * pyfloat)) :=
  map (fun ap => (fst (fst ap), (snd (fst ap), snd (snd ap)))) (combine actual predicted).

(** [actual.align(predicted, join='inner')]: two series of equal indexes are
    returned as they are, position by position; otherwise the indexes are
    joined.  The join is the one of indexes without repeated labels: what
    pandas returns for a label that one of two different indexes repeats is
    not represented. *)
Definition align (actual predicted : Series) : list (Z * (pyfloat * pyfloat)) :=
  if index_equals (index actual) (index predicted) then pair_up actual predicted
  else align_inner actual predicted.

(** ** Hyperparameter values and dicts of them *)

Inductive pval : Type :=
| PNone
| PInt (z : Z)
| PStr (s : string).

Definition is_none (v : pval) : bool :=
  match v with
  | PNone => true
  | _ => false
  end.

Definition Params : Type := list (string * pval).

(** [d[k] = v]: overwrite in place, or append a new key. *)
Fixpoint dict_set {V} (d : list (string * V)) (k : string) (v : V) : list (string * V) :=
  match d with
  | [] => [(k, v)]
  | (k', v') :: d' => if String.eqb k k' then (k, v) :: d' else (k', v') :: dict_set d' k v
  end.

(** [dict(pairs)] *)
Definition dict_of {V} (pairs : list (string * V)) : list (string * V) :=
  fold_left (fun d kv => dict_set d (fst kv) (snd kv)) pairs [].

(** [d.get(k, default)] *)
Definition dict_get_default {V} (d : list (string * V)) (k : string) (default : V) : V :=
  match dict_get d k with
  | Some v => v
  | None => default
  end.

(** ** Logging *)

Inductive level : Type := DEBUG | INFO | WARNING | ERROR.

(** The pieces of a formatted message. *)
Inductive piece : Type :=
| Text (s : string)
| ShowInt (z : Z)
| ShowFloat (x : pyfloat)
| ShowParams (p : Params).

Definition LogRecord : Type := (level * list piece)%type.

(** ** State and exceptions *)

Definition M (S A : Type) : Type := S -> result A * S.

Definition ret {S A} (a : A) : M S A := fun s => (Ok a, s).

Definition raise {S A} (e : exn) : M S A := fun s => (Raise e, s).

Definition lift {S A} (r : result A) : M S A := fun s => (r, s).

Definition bind {S A B} (m : M S A) (f : A -> M S B) : M S B :=
  fun s =>
    match m s with
    | (Ok a, s') => f a s'
    | (Raise e, s') => (Raise e, s')
    end.

(** [try: body except Exception as e: handler e] *)
Definition try_except {S A} (body : M S A) (handler : exn -> M S A) : M S A :=
  fun s =>
    match body s with
    | (Ok a, s') => (Ok a, s')
    | (Raise e, s') => handler e s'
    end.

Notation "x <- m ;; k" := (bind m (fun x => k))
  (at level 61, m at next level, right associativity).
Notation "m ;;; k" := (bind m (fun _ => k))
  (at level 61, right associativity).

(** An object together with the log. *)
Record Obj (R : Type) : Type := mkObj { self : R; logs : list LogRecord }.

Arguments mkObj {R} self logs.

Definition get_self {R} : M (Obj R) R := fun o => (Ok (self o), o).

Definition update_self {R} (f : R -> R) : M (Obj R) unit :=
  fun o => (Ok tt, mkObj (f (self o)) (logs o)).

Definition log {R} (lv : level) (msg : list piece) : M (Obj R) unit :=
  fun o => (Ok tt, mkObj (self o) (logs o ++ [(lv, msg)])).

(** Read an attribute that exists only once it has been assigned. *)
Definition attr {R A} (field : R -> option A) (name : string) : M (Obj R) A :=
  fun o =>
    match field (self o) with
    | Some a => (Ok a, o)
    | None => (Raise (mkExn AttributeError name), o)
    end.

(** Run a method of an object of class [R] held in a field of type [T]. *)
Definition on_object {R T A} (wrap : R -> T) (r : R) (m : M (Obj R) A) : M (Obj T) A :=
  fun o =>
    let '(res, o') := m (mkObj r (logs o)) in
    (res, mkObj (wrap (self o')) (logs o')).

(** [-v] and [i % v] for a hyperparameter used as an integer. *)
Definition as_int (v : pval) : result Z :=
  match v with
  | PInt z => Ok z
  | PNone => Raise (mkExn TypeError "bad operand type for unary -: 'NoneType'")
  | PStr _ => Raise (mkExn TypeError "bad operand type for unary -: 'str'")
  end.

Definition py_mod (a b : Z) : result Z :=
  if b =? 0 then Raise (mkExn ZeroDivisionError "integer modulo by zero")
  else Ok (a mod b).

(** ** The external numerical libraries *)

Class Libraries : Type := {
  (** numpy *)
  np_mean : list pyfloat -> pyfloat;
  (** sklearn.linear_model.LinearRegression *)
  LinearRegression : Type;
  LinearRegression_new : LinearRegression;
  LinearRegression_fit : LinearRegression -> list Z -> list pyfloat -> result LinearRegression;
  LinearRegression_coef0 : LinearRegression -> result pyfloat;
  LinearRegression_predict : LinearRegression -> list Z -> result (list pyfloat);
  (** statsmodels.tsa.holtwinters.ExponentialSmoothing and its fit results *)
  HoltWinters : Type;
  HoltWintersResults : Type;
  ExponentialSmoothing : Series -> pval -> pval -> pval -> result HoltWinters;
  HoltWinters_fit : HoltWinters -> result HoltWintersResults;
  HoltWinters_forecast : HoltWintersResults -> nat -> result Series;
  (** sklearn.metrics *)
  mean_absolute_error : list pyfloat -> list pyfloat -> result pyfloat;
  mean_absolute_percentage_error : list pyfloat -> list pyfloat -> result pyfloat
}.

Definition not_fitted : exn := mkExn ValueError "Model must be fitted before prediction".

(** ** Models that need no library *)

Record NaiveModel : Type := mkNaive {
  nv_fitted : bool;
  nv_last_value : option pyfloat;
  nv_data : option Series
}.

Definition NaiveModel_init : NaiveModel := mkNaive false None None.

Definition NaiveModel_fit (data : Series) : M (Obj NaiveModel) unit :=
  last <- lift (iloc_at data (-1)) ;;
  update_self (fun m => mkNaive (nv_fitted m) (Some (snd last)) (nv_data m)) ;;;
  update_self (fun m => mkNaive (nv_fitted m) (nv_last_value m) (Some data)) ;;;
  update_self (fun m => mkNaive true (nv_last_value m) (nv_data m)).

Definition NaiveModel_predict (steps : nat) : M (Obj NaiveModel) Series :=
  m <- get_self ;;
  if negb (nv_fitted m) then raise not_fitted
  else
    data <- attr nv_data "data" ;;
    last_date <- lift (iloc_at data (-1)) ;;
    start <- lift (Timestamp_add (fst last_date) DAY) ;;
    forecast_dates <- lift (date_range start steps) ;;
    last_value <- attr nv_last_value "last_value" ;;
    lift (mk_series (repeat last_value steps) forecast_dates).

Record SeasonalNaiveModel : Type := mkSeasonalNaive {
  sn_fitted : bool;
  sn_seasonal_period : pval;
  sn_data : option Series
}.

Definition SeasonalNaiveModel_init (seasonal_period : pval) : SeasonalNaiveModel :=
  mkSeasonalNaive false seasonal_period None.

Definition SeasonalNaiveModel_fit (data : Series) : M (Obj SeasonalNaiveModel) unit :=
  update_self (fun m => mkSeasonalNaive (sn_fitted m) (sn_seasonal_period m) (Some data)) ;;;
  update_self (fun m => mkSeasonalNaive true (sn_seasonal_period m) (sn_data m)).

(** One turn of the loop [for i in range(steps)]. *)
Definition seasonal_value (seasonal_period : pval) (data : Series) (i : nat) : result pyfloat :=
  match as_int seasonal_period with
  | Raise e => Raise e
  | Ok p =>
      match py_mod (Z.of_nat i) p with
      | Raise e => Raise e
      | Ok r =>
          let seasonal_index := - p + r in
          match iloc_at data seasonal_index with
          | Raise e => Raise e
          | Ok x => Ok (snd x)
          end
      end
  end.

(** The loop: [predictions.append] for [i = 0, 1, ...], stopping at the first
    exception. *)
Fixpoint seasonal_loop (seasonal_period : pval) (data : Series) (steps_range : list nat)
    (predictions : list pyfloat) : result (list pyfloat) :=
  match steps_range with
  | [] => Ok predictions
  | i :: rest =>
      match seasonal_value seasonal_period data i with
      | Raise e => Raise e
      | Ok v => seasonal_loop seasonal_period data rest (predictions ++ [v])
      end
  end.

Definition SeasonalNaiveModel_predict (steps : nat) : M (Obj SeasonalNaiveModel) Series :=
  m <- get_self ;;
  if negb (sn_fitted m) then raise not_fitted
  else
    data <- attr sn_data "data" ;;
    last_date <- lift (iloc_at data (-1)) ;;
    start <- lift (Timestamp_add (fst last_date) DAY) ;;
    forecast_dates <- lift (date_range start steps) ;;
    preds <- lift (seasonal_loop (sn_seasonal_period m) data (seq 0 steps) []) ;;
    lift (mk_series preds forecast_dates).

(** ** Models built on the libraries, the metric calculator, the backtester
       and the grid search *)

Section Pipeline.

Context {L : Libraries}.

Record MovingAverageModel : Type := mkMovingAverage {
  ma_fitted : bool;
  ma_window : pval;
  ma_data : option Series;
  ma_trend_slope : option pyfloat
}.

Definition MovingAverageModel_init (window : pval) : MovingAverageModel :=
  mkMovingAverage false window None None.

Definition set_trend_slope (x : pyfloat) : M (Obj MovingAverageModel) unit :=
  update_self (fun m => mkMovingAverage (ma_fitted m) (ma_window m) (ma_data m) (Some x)).

Definition MovingAverageModel_fit (data : Series) : M (Obj MovingAverageModel) unit :=
  update_self (fun m => mkMovingAverage (ma_fitted m) (ma_window m) (Some data) (ma_trend_slope m)) ;;;
  update_self (fun m => mkMovingAverage true (ma_window m) (ma_data m) (ma_trend_slope m)) ;;;
  let recent_data := iloc_from data (- Z.min 30 (len data)) in
  if 1 <? len recent_data then
    let x := arange 0 (len recent_data) in
    let y := values recent_data in
    lr <- lift (LinearRegression_fit LinearRegression_new x y) ;;
    slope <- lift (LinearRegression_coef0 lr) ;;
    set_trend_slope slope
  else set_trend_slope (of_int 0).

Definition MovingAverageModel_predict (steps : nat) : M (Obj MovingAverageModel) Series :=
  m <- get_self ;;
  if negb (ma_fitted m) then raise not_fitted
  else
    data <- attr ma_data "data" ;;
    window <- lift (as_int (ma_window m)) ;;
    let last_values := values (iloc_from data (- window)) in
    let avg_value := np_mean last_values in
    forecast_values <-
      match steps with
      | O => ret []
      | _ =>
          slope <- attr ma_trend_slope "trend_slope" ;;
          ret (map (fun i => fadd avg_value (fmul (of_int (Z.of_nat i + 1)) slope)) (seq 0 steps))
      end ;;
    last_date <- lift (iloc_at data (-1)) ;;
    start <- lift (Timestamp_add (fst last_date) DAY) ;;
    forecast_dates <- lift (date_range start steps) ;;
    lift (mk_series forecast_values forecast_dates).

Record ExponentialSmoothingModel : Type := mkExponentialSmoothing {
  es_fitted : bool;
  es_trend : pval;
  es_seasonal : pval;
  es_seasonal_periods : pval;
  es_model : option HoltWinters;
  es_fitted_model : option HoltWintersResults
}.

Definition ExponentialSmoothingModel_init (trend seasonal seasonal_periods : pval)
    : ExponentialSmoothingModel :=
  mkExponentialSmoothing false trend seasonal seasonal_periods None None.

Definition es_set_model (hw : HoltWinters) : M (Obj ExponentialSmoothingModel) unit :=
  update_self (fun m => mkExponentialSmoothing (es_fitted m) (es_trend m) (es_seasonal m)
                          (es_seasonal_periods m) (Some hw) (es_fitted_model m)).

Definition es_set_fitted_model (r : HoltWintersResults) : M (Obj ExponentialSmoothingModel) unit :=
  update_self (fun m => mkExponentialSmoothing (es_fitted m) (es_trend m) (es_seasonal m)
                          (es_seasonal_periods m) (es_model m) (Some r)).

Definition es_set_fitted : M (Obj ExponentialSmoothingModel) unit :=
  update_self (fun m => mkExponentialSmoothing true (es_trend m) (es_seasonal m)
                          (es_seasonal_periods m) (es_model m) (es_fitted_model m)).

(** The three statements shared by the [try] body and the handler. *)
Definition es_fit_with (data : Series) (trend seasonal seasonal_periods : pval)
    : M (Obj ExponentialSmoothingModel) unit :=
  hw <- lift (ExponentialSmoothing data trend seasonal seasonal_periods) ;;
  es_set_model hw ;;;
  r <- lift (HoltWinters_fit hw) ;;
  es_set_fitted_model r ;;;
  es_set_fitted.

Definition es_fit_failed (e : exn) : LogRecord :=
  (ERROR, [Text "Failed to fit Exponential Smoothing model: "; Text (message e)]).

Definition ExponentialSmoothingModel_fit (data : Series) : M (Obj ExponentialSmoothingModel) unit :=
  try_except
    (m <- get_self ;;
     es_fit_with data (es_trend m) (es_seasonal m) (es_seasonal_periods m))
    (fun e =>
       log (fst (es_fit_failed e)) (snd (es_fit_failed e)) ;;;
       es_fit_with data PNone PNone PNone).

Definition ExponentialSmoothingModel_predict (steps : nat) : M (Obj ExponentialSmoothingModel) Series :=
  m <- get_self ;;
  if negb (es_fitted m) then raise not_fitted
  else
    fm <- attr es_fitted_model "fitted_model" ;;
    lift (HoltWinters_forecast fm steps).

Record LinearRegressionModel : Type := mkLinearRegression {
  lr_fitted : bool;
  lr_model : LinearRegression;
  lr_data : option Series
}.

Definition LinearRegressionModel_init : LinearRegressionModel :=
  mkLinearRegression false LinearRegression_new None.

Definition LinearRegressionModel_fit (data : Series) : M (Obj LinearRegressionModel) unit :=
  update_self (fun m => mkLinearRegression (lr_fitted m) (lr_model m) (Some data)) ;;;
  let X := arange 0 (len data) in
  let y := values data in
  m <- get_self ;;
  fitted <- lift (LinearRegression_fit (lr_model m) X y) ;;
  update_self (fun m => mkLinearRegression (lr_fitted m) fitted (lr_data m)) ;;;
  update_self (fun m => mkLinearRegression true (lr_model m) (lr_data m)).

Definition LinearRegressionModel_predict (steps : nat) : M (Obj LinearRegressionModel) Series :=
  m <- get_self ;;
  if negb (lr_fitted m) then raise not_fitted
  else
    data <- attr lr_data "data" ;;
    let start_index := len data in
    let X_future := arange start_index (start_index + Z.of_nat steps) in
    preds <- lift (LinearRegression_predict (lr_model m) X_future) ;;
    last_date <- lift (iloc_at data (-1)) ;;
    start <- lift (Timestamp_add (fst last_date) DAY) ;;
    forecast_dates <- lift (date_range start steps) ;;
    lift (mk_series preds forecast_dates).

(** *** The five variants behind one interface *)

Inductive ForecastingModel : Type :=
| MovingAverage (m : MovingAverageModel)
| ExpSmoothing (m : ExponentialSmoothingModel)
| Naive (m : NaiveModel)
| SeasonalNaive (m : SeasonalNaiveModel)
| LinearReg (m : LinearRegressionModel).

Definition name (m : ForecastingModel) : string :=
  match m with
  | MovingAverage _ => "Moving Average"
  | ExpSmoothing _ => "Exponential Smoothing"
  | Naive _ => "Naive"
  | SeasonalNaive _ => "Seasonal Naive"
  | LinearReg _ => "Linear Regression"
  end.

Definition fit (data : Series) : M (Obj ForecastingModel) unit :=
  fun o =>
    match self o with
    | MovingAverage m => on_object MovingAverage m (MovingAverageModel_fit data) o
    | ExpSmoothing m => on_object ExpSmoothing m (ExponentialSmoothingModel_fit data) o
    | Naive m => on_object Naive m (NaiveModel_fit data) o
    | SeasonalNaive m => on_object SeasonalNaive m (SeasonalNaiveModel_fit data) o
    | LinearReg m => on_object LinearReg m (LinearRegressionModel_fit data) o
    end.

Definition predict (steps : nat) : M (Obj ForecastingModel) Series :=
  fun o =>
    match self o with
    | MovingAverage m => on_object MovingAverage m (MovingAverageModel_predict steps) o
    | ExpSmoothing m => on_object ExpSmoothing m (ExponentialSmoothingModel_predict steps) o
    | Naive m => on_object Naive m (NaiveModel_predict steps) o
    | SeasonalNaive m => on_object SeasonalNaive m (SeasonalNaiveModel_predict steps) o
    | LinearReg m => on_object LinearReg m (LinearRegressionModel_predict steps) o
    end.

Definition fitted (m : ForecastingModel) : bool :=
  match m with
  | MovingAverage m => ma_fitted m
  | ExpSmoothing m => es_fitted m
  | Naive m => nv_fitted m
  | SeasonalNaive m => sn_fitted m
  | LinearReg m => lr_fitted m
  end.

(** *** calculate_metrics *)

Record Metrics : Type := mkMetrics { metrics_mae : pyfloat; metrics_mape : pyfloat }.

(** The aligned pairs that are left once the NaN mask is applied. *)
Definition aligned_pairs (actual predicted : Series) : list (Z * (pyfloat * pyfloat)) :=
  filter (fun tap => negb (fis_nan (fst (snd tap)) || fis_nan (snd (snd tap))))
         (align actual predicted).

(** [aligned_actual.replace(0, 1e-10)] *)
Definition replace_zero (xs : list pyfloat) : list pyfloat :=
  map (fun x => if fis_zero x then epsilon else x) xs.

Definition calculate_metrics (actual predicted : Series) : result Metrics :=
  let pairs := aligned_pairs actual predicted in
  let aligned_actual := map (fun tap => fst (snd tap)) pairs in
  let aligned_predicted := map (fun tap => snd (snd tap)) pairs in
  if len aligned_actual =? 0 then Ok (mkMetrics PInf PInf)
  else
    match mean_absolute_error aligned_actual aligned_predicted with
    | Raise e => Raise e
    | Ok mae =>
        let aligned_actual :=
          if existsb fis_zero aligned_actual then replace_zero aligned_actual
          else aligned_actual in
        match mean_absolute_percentage_error aligned_actual aligned_predicted with
        | Raise e => Raise e
        | Ok mape => Ok (mkMetrics mae mape)
        end
    end.

(** *** Backtester *)

Record Backtester : Type := mkBacktester { models : list ForecastingModel }.

Definition unscored : BacktestResult :=
  mkResult (Some PInf) (Some PInf) (Some []) None None.

Definition failed (e : exn) : BacktestResult :=
  mkResult (Some PInf) (Some PInf) (Some []) None (Some (message e)).

(** The train/test split of [backtest_single_model]:
    [int(len(data) * train_size)], the length converted to a float, the
    product rounded, the result truncated. *)
Definition split_index (data : Series) (train_size : float64) : result Z :=
  match float_of_int (len data) with
  | Raise e => Raise e
  | Ok n => py_int (float_mul n train_size)
  end.

Definition backtest_single_model (data : Series) (train_size : float64) (forecast_horizon : Z)
    : M (Obj ForecastingModel) BacktestResult :=
  split <- lift (split_index data train_size) ;;
  let train_data := iloc_upto data split in
  let test_data := iloc_from data split in
  forecast_horizon <-
    (if len test_data <? forecast_horizon then
       log WARNING [Text "Test data shorter than forecast horizon. Adjusting horizon."] ;;;
       ret (len test_data)
     else ret forecast_horizon) ;;
  if forecast_horizon <=? 0 then ret unscored
  else
    try_except
      (fit train_data ;;;
       predictions <- predict (Z.to_nat forecast_horizon) ;;
       let actual_values := iloc_upto test_data forecast_horizon in
       metrics <- lift (calculate_metrics actual_values predictions) ;;
       ret (mkResult (Some (metrics_mae metrics)) (Some (metrics_mape metrics))
                     (Some (values predictions)) (Some (values actual_values)) None))
      (fun e =>
         m <- get_self ;;
         log ERROR [Text "Backtesting failed for "; Text (name m); Text ": "; Text (message e)] ;;;
         ret (failed e)).

(** The loop of [backtest_all_models] over [self.models]: every model object
    is updated in place, [results] grows by one key per model name. *)
Fixpoint backtest_loop (ms : list ForecastingModel) (data : Series) (train_size : float64)
    (forecast_horizon : Z) (results : Results) (lg : list LogRecord)
    : Results * list ForecastingModel * list LogRecord :=
  match ms with
  | [] => (results, [], lg)
  | model :: rest =>
      let lg := lg ++ [(INFO, [Text "Backtesting "; Text (name model)])] in
      let '(r, o) := backtest_single_model data train_size forecast_horizon (mkObj model lg) in
      let '(results, lg) :=
        match r with
        | Ok model_results => (dict_set results (name (self o)) model_results, logs o)
        | Raise e =>
            (dict_set results (name (self o)) (failed e),
             logs o ++ [(ERROR, [Text "Failed to backtest "; Text (name (self o)); Text ": ";
                                 Text (message e)])])
        end in
      let '(results, rest, lg) :=
        backtest_loop rest data train_size forecast_horizon results lg in
      (results, self o :: rest, lg)
  end.

Definition backtest_all_models (data : Series) (train_size : float64) (forecast_horizon : Z)
    : M (Obj Backtester) Results :=
  fun o =>
    let '(results, ms, lg) :=
      backtest_loop (models (self o)) data train_size forecast_horizon [] (logs o) in
    (Ok results, mkObj (mkBacktester ms) lg).

Definition create_default_models : list ForecastingModel :=
  [ LinearReg LinearRegressionModel_init;
    MovingAverage (MovingAverageModel_init (PInt 7));
    ExpSmoothing (ExponentialSmoothingModel_init (PStr "add") PNone PNone);
    Naive NaiveModel_init;
    SeasonalNaive (SeasonalNaiveModel_init (PInt 7)) ].

(** *** GridSearchOptimizer *)

Record GridSearchOptimizer : Type := mkGridSearchOptimizer {
  param_grids : list (string * list (string * list pval))
}.

Definition GridSearchOptimizer_init : GridSearchOptimizer :=
  mkGridSearchOptimizer
    [ ("Moving Average"%string,
         [ ("window"%string, [PInt 3; PInt 5; PInt 7; PInt 14; PInt 30]) ]);
      ("Exponential Smoothing"%string,
         [ ("trend"%string, [PStr "add"; PStr "mul"; PNone]);
           ("seasonal"%string, [PNone; PStr "add"; PStr "mul"]);
           ("seasonal_periods"%string, [PNone; PInt 7; PInt 12; PInt 30]) ]);
      ("Naive"%string, []);
      ("Seasonal Naive"%string,
         [ ("seasonal_period"%string, [PInt 3; PInt 5; PInt 7; PInt 12; PInt 30]) ]) ].

(** [[v for v in val_list if v is not None or len(val_list) == 1 or v is not None]] *)
Definition processed (val_list : list pval) : list pval :=
  filter (fun v => negb (is_none v) || (len val_list =? 1) || negb (is_none v)) val_list.

(** [itertools.product] of the lists: the leftmost list varies slowest. *)
Fixpoint product {A} (lists : list (list A)) : list (list A) :=
  match lists with
  | [] => [[]]
  | l :: rest => flat_map (fun x => map (cons x) (product rest)) l
  end.

Definition generate_param_combinations (self : GridSearchOptimizer) (model_name : string)
    : list Params :=
  match dict_get (param_grids self) model_name with
  | None => [[]]
  | Some param_grid =>
      match param_grid with
      | [] => [[]]
      | _ =>
          let keys := map fst param_grid in
          let processed_values := map (fun kv => processed (snd kv)) param_grid in
          let combinations := product processed_values in
          map (fun combination => dict_of (combine keys combination)) combinations
      end
  end.

Definition create_model_with_params (model_name : string) (params : Params)
    : result ForecastingModel :=
  if String.eqb model_name "Moving Average" then
    Ok (MovingAverage (MovingAverageModel_init (dict_get_default params "window" (PInt 7))))
  else if String.eqb model_name "Exponential Smoothing" then
    Ok (ExpSmoothing (ExponentialSmoothingModel_init
                        (dict_get_default params "trend" PNone)
                        (dict_get_default params "seasonal" PNone)
                        (dict_get_default params "seasonal_periods" PNone)))
  else if String.eqb model_name "Naive" then Ok (Naive NaiveModel_init)
  else if String.eqb model_name "Seasonal Naive" then
    Ok (SeasonalNaive (SeasonalNaiveModel_init (dict_get_default params "seasonal_period" (PInt 7))))
  else Raise (mkExn ValueError ("Unknown model: " ++ model_name)).

(** The body of the loop of [grid_search], from the best so far to the best
    after [params]. *)
Definition grid_search_step (data : Series) (model_name : string) (train_size : float64)
    (forecast_horizon : Z) (best : Params * pyfloat) (params : Params)
    : M (Obj GridSearchOptimizer) (Params * pyfloat) :=
  try_except
    (model <- lift (create_model_with_params model_name params) ;;
     results <- (fun o =>
                   let '(r, om) :=
                     backtest_single_model data train_size forecast_horizon
                       (mkObj model (logs o)) in
                   (r, mkObj (self o) (logs om))) ;;
     let mae := get_mae results in
     let best := if flt mae (snd best) then (params, mae) else best in
     log DEBUG [Text "Params "; ShowParams params; Text ": MAE = "; ShowFloat mae] ;;;
     ret best)
    (fun e =>
       log WARNING [Text "Failed to test parameters "; ShowParams params; Text " for ";
                    Text model_name; Text ": "; Text (message e)] ;;;
       ret best).

Fixpoint grid_search_loop (data : Series) (model_name : string) (train_size : float64)
    (forecast_horizon : Z) (param_combinations : list Params) (best : Params * pyfloat)
    : M (Obj GridSearchOptimizer) (Params * pyfloat) :=
  match param_combinations with
  | [] => ret best
  | params :: rest =>
      best <- grid_search_step data model_name train_size forecast_horizon best params ;;
      grid_search_loop data model_name train_size forecast_horizon rest best
  end.

Definition grid_search (data : Series) (model_name : string) (train_size : float64)
    (forecast_horizon : Z) : M (Obj GridSearchOptimizer) (Params * pyfloat) :=
  g <- get_self ;;
  let param_combinations := generate_param_combinations g model_name in
  log INFO [Text "Performing grid search for "; Text model_name; Text " with ";
            ShowInt (len param_combinations); Text " parameter combinations"] ;;;
  grid_search_loop data model_name train_size forecast_horizon param_combinations ([], PInf).

End Pipeline.

(** ** An executable instance of the libraries

    Exact-arithmetic versions of the external routines, to run the pipeline
    on concrete inputs.  The theorems below hold for every instance of
    [Libraries]; this one only provides inputs on which they can be
    evaluated. *)

Module Exact.

Definition finite (x : pyfloat) : option Q :=
  match x with
  | Fin q => Some q
  | _ => None
  end.

Fixpoint all_finite (xs : list pyfloat) : option (list Q) :=
  match xs with
  | [] => Some []
  | x :: rest =>
      match finite x, all_finite rest with
      | Some q, Some qs => Some (q :: qs)
      | _, _ => None
      end
  end.

Definition Qsum (qs : list Q) : Q := fold_right Qplus 0%Q qs.

Definition Qmean (qs : list Q) : Q := (Qsum qs / inject_Z (len qs))%Q.

Definition mean (xs : list pyfloat) : pyfloat :=
  match xs, all_finite xs with
  | _ :: _, Some qs => Fin (Qred (Qmean qs))
  | _, _ => NaN
  end.

Definition bad_input : exn := mkExn ValueError "Input contains NaN or infinity, or is empty".

(** Ordinary least squares of [y] against [x]: (intercept, slope). *)
Definition ols (x : list Z) (y : list pyfloat) : result (Q * Q) :=
  match x, all_finite y with
  | _ :: _, Some ys =>
      let xs := map inject_Z x in
      let xm := Qmean xs in
      let ym := Qmean ys in
      let sxy := Qsum (map (fun p => ((fst p - xm) * (snd p - ym))%Q) (combine xs ys)) in
      let sxx := Qsum (map (fun a => ((a - xm) * (a - xm))%Q) xs) in
      let slope := if Qeq_bool sxx 0 then 0%Q else Qred (sxy / sxx)%Q in
      Ok (Qred (ym - slope * xm)%Q, slope)
  | _, _ => Raise bad_input
  end.

Definition linreg_predict (m : option (Q * Q)) (x : list Z) : result (list pyfloat) :=
  match m, x with
  | Some (a, b), _ :: _ => Ok (map (fun i => Fin (Qred (a + b * inject_Z i)%Q)) x)
  | _, _ => Raise bad_input
  end.

(** Holt-Winters, reduced to what the examples need: an empty series is
    rejected, and so is a seasonal component without two full cycles of
    data; the forecast repeats the last level on a daily index. *)
Definition hw_new (data : Series) (trend seasonal seasonal_periods : pval) : result Series :=
  match data, seasonal with
  | [], _ => Raise bad_input
  | _, PNone => Ok data
  | _, _ =>
      match seasonal_periods with
      | PInt p =>
          if (2 <=? p) && (2 * p <=? len data) then Ok data
          else Raise (mkExn ValueError "less than two full seasonal cycles in the data")
      | _ => Raise (mkExn ValueError "seasonal_periods has not been provided")
      end
  end.

Definition hw_forecast (data : Series) (steps : nat) : result Series :=
  match iloc_at data (-1) with
  | Raise e => Raise e
  | Ok last =>
      match Timestamp_add (fst last) DAY with
      | Raise e => Raise e
      | Ok start =>
          match date_range start steps with
          | Raise e => Raise e
          | Ok dates => Ok (combine dates (repeat (snd last) steps))
          end
      end
  end.

Definition abs_errors (a p : list Q) : list Q :=
  map (fun ap => Qabs (fst ap - snd ap)%Q) (combine a p).

Definition mae (a p : list pyfloat) : result pyfloat :=
  match a, all_finite a, all_finite p with
  | _ :: _, Some qa, Some qp => Ok (Fin (Qred (Qmean (abs_errors qa qp))))
  | _, _, _ => Raise bad_input
  end.

Definition eps : Q := 1 # 4503599627370496.

Definition Qmax (a b : Q) : Q := if Qle_bool a b then b else a.

Definition mape (a p : list pyfloat) : result pyfloat :=
  match a, all_finite a, all_finite p with
  | _ :: _, Some qa, Some qp =>
      Ok (Fin (Qred (Qmean (map (fun ap => (Qabs (fst ap - snd ap) / Qmax (Qabs (fst ap)) eps)%Q)
                             (combine qa qp)))))
  | _, _, _ => Raise bad_input
  end.

Definition libraries : Libraries := {|
  np_mean := mean;
  LinearRegression := option (Q * Q);
  LinearRegression_new := None;
  LinearRegression_fit := fun _ x y =>
    match ols x y with
    | Ok ab => Ok (Some ab)
    | Raise e => Raise e
    end;
  LinearRegression_coef0 := fun m =>
    match m with
    | Some ab => Ok (Fin (snd ab))
    | None => Raise (mkExn AttributeError "coef_")
    end;
  LinearRegression_predict := linreg_predict;
  HoltWinters := Series;
  HoltWintersResults := Series;
  ExponentialSmoothing := hw_new;
  HoltWinters_fit := fun data => Ok data;
  HoltWinters_forecast := hw_forecast;
  mean_absolute_error := mae;
  mean_absolute_percentage_error := mape
|}.

End Exact.

(** A daily series [v0, v1, ...] starting at timestamp 0. *)
Definition daily (vs : list Z) : Series :=
  combine (days_from 0 (List.length vs)) (map of_int vs).

(** ** Statements of the specification, for comparison with the code *)

(** The combinations as the specification words them: the Cartesian product
    of the candidate lists exactly as the grid declares them. *)
Definition spec_param_combinations (g : GridSearchOptimizer) (model_name : string) : list Params :=
  match dict_get (param_grids g) model_name with
  | None => [[]]
  | Some param_grid =>
      map (combine (map fst param_grid)) (product (map snd param_grid))
  end.

(** Number of tuples of a Cartesian product. *)
Definition product_size {A} (lists : list (list A)) : nat :=
  fold_right Nat.mul 1%nat (map (@List.length A) lists).

(** [combo] assigns, key by key in the order of [grid], one value of the
    candidates that [candidates] leaves in that key's list. *)
Definition assignment_of (candidates : list pval -> list pval)
    (grid : list (string * list pval)) (combo : Params) : Prop :=
  Forall2 (fun kv slot => fst kv = fst slot /\ In (snd kv) (candidates (snd slot))) combo grid.

Definition es_all_none : Params :=
  [ ("trend"%string, PNone); ("seasonal"%string, PNone); ("seasonal_periods"%string, PNone) ].

(** The training value the specification names for forecast step [i] of a
    seasonal naive model of period [p]: position [len(train) - p + (i mod p)]. *)
Definition seasonal_position (train : Series) (p : Z) (i : nat) : nat :=
  Z.to_nat (len train - p + Z.of_nat i mod p).

Definition seasonal_pick (train : Series) (p : Z) (i : nat) : pyfloat :=
  nth (seasonal_position train p i) (values train) NaN.

(** [fc] holds [steps] values, indexed by consecutive days that start the day
    after the last timestamp of [train]. *)
Definition daily_forecast (train fc : Series) (steps : nat) : Prop :=
  List.length fc = steps /\
  exists last, iloc_at train (-1) = Ok last /\
    forall i, (i < steps)%nat ->
      nth_error (index fc) i = Some (fst last + (Z.of_nat i + 1) * DAY).

(** The forecast dates for [steps] days after the last timestamp of [train],
    and the day after the last of them, are timestamps. *)
Definition dates_representable (train : Series) (steps : nat) : bool :=
  match iloc_at train (-1) with
  | Ok last => fst last + (Z.of_nat steps + 1) * DAY <=? Timestamp_max
  | Raise _ => true
  end.



Definition float_finite (x : float64) : bool :=
  match x with
  | S754_zero _ | S754_finite _ _ _ => true
  | _ => false
  end.


(** [float(10)] *)
Definition float_10 : float64 := S754_finite false 5629499534213120 (-49).

Section Statements.

Context {L : Libraries}.

(** [ExponentialSmoothing(data, ...).fit()], constructor and fit in one. *)
Definition hw_fit (data : Series) (trend seasonal seasonal_periods : pval)
    : result HoltWintersResults :=
  match ExponentialSmoothing data trend seasonal seasonal_periods with
  | Ok hw => HoltWinters_fit hw
  | Raise e => Raise e
  end.

(** Outcome of a statement whose only result is whether it raised. *)
Definition outcome {A} (r : result A) : result unit :=
  match r with
  | Ok _ => Ok tt
  | Raise e => Raise e
  end.

(** The fitted models whose [predict] builds its own daily index and cannot
    run out of training data (whether the dates can be built is a separate
    matter): Naive; Moving Average with an integer window;
    Seasonal Naive with an integer period between 1 and the length of the
    training series; Linear Regression when the library returns one
    prediction per future index. *)
Definition predict_supported (m : ForecastingModel) (train : Series) (steps : nat) : Prop :=
  match m with
  | Naive _ => True
  | MovingAverage ma => exists w, ma_window ma = PInt w
  | SeasonalNaive sn => exists p, sn_seasonal_period sn = PInt p /\ 0 < p <= len train
  | LinearReg lr =>
      exists ys,
        LinearRegression_predict (lr_model lr)
          (arange (len train) (len train + Z.of_nat steps)) = Ok ys /\
        List.length ys = steps
  | ExpSmoothing _ => False
  end.

End Statements.

Definition horizon_warning : LogRecord :=
  (WARNING, [Text "Test data shorter than forecast horizon. Adjusting horizon."]).

(** The result of a backtest whose fit, predict and scoring went through. *)
Definition scored (mt : Metrics) (predictions actual_values : Series) : BacktestResult :=
  mkResult (Some (metrics_mae mt)) (Some (metrics_mape mt))
           (Some (values predictions)) (Some (values actual_values)) None.

Definition c7_actual : Series := daily [0; 2].
Definition c7_predicted : Series := daily [1; 2].



Section MetricStatements.

Context {L : Libraries}.


End MetricStatements.

Section BacktestStatements.

Context {L : Libraries}.

(** The state in which the handler of [backtest_single_model] leaves the
    object [o] when [e] was raised. *)
Definition after_failure (o : Obj ForecastingModel) (e : exn) : Obj ForecastingModel :=
  mkObj (self o)
        (logs o ++ [(ERROR, [Text "Backtesting failed for "; Text (name (self o)); Text ": ";
                             Text (message e)])]).

(** An errored result carries the infinite scores. *)
Definition error_means_infinite (r : BacktestResult) : Prop :=
  has_error r = true -> mae r = Some PInf /\ mape r = Some PInf.

End BacktestStatements.

Definition grid_search_info (model_name : string) (n : Z) : LogRecord :=
  (INFO, [Text "Performing grid search for "; Text model_name; Text " with ";
          ShowInt n; Text " parameter combinations"]).

Definition grid_search_warning (model_name : string) (params : Params) (msg : string) : LogRecord :=
  (WARNING, [Text "Failed to test parameters "; ShowParams params; Text " for ";
             Text model_name; Text ": "; Text msg]).

Definition ten_days : Series := daily [1; 2; 3; 4; 5; 6; 7; 8; 9; 10].

Definition five_days : Series := daily [1; 2; 3; 4; 5].

(** 2262-04-11 00:00, the last midnight that is a timestamp. *)
Definition last_day : Z := 106751 * DAY.

(** Two points, the second on the last day. *)
Definition ends_on_last_day : Series := [(last_day - DAY, Fin 1); (last_day, Fin 2)].

(** Seasonal Naive with period 7 backtested on five points: the training part
    is shorter than the period. *)
Definition short_season_backtest : result BacktestResult :=
  fst (backtest_single_model (L := Exact.libraries) five_days float_0_8 7
         (mkObj (SeasonalNaive (SeasonalNaiveModel_init (PInt 7))) [])).

Definition result_or_empty (r : result BacktestResult) : BacktestResult :=
  match r with
  | Ok x => x
  | Raise _ => empty_result
  end.

(** A moving average of window 7 after [fit] on five points. *)
Definition ma7_on_five : Obj (ForecastingModel (L := Exact.libraries)) :=
  snd (fit (L := Exact.libraries) (daily [1; 2; 3; 4; 5])
         (mkObj (MovingAverage (MovingAverageModel_init (PInt 7))) [])).

(** Exponential smoothing asked for a weekly season. *)
Definition es_seasonal_on_three : ExponentialSmoothingModel (L := Exact.libraries) :=
  ExponentialSmoothingModel_init (L := Exact.libraries) (PStr "add") (PStr "add") (PInt 7).


(** ** The remaining methods of the three modules *)

Section MoreMethods.

Context {L : Libraries}.

(** [ForecastingModel.forecast]: fit, then predict. *)
Definition forecast (data : Series) (steps : nat) : M (Obj ForecastingModel) Series :=
  fit data ;;;
  predict steps.

Definition OptimizationResults : Type := list (string * (Params * pyfloat)).

(** The loop of [optimize_all_models] over [self.param_grids.keys()]. *)
Fixpoint optimize_loop (data : Series) (train_size : float64) (forecast_horizon : Z)
    (model_names : list string) (results : OptimizationResults)
    : M (Obj GridSearchOptimizer) OptimizationResults :=
  match model_names with
  | [] => ret results
  | model_name :: rest =>
      results <-
        try_except
          (log INFO [Text "Optimizing "; Text model_name] ;;;
           best <- grid_search data model_name train_size forecast_horizon ;;
           ret (dict_set results model_name best))
          (fun e =>
             log ERROR [Text "Failed to optimize "; Text model_name; Text ": ";
                        Text (message e)] ;;;
             ret (dict_set results model_name ([], PInf))) ;;
      optimize_loop data train_size forecast_horizon rest results
  end.

Definition optimize_all_models (data : Series) (train_size : float64) (forecast_horizon : Z)
    : M (Obj GridSearchOptimizer) OptimizationResults :=
  g <- get_self ;;
  optimize_loop data train_size forecast_horizon (map fst (param_grids g)) [].

(** The trend slope that [MovingAverageModel.fit] computes: a regression over
    the last [min(30, len(data))] points, or 0 when there are fewer than two. *)
Definition ma_slope (data : Series) : result pyfloat :=
  let recent_data := iloc_from data (- Z.min 30 (len data)) in
  if 1 <? len recent_data then
    match LinearRegression_fit LinearRegression_new
            (arange 0 (len recent_data)) (values recent_data) with
    | Ok lr => LinearRegression_coef0 lr
    | Raise e => Raise e
    end
  else Ok (of_int 0).

(** Two model objects of the same class built with the same constructor
    arguments (for Linear Regression: holding the same estimator). *)
Definition same_config (m1 m2 : ForecastingModel) : Prop :=
  match m1, m2 with
  | MovingAverage a, MovingAverage b => ma_window a = ma_window b
  | ExpSmoothing a, ExpSmoothing b =>
      es_trend a = es_trend b /\ es_seasonal a = es_seasonal b /\
      es_seasonal_periods a = es_seasonal_periods b
  | Naive _, Naive _ => True
  | SeasonalNaive a, SeasonalNaive b => sn_seasonal_period a = sn_seasonal_period b
  | LinearReg a, LinearReg b => lr_model a = lr_model b
  | _, _ => False
  end.

(** The score that [grid_search] sees for one combination: the MAE of its
    backtest, or nothing when building the model or backtesting raises. *)
Definition combination_score (data : Series) (model_name : string) (train_size : float64)
    (forecast_horizon : Z) (params : Params) : option pyfloat :=
  match create_model_with_params model_name params with
  | Raise _ => None
  | Ok model =>
      match fst (backtest_single_model data train_size forecast_horizon (mkObj model [])) with
      | Ok results => Some (get_mae results)
      | Raise _ => None
      end
  end.

(** The best pair after one more combination. *)
Definition keep_best (score : Params -> option pyfloat) (best : Params * pyfloat)
    (params : Params) : Params * pyfloat :=
  match score params with
  | Some mae => if flt mae (snd best) then (params, mae) else best
  | None => best
  end.

(** A combination that can become the best: it has a score below [inf]. *)
Definition candidate (score : Params -> option pyfloat) (params : Params) : bool :=
  match score params with
  | Some mae => flt mae PInf
  | None => false
  end.

(** [best] is the first combination of lowest score in [combos]. *)
Definition first_best (score : Params -> option pyfloat) (combos : list Params)
    (best : Params * pyfloat) : Prop :=
  exists i, nth_error combos i = Some (fst best) /\
    score (fst best) = Some (snd best) /\ flt (snd best) PInf = true /\
    forall j c mc, nth_error combos j = Some c -> score c = Some mc ->
      flt mc (snd best) = false /\
      ((j < i)%nat -> flt mc PInf = true -> flt (snd best) mc = true).

(** What the loop of [grid_search] has established after a prefix. *)
Definition grid_inv (score : Params -> option pyfloat) (pre : list Params)
    (best : Params * pyfloat) : Prop :=
  (existsb (candidate score) pre = false /\ best = ([], PInf)) \/
  (existsb (candidate score) pre = true /\ first_best score pre best).

End MoreMethods.

(** A command whose result and final object do not depend on the log it
    starts from. *)
Definition log_blind {R A} (c : M (Obj R) A) : Prop :=
  forall r lg1 lg2,
    fst (c (mkObj r lg1)) = fst (c (mkObj r lg2)) /\
    self (snd (c (mkObj r lg1))) = self (snd (c (mkObj r lg2))).

(** A command that leaves the object and the log as they are. *)
Definition read_only {R A} (c : M (Obj R) A) : Prop :=
  forall o, snd (c o) = o.

(** The first occurrence of every element, in order. *)
Fixpoint first_occurrences (seen names : list string) : list string :=
  match names with
  | [] => []
  | n :: rest =>
      if existsb (String.eqb n) seen then first_occurrences seen rest
      else n :: first_occurrences (n :: seen) rest
  end.

(** Two points, the second one missing. *)
Definition with_missing : Series := [(0, Fin 1); (DAY, NaN)].

Section MoreStatements.

Context {L : Libraries}.

(** What [backtest_all_models] records for one model: the result of its own
    backtest, or the error entry when the backtest raised. *)
Definition single_result (data : Series) (train_size : float64) (forecast_horizon : Z)
    (model : ForecastingModel) : BacktestResult :=
  match fst (backtest_single_model data train_size forecast_horizon (mkObj model [])) with
  | Ok model_results => model_results
  | Raise e => failed e
  end.

End MoreStatements.

(** A Naive model that has already been fitted on another series. *)
Definition naive_used : NaiveModel := mkNaive true (Some (Fin 9)) (Some ten_days).

Definition ma7_fitted : Obj MovingAverageModel :=
  snd (MovingAverageModel_fit (L := Exact.libraries) five_days
         (mkObj (MovingAverageModel_init (PInt 7)) [])).

Section GridStatements.

Context {L : Libraries}.

(** The pair that [grid_search] returns for one family: the loop over the
    generated combinations, with the logging left out. *)
Definition grid_best (g : GridSearchOptimizer) (data : Series) (train_size : float64)
    (forecast_horizon : Z) (model_name : string) : Params * pyfloat :=
  fold_left (keep_best (combination_score data model_name train_size forecast_horizon))
            (generate_param_combinations g model_name) ([], PInf).

End GridStatements.

(** No value of the list is missing. *)
Definition no_nan (xs : list pyfloat) : Prop := Forall (fun v => fis_nan v = false) xs.

Section ScoreStatements.

Context {L : Libraries}.

(** The result of scoring [preds] against [actual_values] when every point
    is aligned: the two metrics of the value lists, or the error entry when
    a metric routine raises. *)
Definition scored_in_full (actual_values preds : list pyfloat) : BacktestResult :=
  match mean_absolute_error actual_values preds with
  | Raise e => failed e
  | Ok mae =>
      match mean_absolute_percentage_error (replace_zero actual_values) preds with
      | Raise e => failed e
      | Ok mape => mkResult (Some mae) (Some mape) (Some preds) (Some actual_values) None
      end
  end.

End ScoreStatements.

(** Two series on different days. *)
Definition odd_days : Series := [(DAY, Fin 1); (3 * DAY, Fin 3)].
Definition even_days : Series := [(0, Fin 0); (2 * DAY, Fin 2)].

(** ** Order facts on floats *)

Lemma Qlt_bool_iff a b : Qlt_bool a b = true <-> (a < b)%Q.
Proof.
  unfold Qlt_bool. rewrite negb_true_iff. split; intro H.
  - apply Qnot_le_lt. intro Hle. apply Qle_bool_iff in Hle. congruence.
  - destruct (Qle_bool b a) eqn:E; [|reflexivity].
    apply Qle_bool_iff in E. exfalso. revert E. now apply Qlt_not_le.
Qed.

Lemma Qlt_bool_false_iff a b : Qlt_bool a b = false <-> (b <= a)%Q.
Proof.
  unfold Qlt_bool. rewrite negb_false_iff. apply Qle_bool_iff.
Qed.

Lemma flt_below_inf_not_nan x : flt x PInf = true -> x <> NaN /\ x <> PInf.
Proof. destruct x; simpl; intros H; split; congruence. Qed.

(** [m < b] and [not (c < b)] with [c] not NaN give [m < c]. *)
Lemma flt_lt_ge_trans m b c :
  flt m b = true -> flt c b = false -> c <> NaN -> flt m c = true.
Proof.
  destruct m as [qm| | |], b as [qb| | |], c as [qc| | |]; simpl;
    try congruence; try reflexivity.
  rewrite !Qlt_bool_iff, Qlt_bool_false_iff. intros H1 H2 _.
  eapply Qlt_le_trans; eauto.
Qed.

(** [m < b] and [not (c < b)] give [not (c < m)]. *)
Lemma flt_lt_ge_not_lt m b c :
  flt m b = true -> flt c b = false -> flt c m = false.
Proof.
  destruct m as [qm| | |], b as [qb| | |], c as [qc| | |]; simpl;
    try congruence; try reflexivity.
  rewrite Qlt_bool_iff, !Qlt_bool_false_iff. intros H1 H2.
  apply Qlt_le_weak. eapply Qlt_le_trans; eauto.
Qed.

Lemma flt_irrefl x : flt x x = false.
Proof.
  destruct x; simpl; try reflexivity.
  apply Qlt_bool_false_iff. apply Qle_refl.
Qed.

(** ** The selection loop *)

Lemma first_lowest_snoc_keep ok pre out x :
  first_lowest ok pre out ->
  (ok x = true -> flt (item_mae x) (item_mae out) = false) ->
  first_lowest ok (pre ++ [x]) out.
Proof.
  intros (i & Hi & Hok & Hall) Hx.
  assert (Hlt : (i < length pre)%nat) by (apply nth_error_Some; congruence).
  exists i. split; [|split; [exact Hok|]].
  - rewrite nth_error_app1; assumption.
  - intros j c Hj Hc.
    destruct (Nat.lt_ge_cases j (length pre)) as [Hjl|Hjl].
    + rewrite nth_error_app1 in Hj by assumption. now apply Hall.
    + rewrite nth_error_app2 in Hj by assumption.
      destruct (j - length pre)%nat as [|k] eqn:E; simpl in Hj.
      * injection Hj as <-. split; [now apply Hx|lia].
      * destruct k; discriminate.
Qed.

Lemma first_lowest_snoc_take pre out x :
  first_lowest scorable pre out ->
  scorable x = true ->
  flt (item_mae x) (item_mae out) = true ->
  first_lowest scorable (pre ++ [x]) x.
Proof.
  intros (i & Hi & Hok & Hall) Hx Hlt.
  exists (length pre). split; [|split; [exact Hx|]].
  - rewrite nth_error_app2, Nat.sub_diag by lia. reflexivity.
  - intros j c Hj Hc.
    destruct (Nat.lt_ge_cases j (length pre)) as [Hjl|Hjl].
    + rewrite nth_error_app1 in Hj by assumption.
      destruct (Hall j c Hj Hc) as [Hge _]. split.
      * eapply flt_lt_ge_not_lt; eauto.
      * intros _. eapply flt_lt_ge_trans; eauto.
        unfold scorable in Hc. apply andb_true_iff in Hc as [_ Hc].
        now apply flt_below_inf_not_nan in Hc.
    + rewrite nth_error_app2 in Hj by assumption.
      destruct (j - length pre)%nat as [|k] eqn:E; simpl in Hj.
      * injection Hj as <-. split; [apply flt_irrefl|lia].
      * destruct k; discriminate.
Qed.

Lemma first_lowest_first pre x :
  existsb scorable pre = false ->
  scorable x = true ->
  first_lowest scorable (pre ++ [x]) x.
Proof.
  intros Hnone Hx. exists (length pre). split; [|split; [exact Hx|]].
  - rewrite nth_error_app2, Nat.sub_diag by lia. reflexivity.
  - intros j c Hj Hc.
    destruct (Nat.lt_ge_cases j (length pre)) as [Hjl|Hjl].
    + rewrite nth_error_app1 in Hj by assumption.
      apply nth_error_In in Hj.
      assert (existsb scorable pre = true) by (apply existsb_exists; eauto).
      congruence.
    + rewrite nth_error_app2 in Hj by assumption.
      destruct (j - length pre)%nat as [|k] eqn:E; simpl in Hj.
      * injection Hj as <-. split; [apply flt_irrefl|lia].
      * destruct k; discriminate.
Qed.

Lemma select_step_inv pre st x :
  select_inv pre st -> select_inv (pre ++ [x]) (select_step st x).
Proof.
  destruct st as [[bn bm] br], x as [n r]. unfold select_inv, select_step.
  destruct (has_error r) eqn:Herr.
  - (* skipped: the entry carries an error *)
    assert (Hns : scorable (n, r) = false) by (unfold scorable; simpl; now rewrite Herr).
    destruct bn as [name|].
    + intros [Hm Hf]. split; [exact Hm|].
      apply first_lowest_snoc_keep; [exact Hf|congruence].
    + intros [Hm Hf]. split; [exact Hm|].
      rewrite existsb_app, Hf. simpl. now rewrite Hns.
  - destruct (flt (get_mae r) bm) eqn:Hlt.
    + (* strictly better than the best so far *)
      assert (Hs : scorable (n, r) = true).
      { unfold scorable. simpl. rewrite Herr. simpl.
        destruct (get_mae r), bm; simpl in *; congruence. }
      destruct bn as [name|].
      * intros [Hm Hf]. split; [reflexivity|].
        eapply first_lowest_snoc_take; eauto. unfold item_mae. simpl. now rewrite <- Hm.
      * intros [Hm Hf]. split; [reflexivity|]. now apply first_lowest_first.
    + destruct bn as [name|].
      * intros [Hm Hf]. split; [exact Hm|].
        apply first_lowest_snoc_keep; [exact Hf|]. intros _.
        unfold item_mae. simpl. now rewrite <- Hm.
      * intros [Hm Hf]. split; [exact Hm|]. subst bm.
        rewrite existsb_app, Hf. unfold scorable. simpl. now rewrite Hlt, andb_false_r.
Qed.

Lemma select_loop_inv rs pre st :
  select_inv pre st -> select_inv (pre ++ rs) (fold_left select_step rs st).
Proof.
  revert pre st. induction rs as [|x rs IH]; intros pre st H; simpl.
  - now rewrite app_nil_r.
  - replace (pre ++ x :: rs) with ((pre ++ [x]) ++ rs) by (now rewrite <- app_assoc).
    apply IH. now apply select_step_inv.
Qed.

(** C1 (as amended): on every mapping, [select_best_model] returns the first
    entry of lowest MAE among the entries that have no error field and an MAE
    below +infinity; when there is no such entry (every entry has an error
    field, or an MAE that is not below +infinity) it returns the first entry
    of the mapping; it raises only on the empty mapping. *)
Theorem select_best_model_spec (rs : Results) :
  match select_best_model rs with
  | Ok out =>
      if existsb scorable rs then first_lowest scorable rs out
      else nth_error rs 0 = Some out
  | Raise _ => rs = []
  end.
Proof.
  unfold select_best_model.
  assert (Hinv : select_inv ([] ++ rs) (fold_left select_step rs (None, PInf, empty_result))).
  { apply select_loop_inv. simpl. auto. }
  simpl in Hinv.
  destruct (fold_left select_step rs (None, PInf, empty_result)) as [[bn bm] br].
  simpl in Hinv. destruct bn as [name|].
  - destruct Hinv as [_ Hf]. 
    assert (Hex : existsb scorable rs = true).
    { destruct Hf as (i & Hi & Hok & _). apply existsb_exists.
      eexists; split; [eapply nth_error_In; eauto|exact Hok]. }
    now rewrite Hex.
  - destruct Hinv as [_ Hnone]. rewrite Hnone.
    destruct rs as [|[n r] rs']; simpl; [reflexivity|].
    now rewrite String.eqb_refl.
Qed.


(** C1, the claim as worded fails: with a first entry that has an error and a
    second, error-free entry whose MAE is +infinity (the result of a backtest
    with no aligned points), the errored entry is returned. *)
Lemma select_best_model_errored_wins :
  exists out, select_best_model c1_results = Ok out /\
    has_error (snd out) = true /\ ~ spec_selection c1_results out.
Proof.
  eexists. split; [reflexivity|]. split; [reflexivity|].
  intros [H _]. destruct (H eq_refl) as (i & _ & Hok & _). discriminate.
Qed.

(** ** The parameter grid *)

Lemma dict_set_fresh {V} (d : list (string * V)) k v :
  ~ In k (map fst d) -> dict_set d k v = d ++ [(k, v)].
Proof.
  induction d as [|[k' v'] d IH]; simpl; intros H; [reflexivity|].
  destruct (String.eqb k k') eqn:E.
  - apply String.eqb_eq in E. subst. tauto.
  - rewrite IH; tauto.
Qed.

Lemma dict_of_distinct_aux {V} (pairs acc : list (string * V)) :
  NoDup (map fst (acc ++ pairs)) ->
  fold_left (fun d kv => dict_set d (fst kv) (snd kv)) pairs acc = acc ++ pairs.
Proof.
  revert acc. induction pairs as [|[k v] pairs IH]; intros acc H; simpl.
  - now rewrite app_nil_r.
  - assert (Hk : ~ In k (map fst acc)).
    { rewrite map_app in H. simpl in H. apply NoDup_remove_2 in H.
      intros Hin. apply H. apply in_or_app. now left. }
    rewrite dict_set_fresh by exact Hk.
    rewrite IH; rewrite <- app_assoc; [reflexivity|exact H].
Qed.

(** Building a dict from pairs with distinct keys keeps the pairs as they are. *)
Lemma dict_of_distinct {V} (pairs : list (string * V)) :
  NoDup (map fst pairs) -> dict_of pairs = pairs.
Proof. intros H. unfold dict_of. now rewrite dict_of_distinct_aux. Qed.

Lemma In_firstn_In {A} (l : list A) n x : In x (firstn n l) -> In x l.
Proof.
  revert n. induction l as [|a l IH]; intros [|n]; simpl; try tauto.
  intros [H|H]; [now left|right; eauto].
Qed.

Lemma NoDup_firstn_prefix {A} (l : list A) n : NoDup l -> NoDup (firstn n l).
Proof.
  revert n. induction l as [|a l IH]; intros [|n] H; simpl; try constructor.
  - inversion H; subst. intros Hin. apply In_firstn_In in Hin. contradiction.
  - inversion H; subst. now apply IH.
Qed.

Lemma map_fst_combine_firstn {A B} (ks : list A) (vs : list B) :
  map fst (combine ks vs) = firstn (List.length vs) ks.
Proof.
  revert vs. induction ks as [|k ks IH]; intros [|v vs]; simpl; try reflexivity.
  now rewrite IH.
Qed.

Lemma dict_of_combine (keys : list string) (vs : list pval) :
  NoDup keys -> dict_of (combine keys vs) = combine keys vs.
Proof.
  intros H. apply dict_of_distinct. rewrite map_fst_combine_firstn. now apply NoDup_firstn_prefix.
Qed.

Lemma in_product {A} (lists : list (list A)) (xs : list A) :
  In xs (product lists) <-> Forall2 (fun x l => In x l) xs lists.
Proof.
  revert xs. induction lists as [|l lists IH]; intros xs; simpl.
  - split.
    + intros [<-|[]]. constructor.
    + intros H. inversion H. now left.
  - rewrite in_flat_map. split.
    + intros (x & Hx & Hin). apply in_map_iff in Hin as (ys & <- & Hys).
      constructor; [exact Hx|]. now apply IH.
    + intros H. inversion H as [|x l' ys lists' Hx Hys]; subst.
      exists x. split; [exact Hx|]. apply in_map_iff. exists ys. split; [reflexivity|].
      now apply IH.
Qed.

Lemma length_product {A} (lists : list (list A)) :
  List.length (product lists) = product_size lists.
Proof.
  unfold product_size. induction lists as [|l lists IH]; simpl; [reflexivity|].
  rewrite length_flat_map. rewrite <- IH.
  induction l as [|x l IHl]; simpl; [reflexivity|].
  rewrite length_map. now rewrite IHl.
Qed.

Lemma assignment_of_combine candidates (grid : list (string * list pval)) (combo : Params) :
  assignment_of candidates grid combo <->
  exists vs, combo = combine (map fst grid) vs /\
             Forall2 (fun x l => In x l) vs (map (fun kv => candidates (snd kv)) grid).
Proof.
  unfold assignment_of. revert combo.
  induction grid as [|[k l] grid IH]; intros combo; simpl.
  - split.
    + intros H. inversion H. exists []. split; [reflexivity|constructor].
    + intros (vs & -> & H). constructor.
  - split.
    + intros H. inversion H as [|[k' v] slot combo' grid' [Hk Hv] Hrest]; subst.
      simpl in Hk, Hv. subst k'.
      apply IH in Hrest as (vs & -> & Hvs).
      exists (v :: vs). split; [reflexivity|]. now constructor.
    + intros (vs & -> & H). inversion H as [|v l' vs' ls' Hv Hvs]; subst.
      simpl. constructor; [simpl; auto|]. apply IH. eauto.
Qed.

(** For a grid entry with distinct keys: the combinations are the assignments
    drawing each key from its processed candidates, one per tuple of the
    product. *)
Lemma generate_param_combinations_grid g model_name grid :
  dict_get (param_grids g) model_name = Some grid ->
  NoDup (map fst grid) ->
  (forall combo, In combo (generate_param_combinations g model_name) <->
                 assignment_of processed grid combo) /\
  List.length (generate_param_combinations g model_name) =
    product_size (map (fun kv => processed (snd kv)) grid).
Proof.
  intros Hget Hkeys. unfold generate_param_combinations. rewrite Hget.
  destruct grid as [|slot grid'] eqn:Egrid.
  - split; [|reflexivity]. intros combo. unfold assignment_of. simpl. split.
    + intros [<-|[]]. constructor.
    + intros H. inversion H. now left.
  - rewrite <- Egrid in *. clear Egrid slot grid'. split.
    + intros combo. rewrite assignment_of_combine, in_map_iff. split.
      * intros (vs & <- & Hin). exists vs. split; [now apply dict_of_combine|].
        now apply in_product.
      * intros (vs & -> & Hvs). exists vs. split; [now apply dict_of_combine|].
        now apply in_product.
    + rewrite length_map. apply length_product.
Qed.

Lemma dict_get_In {V} (d : list (string * V)) k v :
  dict_get d k = Some v -> In v (map snd d).
Proof.
  induction d as [|[k' v'] d IH]; simpl; [discriminate|].
  destruct (String.eqb k k'); [intros [= ->]; now left|auto].
Qed.

Lemma NoDup_keys_of_grids grid :
  In grid (map snd (param_grids GridSearchOptimizer_init)) -> NoDup (map fst grid).
Proof.
  simpl. intros [<-|[<-|[<-|[<-|[]]]]]; simpl;
    repeat (constructor; [simpl; intuition discriminate|]); constructor.
Qed.

(** C2 (as amended): for every model family of the grid,
    [generate_param_combinations] returns exactly the Cartesian product of the
    family's candidate lists after None has been removed from every list that
    has more than one candidate: 12 combinations for "Exponential Smoothing"
    (trend in add, mul; seasonal in add, mul; seasonal_periods in 7, 12, 30),
    the single empty assignment for "Naive", 5 combinations for "Moving
    Average"; a name outside the grid yields the single empty assignment. *)
Theorem generate_param_combinations_spec (model_name : string) :
  let g := GridSearchOptimizer_init in
  match dict_get (param_grids g) model_name with
  | None => generate_param_combinations g model_name = [[]]
  | Some grid =>
      (forall combo, In combo (generate_param_combinations g model_name) <->
                     assignment_of processed grid combo) /\
      List.length (generate_param_combinations g model_name) =
        product_size (map (fun kv => processed (snd kv)) grid)
  end /\
  map (fun kv => (fst kv, processed (snd kv)))
      (dict_get_default (param_grids g) "Exponential Smoothing" []) =
    [ ("trend"%string, [PStr "add"; PStr "mul"]);
      ("seasonal"%string, [PStr "add"; PStr "mul"]);
      ("seasonal_periods"%string, [PInt 7; PInt 12; PInt 30]) ] /\
  List.length (generate_param_combinations g "Exponential Smoothing") = 12%nat /\
  generate_param_combinations g "Naive" = [[]] /\
  generate_param_combinations g "Moving Average" =
    [ [("window"%string, PInt 3)]; [("window"%string, PInt 5)]; [("window"%string, PInt 7)];
      [("window"%string, PInt 14)]; [("window"%string, PInt 30)] ].
Proof.
  intros g. split; [|repeat split; reflexivity].
  destruct (dict_get (param_grids g) model_name) as [grid|] eqn:Hget.
  - apply generate_param_combinations_grid; [exact Hget|].
    apply NoDup_keys_of_grids. eapply dict_get_In; eauto.
  - unfold generate_param_combinations. now rewrite Hget.
Qed.

(** C2, the claim as worded fails: the grid declares 3 x 3 x 4 = 36
    assignments for "Exponential Smoothing", the all-None one among them;
    the code returns 12, and not that one. *)
Lemma generate_param_combinations_drops_none :
  let g := GridSearchOptimizer_init in
  List.length (spec_param_combinations g "Exponential Smoothing") = 36%nat /\
  In es_all_none (spec_param_combinations g "Exponential Smoothing") /\
  List.length (generate_param_combinations g "Exponential Smoothing") = 12%nat /\
  ~ In es_all_none (generate_param_combinations g "Exponential Smoothing").
Proof.
  intros g. split; [reflexivity|]. split.
  - vm_compute. do 24 right. now left.
  - split; [reflexivity|]. vm_compute. intuition discriminate.
Qed.

(** ** Positional indexing and date ranges *)

Lemma len_nonneg {A} (l : list A) : 0 <= len l.
Proof. unfold len. lia. Qed.

Lemma iloc_at_nil {A} k :
  iloc_at (@nil A) k = Raise (mkExn IndexError "single positional indexer is out-of-bounds").
Proof.
  unfold iloc_at.
  destruct ((0 <=? (if k <? 0 then len (@nil A) + k else k)) &&
            ((if k <? 0 then len (@nil A) + k else k) <? len (@nil A))); [|reflexivity].
  now destruct (Z.to_nat (if k <? 0 then len (@nil A) + k else k)).
Qed.

(** A negative index [-d] with [1 <= d <= len s] reads position [len s - d]. *)
Lemma iloc_at_from_end {A} (s : list A) d :
  0 < d <= len s ->
  exists x, iloc_at s (- d) = Ok x /\ nth_error s (Z.to_nat (len s - d)) = Some x.
Proof.
  intros Hd. unfold iloc_at.
  replace (- d <? 0) with true by (symmetry; apply Z.ltb_lt; lia).
  replace (0 <=? len s + - d) with true by (symmetry; apply Z.leb_le; lia).
  replace (len s + - d <? len s) with true by (symmetry; apply Z.ltb_lt; lia).
  simpl. replace (len s + - d) with (len s - d) by lia.
  destruct (nth_error s (Z.to_nat (len s - d))) as [x|] eqn:E; [eauto|].
  apply nth_error_None in E. unfold len in *. lia.
Qed.

Lemma iloc_at_last {A} (s : list A) :
  s <> [] -> exists x, iloc_at s (-1) = Ok x.
Proof.
  intros Hs. destruct (@iloc_at_from_end A s 1) as (x & Hx & _); [|eauto].
  destruct s; [congruence|]. unfold len. simpl. lia.
Qed.

Lemma length_days_from start n : List.length (days_from start n) = n.
Proof. unfold days_from. now rewrite length_map, length_seq. Qed.

Lemma nth_error_days_from start n i :
  (i < n)%nat -> nth_error (days_from start n) i = Some (start + Z.of_nat i * DAY).
Proof.
  intros Hi. unfold days_from. rewrite nth_error_map, nth_error_seq.
  destruct (Nat.ltb_spec i n); [reflexivity|lia].
Qed.

Lemma NoDup_days_from start n : NoDup (days_from start n).
Proof.
  unfold days_from. generalize 0%nat as a. induction n as [|n IH]; intros a; simpl;
    constructor; [|apply IH].
  intros Hin. apply in_map_iff in Hin as (i & Hi & Hin). apply in_seq in Hin.
  unfold DAY in Hi. lia.
Qed.

(** A date range that pandas builds is the list of its days. *)
Lemma date_range_inv start n dates :
  date_range start n = Ok dates -> dates = days_from start n.
Proof.
  unfold date_range. destruct n as [|n]; [now intros [= <-]|].
  destruct (start + Z.of_nat n * DAY <=? Timestamp_max); [now intros [= <-]|discriminate].
Qed.

Lemma date_range_ok start n :
  start + Z.of_nat n * DAY <= Timestamp_max + DAY ->
  date_range start n = Ok (days_from start n).
Proof.
  intros H. unfold date_range. destruct n as [|n]; [reflexivity|].
  replace (start + Z.of_nat n * DAY <=? Timestamp_max) with true; [reflexivity|].
  symmetry. apply Z.leb_le. lia.
Qed.

Lemma date_range_raises start n e :
  date_range start n = Raise e -> e = out_of_bounds.
Proof.
  unfold date_range. destruct n as [|n]; [discriminate|].
  destruct (start + Z.of_nat n * DAY <=? Timestamp_max); [discriminate|now intros [= <-]].
Qed.

Lemma Timestamp_add_inv t d r :
  Timestamp_add t d = Ok r -> r = t + d.
Proof.
  unfold Timestamp_add. destruct (t + d <=? Timestamp_max); [now intros [= <-]|discriminate].
Qed.

Lemma Timestamp_add_raises t d e :
  Timestamp_add t d = Raise e -> e = out_of_bounds.
Proof.
  unfold Timestamp_add. destruct (t + d <=? Timestamp_max); [discriminate|now intros [= <-]].
Qed.

(** With representable dates, the two date computations of [predict] go
    through. *)
Lemma forecast_dates_ok (train : Series) last steps :
  iloc_at train (-1) = Ok last ->
  dates_representable train steps = true ->
  Timestamp_add (fst last) DAY = Ok (fst last + DAY) /\
  date_range (fst last + DAY) steps = Ok (days_from (fst last + DAY) steps).
Proof.
  intros Hlast Hrep. unfold dates_representable in Hrep. rewrite Hlast in Hrep.
  apply Z.leb_le in Hrep. split.
  - unfold Timestamp_add. replace (fst last + DAY <=? Timestamp_max) with true; [reflexivity|].
    symmetry. apply Z.leb_le. assert (0 < DAY) by reflexivity. nia.
  - apply date_range_ok. assert (0 < DAY) by reflexivity. nia.
Qed.

Lemma mk_series_same_length data idx :
  List.length data = List.length idx -> mk_series data idx = Ok (combine idx data).
Proof. intros H. unfold mk_series. rewrite H, Nat.eqb_refl. reflexivity. Qed.

Lemma values_combine (idx : list Z) (data : list pyfloat) :
  List.length data = List.length idx -> values (combine idx data) = data.
Proof.
  unfold values. revert data. induction idx as [|t idx IH]; intros [|v data] H;
    simpl in *; try discriminate; [reflexivity|]. f_equal. apply IH. lia.
Qed.

Lemma index_combine (idx : list Z) (data : list pyfloat) :
  List.length data = List.length idx -> index (combine idx data) = idx.
Proof.
  unfold index. revert data. induction idx as [|t idx IH]; intros [|v data] H;
    simpl in *; try discriminate; [reflexivity|]. f_equal. apply IH. lia.
Qed.

(** A forecast built on [date_range] from the day after the last training
    timestamp is a daily forecast. *)
Lemma daily_forecast_combine (train : Series) last (data : list pyfloat) steps :
  iloc_at train (-1) = Ok last ->
  List.length data = steps ->
  daily_forecast train (combine (days_from (fst last + DAY) steps) data) steps.
Proof.
  intros Hlast Hlen. split.
  - rewrite length_combine, length_days_from. lia.
  - exists last. split; [exact Hlast|]. intros i Hi.
    rewrite index_combine by (now rewrite length_days_from).
    rewrite nth_error_days_from by exact Hi. f_equal. lia.
Qed.

(** ** Seasonal naive *)

Lemma seasonal_value_ok (train : Series) p i :
  0 < p <= len train ->
  seasonal_value (PInt p) train i = Ok (seasonal_pick train p i) /\
  nth_error (values train) (seasonal_position train p i) = Some (seasonal_pick train p i).
Proof.
  intros Hp. unfold seasonal_value, py_mod. simpl.
  replace (p =? 0) with false by (symmetry; apply Z.eqb_neq; lia).
  pose proof (Z.mod_pos_bound (Z.of_nat i) p ltac:(lia)) as Hr.
  set (r := Z.of_nat i mod p) in *.
  destruct (@iloc_at_from_end _ train (p - r)) as (x & Hx & Hn); [lia|].
  replace (- p + r) with (- (p - r)) by lia. rewrite Hx.
  unfold seasonal_pick, seasonal_position. fold r.
  replace (len train - p + r) with (len train - (p - r)) by lia.
  unfold values. erewrite nth_error_map, Hn. simpl.
  split; [f_equal|]; symmetry.
  - erewrite nth_error_nth; [reflexivity|]. now rewrite nth_error_map, Hn.
  - f_equal. erewrite nth_error_nth; [reflexivity|]. now rewrite nth_error_map, Hn.
Qed.

Lemma seasonal_loop_ok (train : Series) p idxs acc :
  0 < p <= len train ->
  seasonal_loop (PInt p) train idxs acc = Ok (acc ++ map (seasonal_pick train p) idxs).
Proof.
  intros Hp. revert acc. induction idxs as [|i idxs IH]; intros acc; simpl.
  - now rewrite app_nil_r.
  - destruct (seasonal_value_ok train i Hp) as [-> _]. rewrite IH, <- app_assoc. reflexivity.
Qed.

Lemma SeasonalNaiveModel_fit_run (data : Series) (m : SeasonalNaiveModel) lg :
  SeasonalNaiveModel_fit data (mkObj m lg) =
    (Ok tt, mkObj (mkSeasonalNaive true (sn_seasonal_period m) (Some data)) lg).
Proof. reflexivity. Qed.

(** [predict] of a fitted Seasonal Naive model whose period fits in the
    training series: the dates are computed first, then the values. *)
Lemma SeasonalNaiveModel_predict_run (train : Series) p lg steps :
  0 < p <= len train ->
  let o := mkObj (mkSeasonalNaive true (PInt p) (Some train)) lg in
  exists last, iloc_at train (-1) = Ok last /\
    SeasonalNaiveModel_predict steps o =
      (match Timestamp_add (fst last) DAY with
       | Raise e => Raise e
       | Ok start =>
           match date_range start steps with
           | Raise e => Raise e
           | Ok dates => Ok (combine dates (map (seasonal_pick train p) (seq 0 steps)))
           end
       end, o).
Proof.
  intros Hp o.
  destruct (@iloc_at_last _ train) as (last & Hlast).
  { intros ->. unfold len in Hp. simpl in Hp. lia. }
  exists last. split; [exact Hlast|].
  unfold SeasonalNaiveModel_predict, bind, get_self, attr, lift, o. simpl.
  rewrite Hlast. destruct (Timestamp_add (fst last) DAY) as [start|e]; [|reflexivity].
  destruct (date_range start steps) as [dates|e] eqn:Hdates; [|reflexivity].
  rewrite seasonal_loop_ok by exact Hp. simpl.
  apply date_range_inv in Hdates. subst dates.
  rewrite mk_series_same_length; [reflexivity|].
  now rewrite length_map, length_seq, length_days_from.
Qed.

Lemma SeasonalNaiveModel_predict_ok (train : Series) p lg steps :
  0 < p <= len train ->
  dates_representable train steps = true ->
  let o := mkObj (mkSeasonalNaive true (PInt p) (Some train)) lg in
  exists last, iloc_at train (-1) = Ok last /\
    SeasonalNaiveModel_predict steps o =
      (Ok (combine (days_from (fst last + DAY) steps)
                   (map (seasonal_pick train p) (seq 0 steps))), o).
Proof.
  intros Hp Hrep o.
  destruct (SeasonalNaiveModel_predict_run train lg steps Hp) as (last & Hlast & Hrun).
  exists last. split; [exact Hlast|]. fold o in Hrun. rewrite Hrun.
  destruct (forecast_dates_ok train steps Hlast Hrep) as [-> ->]. reflexivity.
Qed.

(** C5: a Seasonal Naive model of period [p], fitted on a training series of
    length at least [p] (and [p >= 1]), forecasts at every 0-indexed step [i]
    the training value at position [len(train) - p + (i mod p)]: [predict]
    returns whenever the forecast dates are timestamps, every forecast it
    returns has [steps] values with that value at step [i], and the only
    exception it can raise is the OutOfBoundsDatetime of the date
    computation. *)
Theorem seasonal_naive_cyclic_lookback (train : Series) (p : Z) (m : SeasonalNaiveModel)
    (lg : list LogRecord) (steps i : nat) :
  sn_seasonal_period m = PInt p ->
  0 < p <= len train ->
  (i < steps)%nat ->
  exists o v,
    SeasonalNaiveModel_fit train (mkObj m lg) = (Ok tt, o) /\
    nth_error (values train) (Z.to_nat (len train - p + Z.of_nat i mod p)) = Some v /\
    (dates_representable train steps = true ->
       exists fc, SeasonalNaiveModel_predict steps o = (Ok fc, o)) /\
    (forall fc, fst (SeasonalNaiveModel_predict steps o) = Ok fc ->
       List.length fc = steps /\ nth_error (values fc) i = Some v) /\
    (forall e, fst (SeasonalNaiveModel_predict steps o) = Raise e ->
       kind e = OutOfBoundsDatetime).
Proof.
  intros Hper Hp Hi. rewrite SeasonalNaiveModel_fit_run, Hper.
  eexists. exists (seasonal_pick train p i). split; [reflexivity|].
  split; [apply (seasonal_value_ok train i Hp)|].
  destruct (SeasonalNaiveModel_predict_run train lg steps Hp) as (last & Hlast & Hrun).
  split; [|split].
  - intros Hrep.
    destruct (SeasonalNaiveModel_predict_ok train lg steps Hp Hrep) as (last' & _ & Hok).
    eexists. exact Hok.
  - intros fc. rewrite Hrun. cbn [fst].
    destruct (Timestamp_add (fst last) DAY) as [start|e]; [|discriminate].
    destruct (date_range start steps) as [dates|e] eqn:Hdates; [|discriminate].
    apply date_range_inv in Hdates. subst dates. intros [= <-].
    assert (Hlen : List.length (map (seasonal_pick train p) (seq 0 steps)) =
                   List.length (days_from start steps))
      by now rewrite length_map, length_seq, length_days_from.
    split.
    + rewrite length_combine, length_days_from, length_map, length_seq. lia.
    + rewrite values_combine by exact Hlen.
      rewrite nth_error_map, nth_error_seq.
      destruct (Nat.ltb_spec i steps); [reflexivity|lia].
  - intros e. rewrite Hrun. cbn [fst].
    destruct (Timestamp_add (fst last) DAY) as [start|e0] eqn:Hadd.
    + destruct (date_range start steps) as [dates|e1] eqn:Hdates; [discriminate|].
      intros [= <-]. now rewrite (date_range_raises _ _ Hdates).
    + intros [= <-]. now rewrite (Timestamp_add_raises _ _ Hadd).
Qed.

Lemma seasonal_naive_cyclic_lookback_witness :
  exists o v fc,
    SeasonalNaiveModel_fit (daily [10; 20; 30; 40; 50])
      (mkObj (SeasonalNaiveModel_init (PInt 3)) []) = (Ok tt, o) /\
    nth_error (values (daily [10; 20; 30; 40; 50])) (Z.to_nat (5 - 3 + 4 mod 3)) = Some v /\
    SeasonalNaiveModel_predict 7 o = (Ok fc, o) /\
    List.length fc = 7%nat /\ nth_error (values fc) 4 = Some v.
Proof.
  destruct (@seasonal_naive_cyclic_lookback (daily [10; 20; 30; 40; 50]) 3
              (SeasonalNaiveModel_init (PInt 3)) [] 7 4)
    as (o & v & Hfit & Hv & Hret & Hval & _).
  - reflexivity.
  - vm_compute. split; [reflexivity|discriminate].
  - lia.
  - destruct (Hret eq_refl) as (fc & Hfc). exists o, v, fc.
    split; [exact Hfit|]. split; [exact Hv|]. split; [exact Hfc|].
    apply Hval. now rewrite Hfc.
Defined.

(** ** The models: what [fit] leaves and what [predict] returns *)

Section Models.

Context {L : Libraries}.

Lemma NaiveModel_fit_run (data : Series) (m : NaiveModel) lg :
  NaiveModel_fit data (mkObj m lg) =
    match iloc_at data (-1) with
    | Ok last => (Ok tt, mkObj (mkNaive true (Some (snd last)) (Some data)) lg)
    | Raise e => (Raise e, mkObj m lg)
    end.
Proof.
  unfold NaiveModel_fit, bind, lift, update_self. simpl.
  destruct (iloc_at data (-1)); reflexivity.
Qed.

Lemma NaiveModel_predict_ok (train : Series) last v lg steps :
  iloc_at train (-1) = Ok last ->
  dates_representable train steps = true ->
  let o := mkObj (mkNaive true (Some v) (Some train)) lg in
  NaiveModel_predict steps o =
    (Ok (combine (days_from (fst last + DAY) steps) (repeat v steps)), o).
Proof.
  intros Hlast Hrep o. unfold NaiveModel_predict, bind, get_self, attr, lift, o. simpl.
  destruct (forecast_dates_ok train steps Hlast Hrep) as [Hadd Hdates].
  rewrite Hlast. simpl. rewrite Hadd, Hdates. simpl.
  rewrite mk_series_same_length; [reflexivity|].
  now rewrite repeat_length, length_days_from.
Qed.

Lemma MovingAverageModel_fit_ok (data : Series) (m : MovingAverageModel) lg o :
  MovingAverageModel_fit data (mkObj m lg) = (Ok tt, o) ->
  exists slope, o = mkObj (mkMovingAverage true (ma_window m) (Some data) (Some slope)) lg.
Proof.
  unfold MovingAverageModel_fit, bind, lift, update_self, set_trend_slope. simpl.
  destruct (1 <? len (iloc_from data (- Z.min 30 (len data)))).
  - destruct (LinearRegression_fit _ _ _) as [lr|e]; [|discriminate].
    destruct (LinearRegression_coef0 lr) as [slope|e]; [|discriminate].
    intros [= <-]. eauto.
  - intros [= <-]. eauto.
Qed.

(** On an empty series the moving average needs no regression: [fit] succeeds. *)
Lemma MovingAverageModel_fit_nil (m : MovingAverageModel) lg :
  MovingAverageModel_fit [] (mkObj m lg) =
    (Ok tt, mkObj (mkMovingAverage true (ma_window m) (Some []) (Some (of_int 0))) lg).
Proof. reflexivity. Qed.

Lemma MovingAverageModel_predict_ok (train : Series) last w slope lg steps :
  iloc_at train (-1) = Ok last ->
  dates_representable train steps = true ->
  let o := mkObj (mkMovingAverage true (PInt w) (Some train) (Some slope)) lg in
  exists vs, List.length vs = steps /\
    MovingAverageModel_predict steps o =
      (Ok (combine (days_from (fst last + DAY) steps) vs), o).
Proof.
  intros Hlast Hrep o.
  destruct (forecast_dates_ok train steps Hlast Hrep) as [Hadd Hdates].
  exists (map (fun i => fadd (np_mean (values (iloc_from train (- w))))
                             (fmul (of_int (Z.of_nat i + 1)) slope)) (seq 0 steps)).
  split; [now rewrite length_map, length_seq|].
  unfold MovingAverageModel_predict, bind, get_self, attr, lift, ret, o.
  cbn [self ma_fitted negb ma_data ma_window as_int].
  destruct steps as [|n]; cbn [ma_trend_slope self]; rewrite Hlast, Hadd, Hdates.
  - reflexivity.
  - rewrite mk_series_same_length; [reflexivity|].
    now rewrite length_map, length_seq, length_days_from.
Qed.

Lemma LinearRegressionModel_fit_run (data : Series) (m : LinearRegressionModel) lg :
  LinearRegressionModel_fit data (mkObj m lg) =
    match LinearRegression_fit (lr_model m) (arange 0 (len data)) (values data) with
    | Ok f => (Ok tt, mkObj (mkLinearRegression true f (Some data)) lg)
    | Raise e => (Raise e, mkObj (mkLinearRegression (lr_fitted m) (lr_model m) (Some data)) lg)
    end.
Proof.
  unfold LinearRegressionModel_fit, bind, lift, update_self, get_self. simpl.
  destruct (LinearRegression_fit _ _ _); reflexivity.
Qed.

Lemma LinearRegressionModel_predict_ok (train : Series) last f ys lg steps :
  iloc_at train (-1) = Ok last ->
  LinearRegression_predict f (arange (len train) (len train + Z.of_nat steps)) = Ok ys ->
  List.length ys = steps ->
  dates_representable train steps = true ->
  let o := mkObj (mkLinearRegression true f (Some train)) lg in
  LinearRegressionModel_predict steps o =
    (Ok (combine (days_from (fst last + DAY) steps) ys), o).
Proof.
  intros Hlast Hys Hlen Hrep o.
  destruct (forecast_dates_ok train steps Hlast Hrep) as [Hadd Hdates].
  unfold LinearRegressionModel_predict, bind, get_self, attr, lift, o. simpl.
  rewrite Hys, Hlast. simpl. rewrite Hadd, Hdates. simpl.
  rewrite mk_series_same_length; [reflexivity|].
  now rewrite length_days_from.
Qed.

Lemma es_fit_with_run (data : Series) t s sp (m : ExponentialSmoothingModel) lg :
  es_fit_with data t s sp (mkObj m lg) =
    match ExponentialSmoothing data t s sp with
    | Raise e => (Raise e, mkObj m lg)
    | Ok hw =>
        match HoltWinters_fit hw with
        | Raise e =>
            (Raise e, mkObj (mkExponentialSmoothing (es_fitted m) (es_trend m) (es_seasonal m)
                               (es_seasonal_periods m) (Some hw) (es_fitted_model m)) lg)
        | Ok r =>
            (Ok tt, mkObj (mkExponentialSmoothing true (es_trend m) (es_seasonal m)
                             (es_seasonal_periods m) (Some hw) (Some r)) lg)
        end
    end.
Proof.
  unfold es_fit_with, bind, lift, es_set_model, es_set_fitted_model, es_set_fitted, update_self.
  simpl. destruct (ExponentialSmoothing data t s sp) as [hw|e]; [|reflexivity].
  simpl. destruct (HoltWinters_fit hw); reflexivity.
Qed.

(** What [es_fit_with] reports and what it leaves, in terms of [hw_fit]. *)
Lemma es_fit_with_hw_fit (data : Series) t s sp (m : ExponentialSmoothingModel) lg :
  let '(r, o) := es_fit_with data t s sp (mkObj m lg) in
  r = outcome (hw_fit data t s sp) /\ logs o = lg /\
  es_trend (self o) = es_trend m /\ es_seasonal (self o) = es_seasonal m /\
  es_seasonal_periods (self o) = es_seasonal_periods m /\
  match hw_fit data t s sp with
  | Ok res => es_fitted (self o) = true /\ es_fitted_model (self o) = Some res
  | Raise _ => es_fitted (self o) = es_fitted m /\ es_fitted_model (self o) = es_fitted_model m
  end.
Proof.
  rewrite es_fit_with_run. unfold hw_fit.
  destruct (ExponentialSmoothing data t s sp) as [hw|e]; simpl; [|tauto].
  destruct (HoltWinters_fit hw); simpl; tauto.
Qed.

(** The whole of [ExponentialSmoothingModel.fit]: the configured fit, and on
    any exception one log record and the fit without trend and seasonal. *)
Lemma ExponentialSmoothingModel_fit_run (data : Series) (m : ExponentialSmoothingModel) lg :
  let '(r, o) := ExponentialSmoothingModel_fit data (mkObj m lg) in
  match hw_fit data (es_trend m) (es_seasonal m) (es_seasonal_periods m) with
  | Ok res =>
      r = Ok tt /\ logs o = lg /\ es_fitted (self o) = true /\
      es_fitted_model (self o) = Some res
  | Raise e =>
      logs o = lg ++ [es_fit_failed e] /\
      match hw_fit data PNone PNone PNone with
      | Ok res =>
          r = Ok tt /\ es_fitted (self o) = true /\ es_fitted_model (self o) = Some res
      | Raise e' =>
          r = Raise e' /\ es_fitted (self o) = es_fitted m /\
          es_fitted_model (self o) = es_fitted_model m
      end
  end.
Proof.
  unfold ExponentialSmoothingModel_fit, try_except, bind, get_self. simpl.
  pose proof (es_fit_with_hw_fit data (es_trend m) (es_seasonal m) (es_seasonal_periods m) m lg) as H1.
  destruct (es_fit_with data (es_trend m) (es_seasonal m) (es_seasonal_periods m) (mkObj m lg))
    as [r1 o1].
  destruct H1 as (Hr1 & Hlg1 & _ & _ & _ & Hst1).
  destruct (hw_fit data (es_trend m) (es_seasonal m) (es_seasonal_periods m)) as [res|e];
    simpl in Hr1; subst r1.
  - tauto.
  - unfold log. simpl.
    pose proof (es_fit_with_hw_fit data PNone PNone PNone (self o1)
                  (logs o1 ++ [(ERROR, [Text "Failed to fit Exponential Smoothing model: ";
                                        Text (message e)])])) as H2.
    destruct (es_fit_with data PNone PNone PNone _) as [r2 o2].
    destruct H2 as (Hr2 & Hlg2 & _ & _ & _ & Hst2). destruct Hst1 as [Hf1 Hm1].
    rewrite Hlg2, Hlg1. split; [reflexivity|].
    destruct (hw_fit data PNone PNone PNone); simpl in Hr2; subst r2.
    + tauto.
    + destruct Hst2 as [-> ->]. tauto.
Qed.

End Models.

Section ModelContracts.

Context {L : Libraries}.

Lemma SeasonalNaiveModel_predict_nil p lg steps :
  fst (SeasonalNaiveModel_predict steps (mkObj (mkSeasonalNaive true p (Some [])) lg)) =
    Raise (mkExn IndexError "single positional indexer is out-of-bounds").
Proof. reflexivity. Qed.

Lemma MovingAverageModel_predict_nil w slope lg steps :
  exists e, fst (MovingAverageModel_predict steps
                   (mkObj (mkMovingAverage true w (Some []) slope) lg)) = Raise e.
Proof.
  unfold MovingAverageModel_predict, bind, get_self, attr, lift, ret. simpl.
  destruct w as [|w|s]; simpl; eauto.
  destruct steps as [|n]; simpl; eauto.
  destruct slope; simpl; eauto.
Qed.

(** C3 (as amended): on an empty series, [fit] raises for Naive (reading the
    last value fails); for Linear Regression and Exponential Smoothing it
    raises exactly when the library rejects the empty input (for Exponential
    Smoothing: when the configured fit and the fallback fit both raise); for
    Seasonal Naive and Moving Average [fit] does not raise: it stores the
    series and marks the model fitted, and every later [predict] raises. *)
Theorem fit_on_empty_series :
  (forall (m : NaiveModel) lg,
     exists e, NaiveModel_fit [] (mkObj m lg) = (Raise e, mkObj m lg) /\ kind e = IndexError) /\
  (forall (m : SeasonalNaiveModel) lg,
     exists o, SeasonalNaiveModel_fit [] (mkObj m lg) = (Ok tt, o) /\
       sn_fitted (self o) = true /\ sn_data (self o) = Some [] /\
       forall steps, exists e, fst (SeasonalNaiveModel_predict steps o) = Raise e) /\
  (forall (m : MovingAverageModel) lg,
     exists o, MovingAverageModel_fit [] (mkObj m lg) = (Ok tt, o) /\
       ma_fitted (self o) = true /\ ma_data (self o) = Some [] /\
       forall steps, exists e, fst (MovingAverageModel_predict steps o) = Raise e) /\
  (forall (m : LinearRegressionModel) lg,
     fst (LinearRegressionModel_fit [] (mkObj m lg)) =
       outcome (LinearRegression_fit (lr_model m) [] [])) /\
  (forall (m : ExponentialSmoothingModel) lg,
     fst (ExponentialSmoothingModel_fit [] (mkObj m lg)) =
       match hw_fit [] (es_trend m) (es_seasonal m) (es_seasonal_periods m) with
       | Ok _ => Ok tt
       | Raise _ => outcome (hw_fit [] PNone PNone PNone)
       end).
Proof.
  repeat split.
  - intros m lg. rewrite NaiveModel_fit_run, iloc_at_nil. eauto.
  - intros m lg. rewrite SeasonalNaiveModel_fit_run. eexists. split; [reflexivity|].
    split; [reflexivity|]. split; [reflexivity|].
    intros steps. eexists. apply SeasonalNaiveModel_predict_nil.
  - intros m lg. rewrite MovingAverageModel_fit_nil. eexists. split; [reflexivity|].
    split; [reflexivity|]. split; [reflexivity|].
    intros steps. apply MovingAverageModel_predict_nil.
  - intros m lg. rewrite LinearRegressionModel_fit_run.
    change (arange 0 (len (@nil (Z * pyfloat)))) with (@nil Z).
    change (values []) with (@nil pyfloat).
    destruct (LinearRegression_fit (lr_model m) [] []); reflexivity.
  - intros m lg. pose proof (ExponentialSmoothingModel_fit_run [] m lg) as H.
    destruct (ExponentialSmoothingModel_fit [] (mkObj m lg)) as [r o]. simpl.
    destruct (hw_fit [] (es_trend m) (es_seasonal m) (es_seasonal_periods m)).
    + tauto.
    + destruct H as [_ H]. destruct (hw_fit [] PNone PNone PNone); simpl; tauto.
Qed.

(** C4 (as amended): after a successful [fit] on a non-empty training series,
    and when the forecast dates are timestamps pandas can represent,
    [predict(steps)] returns exactly [steps] values indexed by consecutive
    daily timestamps starting one day after the last training timestamp, and
    leaves the model as it was, for Naive, for Moving Average with an integer
    window, for Seasonal Naive with an integer period between 1 and the
    length of the training series, and for Linear Regression whenever the
    library returns one prediction per future index.  Exponential Smoothing
    returns what the library's forecast returns, index included, as it is. *)
Theorem predict_daily_index (m : ForecastingModel) (lg : list LogRecord) (train : Series)
    (o : Obj ForecastingModel) (steps : nat) :
  train <> [] ->
  fit train (mkObj m lg) = (Ok tt, o) ->
  (predict_supported (self o) train steps ->
   dates_representable train steps = true ->
   exists fc, predict steps o = (Ok fc, o) /\ daily_forecast train fc steps) /\
  (forall es, self o = ExpSmoothing es ->
     exists fm, es_fitted_model es = Some fm /\
       predict steps o = (HoltWinters_forecast fm steps, o)).
Proof.
  intros Hne Hfit.
  destruct (iloc_at_last Hne) as (last & Hlast).
  unfold fit, on_object in Hfit. simpl in Hfit.
  destruct m as [ma|es|nv|sn|lr].
  - (* Moving Average *)
    destruct (MovingAverageModel_fit train (mkObj ma lg)) as [r o1] eqn:E.
    injection Hfit as -> <-.
    apply MovingAverageModel_fit_ok in E as (slope & ->). simpl in *.
    split; [|discriminate]. intros Hsup Hrep.
    destruct Hsup as (w & Hw). rewrite Hw.
    destruct (MovingAverageModel_predict_ok train w slope lg steps Hlast Hrep)
      as (vs & Hlen & Hrun).
    exists (combine (days_from (fst last + DAY) steps) vs). split.
    + unfold predict, on_object. simpl. simpl in Hrun. now rewrite Hrun.
    + now apply daily_forecast_combine.
  - (* Exponential Smoothing *)
    pose proof (ExponentialSmoothingModel_fit_run train es lg) as Hrun.
    destruct (ExponentialSmoothingModel_fit train (mkObj es lg)) as [r o1].
    injection Hfit as -> <-. simpl. split; [contradiction|].
    intros es' [= <-].
    assert (Hst : exists fm, es_fitted (self o1) = true /\ es_fitted_model (self o1) = Some fm).
    { destruct (hw_fit train (es_trend es) (es_seasonal es) (es_seasonal_periods es)).
      - destruct Hrun as (_ & _ & Hf & Hm). eauto.
      - destruct Hrun as (_ & Hrun). destruct (hw_fit train PNone PNone PNone).
        + destruct Hrun as (_ & Hf & Hm). eauto.
        + destruct Hrun as (Hr & _). discriminate. }
    destruct Hst as (fm & Hf & Hm). exists fm. split; [exact Hm|].
    unfold predict, on_object. cbn [self logs].
    unfold ExponentialSmoothingModel_predict, bind, get_self, attr, lift. cbn [self logs].
    rewrite Hf. cbn [negb self]. rewrite Hm. reflexivity.
  - (* Naive *)
    rewrite NaiveModel_fit_run, Hlast in Hfit. injection Hfit as <-.
    split; [|discriminate]. intros _ Hrep.
    exists (combine (days_from (fst last + DAY) steps) (repeat (snd last) steps)). split.
    + unfold predict, on_object. simpl.
      pose proof (NaiveModel_predict_ok train (snd last) lg steps Hlast Hrep) as Hrun.
      simpl in Hrun. now rewrite Hrun.
    + apply daily_forecast_combine; [exact Hlast|apply repeat_length].
  - (* Seasonal Naive *)
    injection Hfit as <-. simpl. split; [|discriminate]. intros Hsup Hrep.
    destruct Hsup as (p & Hp & Hrange).
    destruct (SeasonalNaiveModel_predict_ok train lg steps Hrange Hrep)
      as (last' & Hlast' & Hrun).
    rewrite Hlast in Hlast'. injection Hlast' as <-.
    exists (combine (days_from (fst last + DAY) steps)
                    (map (seasonal_pick train p) (seq 0 steps))). split.
    + unfold predict, on_object. simpl. rewrite Hp. now rewrite Hrun.
    + apply daily_forecast_combine; [exact Hlast|]. now rewrite length_map, length_seq.
  - (* Linear Regression *)
    rewrite LinearRegressionModel_fit_run in Hfit.
    destruct (LinearRegression_fit (lr_model lr) (arange 0 (len train)) (values train))
      as [f|e]; [|discriminate].
    injection Hfit as <-. simpl. split; [|discriminate]. intros Hsup Hrep.
    destruct Hsup as (ys & Hys & Hlen).
    exists (combine (days_from (fst last + DAY) steps) ys). split.
    + unfold predict, on_object. simpl.
      pose proof (LinearRegressionModel_predict_ok train f lg Hlast Hys Hlen Hrep) as Hrun.
      simpl in Hrun. now rewrite Hrun.
    + now apply daily_forecast_combine.
Qed.

(** C8 (as amended): when fitting the configured Exponential Smoothing model
    raises, [fit] logs one diagnostic and fits again with no trend and no
    seasonal component; when that second fit succeeds no error propagates
    and the model is left fitted with its result; when the second fit raises
    too, its error propagates and the fitted flag is left as it was. *)
Theorem es_fit_fallback (data : Series) (m : ExponentialSmoothingModel)
    (lg : list LogRecord) (e : exn) :
  hw_fit data (es_trend m) (es_seasonal m) (es_seasonal_periods m) = Raise e ->
  let '(r, o) := ExponentialSmoothingModel_fit data (mkObj m lg) in
  logs o = lg ++ [es_fit_failed e] /\
  match hw_fit data PNone PNone PNone with
  | Ok res => r = Ok tt /\ es_fitted (self o) = true /\ es_fitted_model (self o) = Some res
  | Raise e' => r = Raise e' /\ es_fitted (self o) = es_fitted m
  end.
Proof.
  intros Hcfg. pose proof (ExponentialSmoothingModel_fit_run data m lg) as H.
  destruct (ExponentialSmoothingModel_fit data (mkObj m lg)) as [r o].
  rewrite Hcfg in H. destruct H as [Hlog H]. split; [exact Hlog|].
  destruct (hw_fit data PNone PNone PNone); tauto.
Qed.

End ModelContracts.

(** C3, the claim as worded fails: Seasonal Naive accepts an empty series. *)
Lemma seasonal_naive_fit_accepts_empty :
  SeasonalNaiveModel_fit [] (mkObj (SeasonalNaiveModel_init (PInt 7)) []) =
    (Ok tt, mkObj (mkSeasonalNaive true (PInt 7) (Some [])) []).
Proof. reflexivity. Qed.

(** C4, the claim as worded fails twice.  Seasonal Naive with period 7,
    fitted on three points, raises IndexError at the first forecast step.
    And Naive, fitted on a series that ends on 2262-04-11, the last day
    pandas can represent, raises OutOfBoundsDatetime when it computes the
    day after. *)
Lemma predict_after_fit_raises :
  (exists o e,
     daily [1; 2; 3] <> [] /\
     SeasonalNaiveModel_fit (daily [1; 2; 3]) (mkObj (SeasonalNaiveModel_init (PInt 7)) []) = (Ok tt, o) /\
     fst (SeasonalNaiveModel_predict 1 o) = Raise e /\ kind e = IndexError) /\
  (exists o e,
     ends_on_last_day <> [] /\
     NaiveModel_fit ends_on_last_day (mkObj NaiveModel_init []) = (Ok tt, o) /\
     fst (NaiveModel_predict 1 o) = Raise e /\ kind e = OutOfBoundsDatetime).
Proof.
  split.
  - eexists. eexists. split; [discriminate|]. split; [reflexivity|]. split; reflexivity.
  - eexists. eexists. split; [discriminate|]. split; [reflexivity|]. split; reflexivity.
Qed.

Lemma predict_daily_index_witness :
  exists fc, predict (L := Exact.libraries) 3 ma7_on_five = (Ok fc, ma7_on_five) /\
             daily_forecast (daily [1; 2; 3; 4; 5]) fc 3.
Proof.
  destruct (@predict_daily_index Exact.libraries
              (MovingAverage (MovingAverageModel_init (PInt 7))) [] (daily [1; 2; 3; 4; 5])
              ma7_on_five 3) as [H _].
  - discriminate.
  - reflexivity.
  - apply H; [exists 7; reflexivity|reflexivity].
Defined.

Lemma es_fit_fallback_witness :
  let '(r, o) := ExponentialSmoothingModel_fit (L := Exact.libraries) (daily [1; 2; 3])
                   (mkObj es_seasonal_on_three []) in
  logs o = [] ++ [es_fit_failed (mkExn ValueError "less than two full seasonal cycles in the data")] /\
  r = Ok tt /\ es_fitted (self o) = true /\ es_fitted_model (self o) = Some (daily [1; 2; 3]).
Proof.
  apply (@es_fit_fallback Exact.libraries (daily [1; 2; 3]) es_seasonal_on_three []).
  reflexivity.
Defined.

(** C8, the claim as worded fails on a series that the library rejects under
    every configuration, such as the empty series: the configured fit
    raises, the fallback fit raises too, and [fit] propagates that error. *)
Lemma es_fit_propagates_fallback_error :
  exists e e',
    hw_fit (L := Exact.libraries) [] (PStr "add") PNone PNone = Raise e /\
    ExponentialSmoothingModel_fit (L := Exact.libraries) []
      (mkObj (ExponentialSmoothingModel_init (L := Exact.libraries) (PStr "add") PNone PNone) []) =
      (Raise e',
       mkObj (ExponentialSmoothingModel_init (L := Exact.libraries) (PStr "add") PNone PNone)
             [es_fit_failed e]).
Proof. eexists. eexists. split; reflexivity. Qed.

(** ** The metric calculator *)

Lemma in_align_inner (actual predicted : Series) t x y :
  In (t, (x, y)) (align_inner actual predicted) <->
  In (t, x) actual /\ series_get predicted t = Some y.
Proof.
  induction actual as [|[t' a] rest IH]; simpl; [tauto|].
  destruct (series_get predicted t') as [p|] eqn:E; simpl; rewrite IH; split.
  - intros [[= <- <- <-]|[H1 H2]]; auto.
  - intros [[[= <- <-]|H1] H2]; [left|right; auto]. congruence.
  - intros [H1 H2]; auto.
  - intros [[[= <- <-]|H1] H2]; [congruence|auto].
Qed.


Lemma index_equals_spec (i1 i2 : list Z) : index_equals i1 i2 = true <-> i1 = i2.
Proof.
  revert i2. induction i1 as [|t1 r1 IH]; intros [|t2 r2]; simpl;
    try (split; [discriminate|congruence]); [tauto|].
  rewrite andb_true_iff, Z.eqb_eq, IH. split; [intros [-> ->]; reflexivity|].
  intros [= -> ->]. tauto.
Qed.

Lemma align_inner_skip_head (actual rest : Series) t p :
  ~ In t (index actual) -> align_inner actual ((t, p) :: rest) = align_inner actual rest.
Proof.
  induction actual as [|[t' a] ra IH]; simpl; intros Hnot; [reflexivity|].
  destruct (Z.eqb_spec t' t) as [->|Hne]; [tauto|].
  rewrite IH by tauto. reflexivity.
Qed.

Lemma align_inner_same_index (actual predicted : Series) :
  index actual = index predicted -> NoDup (index actual) ->
  align_inner actual predicted =
    combine (index actual) (combine (values actual) (values predicted)).
Proof.
  revert predicted. induction actual as [|[t a] ra IH]; intros [|[t' p] rp]; simpl;
    try discriminate; [reflexivity|].
  intros [= <- Hidx] Hnd. inversion Hnd as [|x l Hfresh Hnd']; subst.
  rewrite Z.eqb_refl. f_equal.
  rewrite align_inner_skip_head by exact Hfresh. now apply IH.
Qed.

Lemma pair_up_same_index (actual predicted : Series) :
  index actual = index predicted ->
  pair_up actual predicted =
    combine (index actual) (combine (values actual) (values predicted)).
Proof.
  unfold pair_up. revert predicted.
  induction actual as [|[t a] ra IH]; intros [|[t' p] rp]; simpl;
    try discriminate; [reflexivity|].
  intros [= <- Hidx]. f_equal. now apply IH.
Qed.

(** On indexes without repeated labels, [align] is the join by label. *)
Lemma align_NoDup (actual predicted : Series) :
  NoDup (index predicted) -> align actual predicted = align_inner actual predicted.
Proof.
  intros Hnd. unfold align.
  destruct (index_equals (index actual) (index predicted)) eqn:E; [|reflexivity].
  apply index_equals_spec in E.
  rewrite pair_up_same_index by exact E.
  rewrite align_inner_same_index; [reflexivity|exact E|now rewrite E].
Qed.

Lemma replace_zero_when_some (xs : list pyfloat) :
  (if existsb fis_zero xs then replace_zero xs else xs) = replace_zero xs.
Proof.
  destruct (existsb fis_zero xs) eqn:E; [reflexivity|].
  unfold replace_zero. induction xs as [|x xs IH]; simpl in *; [reflexivity|].
  apply orb_false_iff in E as [Hx Hxs]. rewrite Hx. f_equal. now apply IH.
Qed.



Lemma series_get_Some_In (predicted : Series) t y :
  series_get predicted t = Some y -> In (t, y) predicted.
Proof.
  induction predicted as [|[t' p] rest IH]; simpl; [discriminate|].
  destruct (Z.eqb_spec t t') as [->|Hne]; [intros [= ->]; now left|].
  intros H. right. now apply IH.
Qed.

Lemma combine_same_label (actual predicted : Series) u v :
  index actual = index predicted -> In (u, v) (combine actual predicted) -> fst u = fst v.
Proof.
  revert predicted. induction actual as [|[t a] ra IH]; intros [|[t' p] rp]; simpl;
    try tauto; try discriminate.
  intros [= <- Hidx] [[= <- <-]|Hin]; [reflexivity|]. now apply (IH rp).
Qed.

(** Whatever the indexes, an aligned pair carries one label, a value of
    [actual] at that label and a value of [predicted] at that label. *)
Lemma in_align (actual predicted : Series) t x y :
  In (t, (x, y)) (align actual predicted) -> In (t, x) actual /\ In (t, y) predicted.
Proof.
  unfold align. destruct (index_equals (index actual) (index predicted)) eqn:E.
  - apply index_equals_spec in E. unfold pair_up. intros H.
    apply in_map_iff in H as ([[t1 a] [t2 p]] & [= <- <- <-] & Hin).
    pose proof (combine_same_label _ _ _ _ E Hin) as Hl. simpl in Hl. subst t2.
    split; [eapply in_combine_l|eapply in_combine_r]; exact Hin.
  - intros H. apply in_align_inner in H as [Hx Hy]. split; [exact Hx|].
    now apply series_get_Some_In.
Qed.



Section Metrics.

Context {L : Libraries}.


End Metrics.





(** ** The backtester *)

(** *** Floats: sign and truncation *)






(** The literals are the floats nearest to 7/10 and 8/10, and [float_10] is
    the float of 10. *)
Lemma float_literals :
  float_of_int 10 = Ok float_10 /\
  SFdiv prec emax (binary_normalize prec emax 7 0 false) float_10 = float_0_7 /\
  SFdiv prec emax (binary_normalize prec emax 8 0 false) float_10 = float_0_8 /\
  valid_binary prec emax float_0_7 = true /\
  valid_binary prec emax float_0_8 = true.
Proof. repeat split; reflexivity. Qed.




Section Backtest.

Context {L : Libraries}.

(** [backtest_single_model] step by step, once the split index is known. *)
Lemma backtest_single_model_run (data : Series) ts (h : Z) (m : ForecastingModel) lg k :
  split_index data ts = Ok k ->
  let train := iloc_upto data k in
  let test := iloc_from data k in
  let h' := if len test <? h then len test else h in
  let lg' := if len test <? h then lg ++ [horizon_warning] else lg in
  backtest_single_model data ts h (mkObj m lg) =
    if h' <=? 0 then (Ok unscored, mkObj m lg')
    else
      match fit train (mkObj m lg') with
      | (Raise e, o1) => (Ok (failed e), after_failure o1 e)
      | (Ok _, o1) =>
          match predict (Z.to_nat h') o1 with
          | (Raise e, o2) => (Ok (failed e), after_failure o2 e)
          | (Ok fc, o2) =>
              match calculate_metrics (iloc_upto test h') fc with
              | Raise e => (Ok (failed e), after_failure o2 e)
              | Ok mt => (Ok (scored mt fc (iloc_upto test h')), o2)
              end
          end
      end.
Proof.
  intros Hsplit train test h' lg'.
  unfold backtest_single_model, bind, lift. rewrite Hsplit. fold train. fold test.
  unfold h', lg'. destruct (len test <? h); unfold log, ret; simpl.
  - destruct (len test <=? 0); [reflexivity|].
    unfold try_except, bind.
    destruct (fit train _) as [[[]|e] o1]; [|reflexivity].
    destruct (predict _ o1) as [[fc|e] o2]; [|reflexivity].
    unfold lift. destruct (calculate_metrics _ fc); reflexivity.
  - destruct (h <=? 0); [reflexivity|].
    unfold try_except, bind.
    destruct (fit train _) as [[[]|e] o1]; [|reflexivity].
    destruct (predict _ o1) as [[fc|e] o2]; [|reflexivity].
    unfold lift. destruct (calculate_metrics _ fc); reflexivity.
Qed.

Lemma backtest_single_model_raise (data : Series) ts (h : Z) (m : ForecastingModel) lg e :
  split_index data ts = Raise e ->
  backtest_single_model data ts h (mkObj m lg) = (Raise e, mkObj m lg).
Proof.
  intros Hsplit. unfold backtest_single_model, bind, lift. now rewrite Hsplit.
Qed.


Lemma backtest_single_model_error_inf (data : Series) ts (h : Z) (m : ForecastingModel) lg r o :
  backtest_single_model data ts h (mkObj m lg) = (Ok r, o) -> error_means_infinite r.
Proof.
  destruct (split_index data ts) as [k|e] eqn:Hsplit.
  - rewrite backtest_single_model_run with (k := k) by exact Hsplit.
    set (test := iloc_from data k). set (h' := if len test <? h then len test else h).
    destruct (h' <=? 0).
    + intros [= <- _]. intros H. discriminate.
    + destruct (fit _ _) as [[[]|e] o1].
      * destruct (predict _ o1) as [[fc|e] o2].
        -- destruct (calculate_metrics _ fc) as [mt|e].
           ++ intros [= <- _]. intros H. discriminate.
           ++ intros [= <- _]. intros _. split; reflexivity.
        -- intros [= <- _]. intros _. split; reflexivity.
      * intros [= <- _]. intros _. split; reflexivity.
  - rewrite backtest_single_model_raise with (e := e) by exact Hsplit. discriminate.
Qed.

Lemma dict_set_Forall {V} (P : string * V -> Prop) (d : list (string * V)) k v :
  Forall P d -> P (k, v) -> Forall P (dict_set d k v).
Proof.
  intros Hd Hv. induction Hd as [|[k' v'] d Hx Hd IH]; simpl.
  - constructor; [exact Hv|constructor].
  - destruct (String.eqb k k'); constructor; auto.
Qed.

Lemma backtest_loop_error_inf (ms : list ForecastingModel) (data : Series) ts (h : Z)
    (results : Results) lg :
  Forall (fun item => error_means_infinite (snd item)) results ->
  Forall (fun item => error_means_infinite (snd item))
         (fst (fst (backtest_loop ms data ts h results lg))).
Proof.
  revert results lg. induction ms as [|model rest IH]; intros results lg Hres; simpl.
  - exact Hres.
  - destruct (backtest_single_model data ts h _) as [r o] eqn:E.
    destruct r as [model_results|e].
    + specialize (IH (dict_set results (name (self o)) model_results) (logs o)).
      destruct (backtest_loop rest data ts h _ _) as [[results' rest'] lg'].
      simpl in *. apply IH. apply dict_set_Forall; [exact Hres|].
      simpl. eapply backtest_single_model_error_inf; eauto.
    + match goal with
      | |- context [backtest_loop rest data ts h ?rs ?l] => specialize (IH rs l)
      end.
      destruct (backtest_loop rest data ts h _ _) as [[results' rest'] lg'].
      simpl in *. apply IH. apply dict_set_Forall; [exact Hres|].
      simpl. intros _. split; reflexivity.
Qed.

Lemma select_best_model_scorable (rs : Results) out :
  select_best_model rs = Ok out -> existsb scorable rs = true -> scorable out = true.
Proof.
  unfold select_best_model.
  assert (Hinv : select_inv ([] ++ rs) (fold_left select_step rs (None, PInf, empty_result))).
  { apply select_loop_inv. simpl. auto. }
  simpl in Hinv.
  destruct (fold_left select_step rs (None, PInf, empty_result)) as [[bn bm] br].
  simpl in Hinv. destruct bn as [nm|].
  - destruct Hinv as [_ (i & _ & Hok & _)]. intros [= <-] _. exact Hok.
  - destruct Hinv as [_ Hnone]. intros _ Hex. congruence.
Qed.

(** C9: every result that [backtest_single_model] returns, and every entry
    of the mapping that [backtest_all_models] returns, has MAE = MAPE =
    +infinity when its error field is set; and whenever some entry of a
    mapping is error-free with an MAE below +infinity, the entry that
    [select_best_model] returns has no error. *)
Theorem error_results_are_infinite (data : Series) (ts : float64) (h : Z) :
  (forall m lg r o,
     backtest_single_model data ts h (mkObj m lg) = (Ok r, o) ->
     has_error r = true -> mae r = Some PInf /\ mape r = Some PInf) /\
  (forall b lg,
     exists rs o, backtest_all_models data ts h (mkObj b lg) = (Ok rs, o) /\
       forall nm r, In (nm, r) rs ->
         has_error r = true -> mae r = Some PInf /\ mape r = Some PInf) /\
  (forall rs out,
     select_best_model rs = Ok out -> existsb scorable rs = true ->
     has_error (snd out) = false).
Proof.
  split; [|split].
  - intros m lg r o Hrun. exact (backtest_single_model_error_inf _ _ _ _ _ Hrun).
  - intros b lg. unfold backtest_all_models.
    pose proof (@backtest_loop_error_inf (models b) data ts h [] lg (Forall_nil _)) as H.
    simpl. destruct (backtest_loop (models b) data ts h [] lg) as [[rs ms] lg'].
    simpl in H. eexists. eexists. split; [reflexivity|].
    intros nm r Hin. rewrite Forall_forall in H. exact (H (nm, r) Hin).
  - intros rs out Hsel Hex. pose proof (select_best_model_scorable _ Hsel Hex) as Hs.
    unfold scorable in Hs. apply andb_true_iff in Hs as [Hs _].
    now apply negb_true_iff in Hs.
Qed.

End Backtest.


Lemma error_results_are_infinite_witness :
  has_error (result_or_empty short_season_backtest) = true /\
  mae (result_or_empty short_season_backtest) = Some PInf /\
  mape (result_or_empty short_season_backtest) = Some PInf.
Proof.
  split; [reflexivity|].
  destruct (@error_results_are_infinite Exact.libraries five_days float_0_8 7) as (H & _).
  apply (H (SeasonalNaive (SeasonalNaiveModel_init (PInt 7))) []
           (result_or_empty short_season_backtest)
           (snd (backtest_single_model (L := Exact.libraries) five_days float_0_8 7
                   (mkObj (SeasonalNaive (SeasonalNaiveModel_init (PInt 7))) [])))).
  - reflexivity.
  - reflexivity.
Defined.

(** ** The grid search *)

Section GridSearch.

Context {L : Libraries}.

Lemma unknown_family_eqb (model_name : string) :
  ~ In model_name (map fst (param_grids GridSearchOptimizer_init)) ->
  String.eqb model_name "Moving Average" = false /\
  String.eqb model_name "Exponential Smoothing" = false /\
  String.eqb model_name "Naive" = false /\
  String.eqb model_name "Seasonal Naive" = false.
Proof.
  simpl. intros H. repeat split; apply String.eqb_neq; intros ->; tauto.
Qed.

(** C10: for a model name that is not a family of the grid,
    [generate_param_combinations] yields the single empty combination,
    [create_model_with_params] raises ValueError for it, and [grid_search]
    catches that error in its loop, logs a warning, and returns
    ({}, +infinity) without raising, whatever the series, the training
    proportion and the horizon. *)
Theorem grid_search_unknown_family (data : Series) (model_name : string)
    (train_size : float64) (forecast_horizon : Z) (lg : list LogRecord) :
  ~ In model_name (map fst (param_grids GridSearchOptimizer_init)) ->
  generate_param_combinations GridSearchOptimizer_init model_name = [[]] /\
  create_model_with_params model_name [] =
    Raise (mkExn ValueError ("Unknown model: " ++ model_name)) /\
  grid_search data model_name train_size forecast_horizon (mkObj GridSearchOptimizer_init lg) =
    (Ok ([], PInf),
     mkObj GridSearchOptimizer_init
           (lg ++ [grid_search_info model_name 1] ++
                  [grid_search_warning model_name [] ("Unknown model: " ++ model_name)])).
Proof.
  intros Hunknown. destruct (unknown_family_eqb Hunknown) as (H1 & H2 & H3 & H4).
  assert (Hgen : generate_param_combinations GridSearchOptimizer_init model_name = [[]]).
  { unfold generate_param_combinations. simpl. now rewrite H1, H2, H3, H4. }
  assert (Hcreate : create_model_with_params model_name [] =
                    Raise (mkExn ValueError ("Unknown model: " ++ model_name))).
  { unfold create_model_with_params. now rewrite H1, H2, H3, H4. }
  split; [exact Hgen|]. split; [exact Hcreate|].
  unfold grid_search, bind, get_self, log. simpl self. rewrite Hgen. simpl.
  unfold grid_search_step, try_except, bind, lift, log, ret. rewrite Hcreate. simpl.
  rewrite <- app_assoc. reflexivity.
Qed.

End GridSearch.

Lemma grid_search_unknown_family_witness :
  generate_param_combinations GridSearchOptimizer_init "Linear Regression" = [[]] /\
  create_model_with_params (L := Exact.libraries) "Linear Regression" [] =
    Raise (mkExn ValueError "Unknown model: Linear Regression") /\
  grid_search (L := Exact.libraries) ten_days "Linear Regression" float_0_8 7
      (mkObj GridSearchOptimizer_init []) =
    (Ok ([], PInf),
     mkObj GridSearchOptimizer_init
           [grid_search_info "Linear Regression" 1;
            grid_search_warning "Linear Regression" [] "Unknown model: Linear Regression"]).
Proof.
  apply (@grid_search_unknown_family Exact.libraries ten_days "Linear Regression"
           float_0_8 7 []).
  simpl. intuition discriminate.
Defined.

(** ** Further properties of the models *)

Lemma read_only_bind {R A B} (c : M (Obj R) A) (k : A -> M (Obj R) B) :
  read_only c -> (forall a, read_only (k a)) -> read_only (bind c k).
Proof.
  intros Hc Hk o. unfold bind. specialize (Hc o).
  destruct (c o) as [[a|e] o']; simpl in Hc; subst o'; [apply Hk|reflexivity].
Qed.

Lemma read_only_get_self {R} : read_only (@get_self R).
Proof. intros o. reflexivity. Qed.

Lemma read_only_lift {R A} (r : result A) : read_only (@lift (Obj R) A r).
Proof. intros o. reflexivity. Qed.

Lemma read_only_raise {R A} e : read_only (@raise (Obj R) A e).
Proof. intros o. reflexivity. Qed.

Lemma read_only_ret {R A} (a : A) : read_only (@ret (Obj R) A a).
Proof. intros o. reflexivity. Qed.

Lemma read_only_attr {R A} (field : R -> option A) nm : read_only (attr field nm).
Proof. intros o. unfold attr. destruct (field (self o)); reflexivity. Qed.

Lemma read_only_on_object {R T A} (wrap : R -> T) (r : R) (c : M (Obj R) A) (o : Obj T) :
  read_only c -> self o = wrap r -> snd (on_object wrap r c o) = o.
Proof.
  intros Hc Hself. unfold on_object. specialize (Hc (mkObj r (logs o))).
  destruct (c (mkObj r (logs o))) as [res o']. simpl in *. subst o'. simpl.
  destruct o as [s lg]. simpl in *. now subst s.
Qed.

Lemma read_only_NaiveModel_predict steps : read_only (NaiveModel_predict steps).
Proof.
  unfold NaiveModel_predict. apply read_only_bind; [apply read_only_get_self|].
  intros m. destruct (negb (nv_fitted m)); [apply read_only_raise|].
  repeat (apply read_only_bind;
          [first [apply read_only_attr|apply read_only_lift]|intros ?]).
  apply read_only_lift.
Qed.

Lemma read_only_SeasonalNaiveModel_predict steps : read_only (SeasonalNaiveModel_predict steps).
Proof.
  unfold SeasonalNaiveModel_predict. apply read_only_bind; [apply read_only_get_self|].
  intros m. destruct (negb (sn_fitted m)); [apply read_only_raise|].
  repeat (apply read_only_bind;
          [first [apply read_only_attr|apply read_only_lift]|intros ?]).
  apply read_only_lift.
Qed.

Section ModelProperties.

Context {L : Libraries}.

Lemma read_only_MovingAverageModel_predict steps : read_only (MovingAverageModel_predict steps).
Proof.
  unfold MovingAverageModel_predict. apply read_only_bind; [apply read_only_get_self|].
  intros m. destruct (negb (ma_fitted m)); [apply read_only_raise|].
  apply read_only_bind; [apply read_only_attr|intros data].
  apply read_only_bind; [apply read_only_lift|intros window].
  apply read_only_bind.
  - destruct steps; [apply read_only_ret|].
    apply read_only_bind; [apply read_only_attr|intros ?; apply read_only_ret].
  - intros vs.
    repeat (apply read_only_bind; [apply read_only_lift|intros ?]).
    apply read_only_lift.
Qed.

Lemma read_only_ExponentialSmoothingModel_predict steps :
  read_only (ExponentialSmoothingModel_predict steps).
Proof.
  unfold ExponentialSmoothingModel_predict. apply read_only_bind; [apply read_only_get_self|].
  intros m. destruct (negb (es_fitted m)); [apply read_only_raise|].
  apply read_only_bind; [apply read_only_attr|intros ?; apply read_only_lift].
Qed.

Lemma read_only_LinearRegressionModel_predict steps :
  read_only (LinearRegressionModel_predict steps).
Proof.
  unfold LinearRegressionModel_predict. apply read_only_bind; [apply read_only_get_self|].
  intros m. destruct (negb (lr_fitted m)); [apply read_only_raise|].
  repeat (apply read_only_bind;
          [first [apply read_only_attr|apply read_only_lift]|intros ?]).
  apply read_only_lift.
Qed.

(** X1: [predict] has no side effect: whatever the variant, the number of steps
    and the outcome (a forecast or an exception), the model object and the
    log are left exactly as they were. *)
Theorem predict_has_no_side_effect (steps : nat) (o : Obj ForecastingModel) :
  snd (predict steps o) = o.
Proof.
  unfold predict. destruct (self o) as [m|m|m|m|m] eqn:E;
    apply read_only_on_object; try exact E.
  - apply read_only_MovingAverageModel_predict.
  - apply read_only_ExponentialSmoothingModel_predict.
  - apply read_only_NaiveModel_predict.
  - apply read_only_SeasonalNaiveModel_predict.
  - apply read_only_LinearRegressionModel_predict.
Qed.

(** X2: [predict] on a model whose fitted flag is not set raises ValueError
    "Model must be fitted before prediction", for every variant, before
    anything else is read. *)
Theorem predict_before_fit_raises (steps : nat) (o : Obj ForecastingModel) :
  fitted (self o) = false -> predict steps o = (Raise not_fitted, o).
Proof.
  destruct o as [m lg]. unfold predict, on_object. simpl.
  destruct m as [m|m|m|m|m]; simpl; intros H;
    [unfold MovingAverageModel_predict
    |unfold ExponentialSmoothingModel_predict
    |unfold NaiveModel_predict
    |unfold SeasonalNaiveModel_predict
    |unfold LinearRegressionModel_predict];
    unfold bind, get_self, raise; simpl; rewrite H; simpl;
    destruct m; simpl in *; subst; reflexivity.
Qed.

End ModelProperties.

Lemma predict_before_fit_raises_witness :
  predict (L := Exact.libraries) 3 (mkObj (LinearReg LinearRegressionModel_init) []) =
    (Raise not_fitted, mkObj (LinearReg LinearRegressionModel_init) []).
Proof.
  apply (@predict_before_fit_raises Exact.libraries 3
           (mkObj (LinearReg LinearRegressionModel_init) [])).
  reflexivity.
Defined.

Section FitProperties.

Context {L : Libraries}.

Lemma MovingAverageModel_fit_slope (data : Series) (m : MovingAverageModel) lg :
  MovingAverageModel_fit data (mkObj m lg) =
    match ma_slope data with
    | Ok s => (Ok tt, mkObj (mkMovingAverage true (ma_window m) (Some data) (Some s)) lg)
    | Raise e =>
        (Raise e, mkObj (mkMovingAverage true (ma_window m) (Some data) (ma_trend_slope m)) lg)
    end.
Proof.
  unfold MovingAverageModel_fit, ma_slope, bind, lift, update_self, set_trend_slope. simpl.
  destruct (1 <? len (iloc_from data (- Z.min 30 (len data)))); [|reflexivity].
  destruct (LinearRegression_fit _ _ _) as [lr|e]; [|reflexivity].
  destruct (LinearRegression_coef0 lr); reflexivity.
Qed.

Lemma len_iloc_from_le {A} (s : list A) k : len (iloc_from s k) <= len s.
Proof.
  unfold iloc_from, len. rewrite length_skipn. lia.
Qed.

Lemma ma_slope_short (data : Series) : len data <= 1 -> ma_slope data = Ok (of_int 0).
Proof.
  intros H. unfold ma_slope.
  pose proof (len_iloc_from_le data (- Z.min 30 (len data))).
  replace (1 <? len (iloc_from data (- Z.min 30 (len data)))) with false; [reflexivity|].
  symmetry. apply Z.ltb_ge. lia.
Qed.

(** X3: Naive: [forecast] on a non-empty series whose forecast dates are
    timestamps returns [steps] copies of the last training value and leaves
    the model fitted on that series. *)
Theorem naive_forecast_repeats_last (train : Series) (m : NaiveModel)
    (lg : list LogRecord) (steps : nat) :
  train <> [] ->
  dates_representable train steps = true ->
  exists last fc,
    iloc_at train (-1) = Ok last /\
    forecast train steps (mkObj (Naive m) lg) =
      (Ok fc, mkObj (Naive (mkNaive true (Some (snd last)) (Some train))) lg) /\
    values fc = repeat (snd last) steps /\
    List.length fc = steps.
Proof.
  intros Hne Hrep. destruct (iloc_at_last Hne) as (last & Hlast).
  exists last, (combine (days_from (fst last + DAY) steps) (repeat (snd last) steps)).
  split; [exact Hlast|]. split; [|split].
  - unfold forecast, bind, fit, predict, on_object. simpl.
    rewrite NaiveModel_fit_run, Hlast. simpl.
    pose proof (NaiveModel_predict_ok train (snd last) lg steps Hlast Hrep) as Hrun.
    simpl in Hrun. now rewrite Hrun.
  - apply values_combine. now rewrite repeat_length, length_days_from.
  - rewrite length_combine, length_days_from, repeat_length. lia.
Qed.

(** X4: Moving Average: after a successful [fit] on a non-empty series with an
    integer window [w], and when the forecast dates are timestamps, forecast
    step [i] is the mean of the last [w] training values plus [(i + 1)]
    times the fitted trend slope; the slope is 0 when the series has fewer
    than two points. *)
Theorem moving_average_forecast_values (train : Series) (m : MovingAverageModel) (w : Z)
    (lg : list LogRecord) (o : Obj MovingAverageModel) (steps : nat) :
  train <> [] ->
  ma_window m = PInt w ->
  MovingAverageModel_fit train (mkObj m lg) = (Ok tt, o) ->
  dates_representable train steps = true ->
  exists slope fc,
    ma_trend_slope (self o) = Some slope /\
    (len train <= 1 -> slope = of_int 0) /\
    MovingAverageModel_predict steps o = (Ok fc, o) /\
    List.length fc = steps /\
    forall i, (i < steps)%nat ->
      nth_error (values fc) i =
        Some (fadd (np_mean (values (iloc_from train (- w))))
                   (fmul (of_int (Z.of_nat i + 1)) slope)).
Proof.
  intros Hne Hw Hfit Hrep. destruct (iloc_at_last Hne) as (last & Hlast).
  destruct (forecast_dates_ok train steps Hlast Hrep) as [Hadd Hdates].
  rewrite MovingAverageModel_fit_slope in Hfit.
  destruct (ma_slope train) as [slope|e] eqn:Hslope; [|discriminate].
  injection Hfit as <-. rewrite Hw.
  set (f := fun i : nat => fadd (np_mean (values (iloc_from train (- w))))
                                (fmul (of_int (Z.of_nat i + 1)) slope)).
  exists slope, (combine (days_from (fst last + DAY) steps) (map f (seq 0 steps))).
  assert (Hlen : List.length (map f (seq 0 steps)) =
                 List.length (days_from (fst last + DAY) steps))
    by now rewrite length_map, length_seq, length_days_from.
  split; [reflexivity|]. split; [|split; [|split]].
  - intros Hshort. rewrite ma_slope_short in Hslope by exact Hshort. congruence.
  - unfold MovingAverageModel_predict, bind, get_self, attr, lift, ret.
    cbn [self ma_fitted negb ma_data ma_window as_int].
    destruct steps as [|n]; cbn [ma_trend_slope self]; rewrite Hlast, Hadd, Hdates.
    + reflexivity.
    + rewrite mk_series_same_length; [reflexivity|exact Hlen].
  - rewrite length_combine, length_days_from, length_map, length_seq. lia.
  - intros i Hi. rewrite values_combine by exact Hlen.
    rewrite nth_error_map, nth_error_seq.
    destruct (Nat.ltb_spec i steps); [reflexivity|lia].
Qed.

Lemma iloc_from_whole {A} (s : list A) (w : Z) :
  w = 0 \/ len s <= w -> iloc_from s (- w) = s.
Proof.
  intros H. unfold iloc_from, slice_bound. pose proof (len_nonneg s) as Hn.
  destruct (- w <? 0) eqn:E.
  - apply Z.ltb_lt in E. replace (Z.max (len s + - w) 0) with 0 by lia. reflexivity.
  - apply Z.ltb_ge in E. assert (w = 0) by lia. subst.
    change (- 0) with 0. rewrite Z.min_l by lia. reflexivity.
Qed.

(** X5: Moving Average: a window of 0, or one at least as long as the training
    series, averages the whole series (the forecast dates being
    timestamps). *)
Theorem moving_average_window_covers_series (train : Series) (w : Z) (slope : pyfloat)
    (lg : list LogRecord) (steps i : nat) :
  train <> [] ->
  w = 0 \/ len train <= w ->
  (i < steps)%nat ->
  dates_representable train steps = true ->
  exists fc,
    fst (MovingAverageModel_predict steps
           (mkObj (mkMovingAverage true (PInt w) (Some train) (Some slope)) lg)) = Ok fc /\
    nth_error (values fc) i =
      Some (fadd (np_mean (values train)) (fmul (of_int (Z.of_nat i + 1)) slope)).
Proof.
  intros Hne Hw Hi Hrep. destruct (iloc_at_last Hne) as (last & Hlast).
  destruct (forecast_dates_ok train steps Hlast Hrep) as [Hadd Hdates].
  set (f := fun i : nat => fadd (np_mean (values train))
                                (fmul (of_int (Z.of_nat i + 1)) slope)).
  exists (combine (days_from (fst last + DAY) steps) (map f (seq 0 steps))).
  assert (Hlen : List.length (map f (seq 0 steps)) =
                 List.length (days_from (fst last + DAY) steps))
    by now rewrite length_map, length_seq, length_days_from.
  split.
  - unfold MovingAverageModel_predict, bind, get_self, attr, lift, ret.
    cbn [self ma_fitted negb ma_data ma_window as_int].
    rewrite (iloc_from_whole train Hw).
    destruct steps as [|n]; [lia|]. cbn [ma_trend_slope self].
    rewrite Hlast, Hadd, Hdates.
    rewrite mk_series_same_length; [reflexivity|exact Hlen].
  - rewrite values_combine by exact Hlen. rewrite nth_error_map, nth_error_seq.
    destruct (Nat.ltb_spec i steps); [reflexivity|lia].
Qed.

(** X6: Moving Average: when the regression of [fit] raises, the exception
    propagates but the model is already marked fitted and holds the new
    series, with the trend slope of the previous fit (or none).  A model that
    had never been fitted then no longer answers "not fitted": with an
    integer window, [predict] for one step or more raises AttributeError on
    the missing slope. *)
Theorem moving_average_failed_fit_state (data : Series) (m : MovingAverageModel)
    (lg : list LogRecord) (e : exn) :
  ma_slope data = Raise e ->
  exists o,
    MovingAverageModel_fit data (mkObj m lg) = (Raise e, o) /\
    o = mkObj (mkMovingAverage true (ma_window m) (Some data) (ma_trend_slope m)) lg /\
    forall w steps,
      ma_window m = PInt w -> ma_trend_slope m = None -> (0 < steps)%nat ->
      exists e', MovingAverageModel_predict steps o = (Raise e', o) /\
                 kind e' = AttributeError.
Proof.
  intros H. eexists. split; [now rewrite MovingAverageModel_fit_slope, H|].
  split; [reflexivity|]. intros w [|n] Hw Hs Hpos; [lia|].
  unfold MovingAverageModel_predict, bind, get_self, attr, lift. simpl.
  rewrite Hw, Hs. simpl. eauto.
Qed.

Lemma ExponentialSmoothingModel_fit_same_config (data : Series)
    (a b : ExponentialSmoothingModel) lg1 lg2 o1 :
  es_trend a = es_trend b -> es_seasonal a = es_seasonal b ->
  es_seasonal_periods a = es_seasonal_periods b ->
  ExponentialSmoothingModel_fit data (mkObj a lg1) = (Ok tt, o1) ->
  exists lg2', ExponentialSmoothingModel_fit data (mkObj b lg2) = (Ok tt, mkObj (self o1) lg2').
Proof.
  intros Ht Hs Hp. unfold ExponentialSmoothingModel_fit, try_except, bind, get_self, log. simpl.
  rewrite !es_fit_with_run. rewrite <- Ht, <- Hs, <- Hp.
  destruct (ExponentialSmoothing data (es_trend a) (es_seasonal a) (es_seasonal_periods a))
    as [hw|e].
  - destruct (HoltWinters_fit hw) as [r|e].
    + intros [= <-]. simpl. rewrite Ht, Hs, Hp. eauto.
    + simpl. rewrite !es_fit_with_run. simpl.
      destruct (ExponentialSmoothing data PNone PNone PNone) as [hw'|e']; [|discriminate].
      destruct (HoltWinters_fit hw') as [r'|e']; [|discriminate].
      intros [= <-]. simpl. rewrite Ht, Hs, Hp. eauto.
  - simpl. rewrite !es_fit_with_run. simpl.
    destruct (ExponentialSmoothing data PNone PNone PNone) as [hw'|e']; [|discriminate].
    destruct (HoltWinters_fit hw') as [r'|e']; [|discriminate].
    intros [= <-]. simpl. rewrite Ht, Hs, Hp. eauto.
Qed.

(** X7: A successful [fit] overwrites the whole state: two model objects of the
    same class and constructor arguments, whatever they learned before, hold
    exactly the same state after a successful [fit] on the same series. *)
Theorem fit_overwrites_state (data : Series) (m1 m2 : ForecastingModel)
    (lg1 lg2 : list LogRecord) (o1 : Obj ForecastingModel) :
  same_config m1 m2 ->
  fit data (mkObj m1 lg1) = (Ok tt, o1) ->
  exists lg2', fit data (mkObj m2 lg2) = (Ok tt, mkObj (self o1) lg2').
Proof.
  unfold fit, on_object. simpl.
  destruct m1 as [a|a|a|a|a], m2 as [b|b|b|b|b]; simpl; try contradiction.
  - intros Hc. rewrite !MovingAverageModel_fit_slope.
    destruct (ma_slope data); [|discriminate]. intros [= <-]. simpl. rewrite Hc. eauto.
  - intros (Ht & Hs & Hp).
    destruct (ExponentialSmoothingModel_fit data (mkObj a lg1)) as [r oa] eqn:E.
    intros [= -> <-].
    destruct (@ExponentialSmoothingModel_fit_same_config data a b lg1 lg2 oa Ht Hs Hp E)
      as (lg2' & ->).
    simpl. eauto.
  - intros _. rewrite !NaiveModel_fit_run.
    destruct (iloc_at data (-1)); [|discriminate]. intros [= <-]. simpl. eauto.
  - intros Hc [= <-]. simpl. rewrite Hc. eauto.
  - intros Hc. rewrite !LinearRegressionModel_fit_run. rewrite Hc.
    destruct (LinearRegression_fit _ _ _); [|discriminate]. intros [= <-]. simpl. eauto.
Qed.

End FitProperties.

Lemma naive_forecast_repeats_last_witness :
  exists last fc,
    iloc_at five_days (-1) = Ok last /\
    forecast (L := Exact.libraries) five_days 3 (mkObj (Naive NaiveModel_init) []) =
      (Ok fc, mkObj (Naive (mkNaive true (Some (snd last)) (Some five_days))) []) /\
    values fc = repeat (snd last) 3 /\
    List.length fc = 3%nat.
Proof.
  apply (@naive_forecast_repeats_last Exact.libraries five_days NaiveModel_init [] 3).
  - discriminate.
  - reflexivity.
Defined.

Lemma moving_average_forecast_values_witness :
  exists slope fc,
    ma_trend_slope (self ma7_fitted) = Some slope /\
    (len five_days <= 1 -> slope = of_int 0) /\
    MovingAverageModel_predict (L := Exact.libraries) 3 ma7_fitted = (Ok fc, ma7_fitted) /\
    List.length fc = 3%nat /\
    forall i, (i < 3)%nat ->
      nth_error (values fc) i =
        Some (fadd (np_mean (Libraries := Exact.libraries) (values (iloc_from five_days (- 7))))
                   (fmul (of_int (Z.of_nat i + 1)) slope)).
Proof.
  apply (@moving_average_forecast_values Exact.libraries five_days
           (MovingAverageModel_init (PInt 7)) 7 [] ma7_fitted 3).
  - discriminate.
  - reflexivity.
  - reflexivity.
  - reflexivity.
Defined.

Lemma moving_average_window_covers_series_witness :
  exists fc,
    fst (MovingAverageModel_predict (L := Exact.libraries) 3
           (mkObj (mkMovingAverage true (PInt 7) (Some five_days) (Some (Fin 1))) [])) = Ok fc /\
    nth_error (values fc) 2 =
      Some (fadd (np_mean (Libraries := Exact.libraries) (values five_days))
                 (fmul (of_int (Z.of_nat 2 + 1)) (Fin 1))).
Proof.
  apply (@moving_average_window_covers_series Exact.libraries five_days 7 (Fin 1) [] 3 2).
  - discriminate.
  - right. unfold len. simpl. lia.
  - lia.
  - reflexivity.
Defined.

Lemma moving_average_failed_fit_state_witness :
  exists o,
    MovingAverageModel_fit (L := Exact.libraries) with_missing
      (mkObj (MovingAverageModel_init (PInt 7)) []) = (Raise Exact.bad_input, o) /\
    o = mkObj (mkMovingAverage true (PInt 7) (Some with_missing) None) [] /\
    forall w steps,
      PInt 7 = PInt w -> @None pyfloat = None -> (0 < steps)%nat ->
      exists e', MovingAverageModel_predict (L := Exact.libraries) steps o = (Raise e', o) /\
                 kind e' = AttributeError.
Proof.
  apply (@moving_average_failed_fit_state Exact.libraries with_missing
           (MovingAverageModel_init (PInt 7)) [] Exact.bad_input).
  reflexivity.
Defined.

Lemma fit_overwrites_state_witness :
  exists lg2',
    fit (L := Exact.libraries) five_days (mkObj (Naive naive_used) []) =
      (Ok tt, mkObj (Naive (mkNaive true (Some (Fin 5)) (Some five_days))) lg2').
Proof.
  apply (@fit_overwrites_state Exact.libraries five_days (Naive NaiveModel_init)
           (Naive naive_used) [] []
           (mkObj (Naive (mkNaive true (Some (Fin 5)) (Some five_days))) [])).
  - exact I.
  - reflexivity.
Defined.

(** ** Commands that do not look at the log *)

Lemma log_blind_ret {R A} (a : A) : log_blind (@ret (Obj R) A a).
Proof. intros r lg1 lg2. split; reflexivity. Qed.

Lemma log_blind_raise {R A} e : log_blind (@raise (Obj R) A e).
Proof. intros r lg1 lg2. split; reflexivity. Qed.

Lemma log_blind_lift {R A} (x : result A) : log_blind (@lift (Obj R) A x).
Proof. intros r lg1 lg2. split; reflexivity. Qed.

Lemma log_blind_get_self {R} : log_blind (@get_self R).
Proof. intros r lg1 lg2. split; reflexivity. Qed.

Lemma log_blind_update_self {R} (f : R -> R) : log_blind (update_self f).
Proof. intros r lg1 lg2. split; reflexivity. Qed.

Lemma log_blind_log {R} lv msg : log_blind (@log R lv msg).
Proof. intros r lg1 lg2. split; reflexivity. Qed.

Lemma log_blind_attr {R A} (field : R -> option A) nm : log_blind (attr field nm).
Proof. intros r lg1 lg2. unfold attr. simpl. destruct (field r); split; reflexivity. Qed.

Lemma log_blind_bind {R A B} (c : M (Obj R) A) (k : A -> M (Obj R) B) :
  log_blind c -> (forall a, log_blind (k a)) -> log_blind (bind c k).
Proof.
  intros Hc Hk r lg1 lg2. unfold bind. destruct (Hc r lg1 lg2) as [H1 H2].
  destruct (c (mkObj r lg1)) as [[a|e] [s1 l1]], (c (mkObj r lg2)) as [[a'|e'] [s2 l2]];
    simpl in *; subst; try discriminate.
  - injection H1 as <-. apply Hk.
  - injection H1 as <-. split; reflexivity.
Qed.

Lemma log_blind_try_except {R A} (c : M (Obj R) A) (handler : exn -> M (Obj R) A) :
  log_blind c -> (forall e, log_blind (handler e)) -> log_blind (try_except c handler).
Proof.
  intros Hc Hh r lg1 lg2. unfold try_except. destruct (Hc r lg1 lg2) as [H1 H2].
  destruct (c (mkObj r lg1)) as [[a|e] [s1 l1]], (c (mkObj r lg2)) as [[a'|e'] [s2 l2]];
    simpl in *; subst; try discriminate.
  - injection H1 as <-. split; reflexivity.
  - injection H1 as <-. apply Hh.
Qed.

Lemma log_blind_on_object {R T A} (wrap : R -> T) (r : R) (c : M (Obj R) A) t lg1 lg2 :
  log_blind c ->
  fst (on_object wrap r c (mkObj t lg1)) = fst (on_object wrap r c (mkObj t lg2)) /\
  self (snd (on_object wrap r c (mkObj t lg1))) =
    self (snd (on_object wrap r c (mkObj t lg2))).
Proof.
  intros Hc. unfold on_object. simpl. destruct (Hc r lg1 lg2) as [H1 H2].
  destruct (c (mkObj r lg1)) as [r1 o1], (c (mkObj r lg2)) as [r2 o2]. simpl in *.
  split; congruence.
Qed.

Ltac blind :=
  repeat first
    [ apply log_blind_ret | apply log_blind_raise | apply log_blind_lift
    | apply log_blind_get_self | apply log_blind_update_self | apply log_blind_log
    | apply log_blind_attr
    | apply log_blind_bind; [|intros ?]
    | apply log_blind_try_except; [|intros ?] ].

Lemma log_blind_NaiveModel_fit data : log_blind (NaiveModel_fit data).
Proof. unfold NaiveModel_fit. blind. Qed.

Lemma log_blind_NaiveModel_predict steps : log_blind (NaiveModel_predict steps).
Proof.
  unfold NaiveModel_predict. apply log_blind_bind; [blind|]. intros m.
  destruct (negb (nv_fitted m)); blind.
Qed.

Lemma log_blind_SeasonalNaiveModel_fit data : log_blind (SeasonalNaiveModel_fit data).
Proof. unfold SeasonalNaiveModel_fit. blind. Qed.

Lemma log_blind_SeasonalNaiveModel_predict steps : log_blind (SeasonalNaiveModel_predict steps).
Proof.
  unfold SeasonalNaiveModel_predict. apply log_blind_bind; [blind|]. intros m.
  destruct (negb (sn_fitted m)); blind.
Qed.

Section Blind.

Context {L : Libraries}.

Lemma log_blind_MovingAverageModel_fit data : log_blind (MovingAverageModel_fit data).
Proof.
  unfold MovingAverageModel_fit, set_trend_slope.
  do 2 (apply log_blind_bind; [blind|intros ?]).
  destruct (1 <? len _); blind.
Qed.

Lemma log_blind_MovingAverageModel_predict steps : log_blind (MovingAverageModel_predict steps).
Proof.
  unfold MovingAverageModel_predict. apply log_blind_bind; [blind|]. intros m.
  destruct (negb (ma_fitted m)); [blind|].
  do 2 (apply log_blind_bind; [blind|intros ?]).
  apply log_blind_bind; [destruct steps; blind|intros ?; blind].
Qed.

Lemma log_blind_ExponentialSmoothingModel_fit data :
  log_blind (ExponentialSmoothingModel_fit data).
Proof.
  unfold ExponentialSmoothingModel_fit, es_fit_with, es_set_model, es_set_fitted_model,
    es_set_fitted. blind.
Qed.

Lemma log_blind_ExponentialSmoothingModel_predict steps :
  log_blind (ExponentialSmoothingModel_predict steps).
Proof.
  unfold ExponentialSmoothingModel_predict. apply log_blind_bind; [blind|]. intros m.
  destruct (negb (es_fitted m)); blind.
Qed.

Lemma log_blind_LinearRegressionModel_fit data : log_blind (LinearRegressionModel_fit data).
Proof. unfold LinearRegressionModel_fit. blind. Qed.

Lemma log_blind_LinearRegressionModel_predict steps :
  log_blind (LinearRegressionModel_predict steps).
Proof.
  unfold LinearRegressionModel_predict. apply log_blind_bind; [blind|]. intros m.
  destruct (negb (lr_fitted m)); blind.
Qed.

Lemma log_blind_fit data : log_blind (fit data).
Proof.
  intros m lg1 lg2. unfold fit. simpl. destruct m as [m|m|m|m|m]; apply log_blind_on_object.
  - apply log_blind_MovingAverageModel_fit.
  - apply log_blind_ExponentialSmoothingModel_fit.
  - apply log_blind_NaiveModel_fit.
  - apply log_blind_SeasonalNaiveModel_fit.
  - apply log_blind_LinearRegressionModel_fit.
Qed.

Lemma log_blind_predict steps : log_blind (predict steps).
Proof.
  intros m lg1 lg2. unfold predict. simpl. destruct m as [m|m|m|m|m]; apply log_blind_on_object.
  - apply log_blind_MovingAverageModel_predict.
  - apply log_blind_ExponentialSmoothingModel_predict.
  - apply log_blind_NaiveModel_predict.
  - apply log_blind_SeasonalNaiveModel_predict.
  - apply log_blind_LinearRegressionModel_predict.
Qed.

Lemma log_blind_backtest_single_model data ts h :
  log_blind (backtest_single_model data ts h).
Proof.
  unfold backtest_single_model. apply log_blind_bind; [blind|intros split].
  apply log_blind_bind.
  - destruct (len _ <? h); blind.
  - intros h'. destruct (h' <=? 0); [blind|].
    apply log_blind_try_except.
    + apply log_blind_bind; [apply log_blind_fit|intros ?].
      apply log_blind_bind; [apply log_blind_predict|intros ?]. blind.
    + intros e. blind.
Qed.

End Blind.

(** ** Further properties of the backtester *)

Lemma dict_get_set_same {V} (d : list (string * V)) k v : dict_get (dict_set d k v) k = Some v.
Proof.
  induction d as [|[k' v'] d IH]; simpl.
  - now rewrite String.eqb_refl.
  - destruct (String.eqb k k') eqn:E; simpl; [now rewrite String.eqb_refl|now rewrite E].
Qed.

Lemma dict_get_set_other {V} (d : list (string * V)) k k' v :
  k' <> k -> dict_get (dict_set d k v) k' = dict_get d k'.
Proof.
  intros Hne. induction d as [|[k0 v0] d IH]; simpl.
  - destruct (String.eqb_spec k' k); [contradiction|reflexivity].
  - destruct (String.eqb_spec k k0) as [->|Hk]; simpl.
    + destruct (String.eqb_spec k' k0); [contradiction|reflexivity].
    + destruct (String.eqb k' k0); [reflexivity|exact IH].
Qed.

Lemma keys_dict_set {V} (d : list (string * V)) k v :
  map fst (dict_set d k v) =
    if existsb (String.eqb k) (map fst d) then map fst d else map fst d ++ [k].
Proof.
  induction d as [|[k' v'] d IH]; simpl; [reflexivity|].
  destruct (String.eqb_spec k k') as [->|Hk]; simpl; [reflexivity|].
  rewrite IH. destruct (existsb (String.eqb k) (map fst d)); reflexivity.
Qed.

Lemma existsb_eqb_In (k : string) (l : list string) :
  existsb (String.eqb k) l = true <-> In k l.
Proof.
  rewrite existsb_exists. split.
  - intros (x & Hx & E). apply String.eqb_eq in E. now subst.
  - intros H. exists k. split; [exact H|apply String.eqb_refl].
Qed.

Lemma existsb_eqb_app (k : string) (l : list string) (x : string) :
  existsb (String.eqb k) (l ++ [x]) = existsb (String.eqb k) (x :: l).
Proof. rewrite existsb_app. simpl. rewrite orb_false_r. apply orb_comm. Qed.

Lemma first_occurrences_ext (seen seen' names : list string) :
  (forall k, existsb (String.eqb k) seen = existsb (String.eqb k) seen') ->
  first_occurrences seen names = first_occurrences seen' names.
Proof.
  revert seen seen'. induction names as [|n names IH]; intros seen seen' H; simpl;
    [reflexivity|].
  rewrite <- H. destruct (existsb (String.eqb n) seen); [now apply IH|].
  f_equal. apply IH. intros k. simpl. now rewrite H.
Qed.

Lemma first_occurrences_NoDup (seen names : list string) :
  NoDup names -> (forall n, In n names -> ~ In n seen) ->
  first_occurrences seen names = names.
Proof.
  revert seen. induction names as [|n names IH]; intros seen Hnd Hseen; simpl;
    [reflexivity|].
  inversion Hnd as [|x l Hn Hnd']; subst.
  destruct (existsb (String.eqb n) seen) eqn:E.
  - apply existsb_eqb_In in E. exfalso. apply (Hseen n); [now left|exact E].
  - f_equal. apply IH; [exact Hnd'|].
    intros k Hk [<-|Hin]; [contradiction|]. apply (Hseen k); [now right|exact Hin].
Qed.

Lemma first_occurrences_incl (seen names : list string) k :
  In k (first_occurrences seen names) -> In k names.
Proof.
  revert seen. induction names as [|n names IH]; intros seen; simpl; [tauto|].
  destruct (existsb (String.eqb n) seen); simpl.
  - intros H. right. eapply IH; eauto.
  - intros [H|H]; [now left|right; eapply IH; eauto].
Qed.

Lemma select_best_model_member (rs : Results) :
  rs <> [] -> exists out, select_best_model rs = Ok out /\ In out rs.
Proof.
  intros Hne. unfold select_best_model.
  assert (Hinv : select_inv ([] ++ rs) (fold_left select_step rs (None, PInf, empty_result))).
  { apply select_loop_inv. simpl. auto. }
  simpl in Hinv.
  destruct (fold_left select_step rs (None, PInf, empty_result)) as [[bn bm] br].
  simpl in Hinv. destruct bn as [nm|].
  - destruct Hinv as [_ (i & Hi & _)]. eexists. split; [reflexivity|].
    eapply nth_error_In; eauto.
  - destruct rs as [|[n r] rs']; [congruence|]. simpl. rewrite String.eqb_refl.
    eexists. split; [reflexivity|now left].
Qed.

Section BacktestProperties.

Context {L : Libraries}.

Lemma read_only_predict steps : read_only (predict steps).
Proof.
  intros o. unfold predict. destruct (self o) as [m|m|m|m|m] eqn:E;
    apply read_only_on_object; try exact E.
  - apply read_only_MovingAverageModel_predict.
  - apply read_only_ExponentialSmoothingModel_predict.
  - apply read_only_NaiveModel_predict.
  - apply read_only_SeasonalNaiveModel_predict.
  - apply read_only_LinearRegressionModel_predict.
Qed.

Lemma name_after_fit data (o : Obj ForecastingModel) :
  name (self (snd (fit data o))) = name (self o).
Proof.
  destruct o as [m lg]. unfold fit, on_object. simpl.
  destruct m as [m|m|m|m|m]; simpl.
  - destruct (MovingAverageModel_fit data _); reflexivity.
  - destruct (ExponentialSmoothingModel_fit data _); reflexivity.
  - destruct (NaiveModel_fit data _); reflexivity.
  - reflexivity.
  - destruct (LinearRegressionModel_fit data _); reflexivity.
Qed.

Lemma split_index_not_finite (data : Series) ts :
  float_finite ts = false -> exists e, split_index data ts = Raise e.
Proof.
  intros H. unfold split_index. destruct (float_of_int (len data)) as [n|e]; [|eauto].
  unfold float_mul.
  destruct ts as [s|s| |s m x]; try discriminate;
    destruct n as [sn|sn| |sn mn xn]; simpl; eauto.
Qed.

Lemma backtest_single_model_ok_of_split (data : Series) ts h (m : ForecastingModel) lg k :
  split_index data ts = Ok k ->
  exists r, fst (backtest_single_model data ts h (mkObj m lg)) = Ok r.
Proof.
  intros Hsplit. rewrite backtest_single_model_run with (k := k) by exact Hsplit.
  destruct (_ <=? 0); [simpl; eauto|].
  destruct (fit _ _) as [[[]|e] o1]; [|simpl; eauto].
  destruct (predict _ o1) as [[fc|e] o2]; [|simpl; eauto].
  destruct (calculate_metrics _ fc); simpl; eauto.
Qed.

(** X12: The only exception that [backtest_single_model] lets through is the one
    of [int(len(data) * train_size)], before the split: every failure of fit,
    predict or scoring comes back as a result.  That conversion does raise
    when the training proportion is infinite or NaN. *)
Theorem backtest_single_model_raises_only_at_split (data : Series) (ts : float64) (h : Z)
    (m : ForecastingModel) (lg : list LogRecord) :
  (forall e, fst (backtest_single_model data ts h (mkObj m lg)) = Raise e <->
             split_index data ts = Raise e) /\
  (float_finite ts = false -> exists e, split_index data ts = Raise e).
Proof.
  split; [|apply split_index_not_finite].
  intros e. destruct (split_index data ts) as [k|e'] eqn:Hsplit.
  - destruct (@backtest_single_model_ok_of_split data ts h m lg k Hsplit) as (r & Hr).
    rewrite Hr. split; discriminate.
  - rewrite backtest_single_model_raise with (e := e') by exact Hsplit.
    cbn [fst]. split; intros [= ->]; reflexivity.
Qed.

Lemma name_after_backtest (data : Series) ts h (m : ForecastingModel) lg :
  name (self (snd (backtest_single_model data ts h (mkObj m lg)))) = name m.
Proof.
  destruct (split_index data ts) as [k|e] eqn:Hsplit.
  - rewrite backtest_single_model_run with (k := k) by exact Hsplit.
    set (lg' := if _ <? h then _ else lg).
    destruct (_ <=? 0); [reflexivity|].
    pose proof (name_after_fit (iloc_upto data k) (mkObj m lg')) as Hn.
    destruct (fit _ _) as [[[]|e] o1]; simpl in Hn; [|exact Hn].
    pose proof (read_only_predict
                  (Z.to_nat (if len (iloc_from data k) <? h
                             then len (iloc_from data k) else h)) o1) as Hp.
    destruct (predict _ o1) as [[fc|e] o2]; simpl in Hp; subst o2; [|exact Hn].
    destruct (calculate_metrics _ fc); exact Hn.
  - rewrite backtest_single_model_raise with (e := e) by exact Hsplit. reflexivity.
Qed.

Lemma backtest_single_model_single_result (data : Series) ts h (m : ForecastingModel) lg :
  match fst (backtest_single_model data ts h (mkObj m lg)) with
  | Ok r => r
  | Raise e => failed e
  end = single_result data ts h m.
Proof.
  unfold single_result.
  destruct (log_blind_backtest_single_model data ts h m lg []) as [-> _]. reflexivity.
Qed.

Lemma backtest_loop_keys (ms : list ForecastingModel) (data : Series) ts h
    (results : Results) lg :
  map fst (fst (fst (backtest_loop ms data ts h results lg))) =
    map fst results ++ first_occurrences (map fst results) (map name ms) /\
  map name (snd (fst (backtest_loop ms data ts h results lg))) = map name ms.
Proof.
  revert results lg. induction ms as [|model rest IH]; intros results lg; simpl.
  - now rewrite app_nil_r.
  - pose proof (name_after_backtest data ts h model
                  (lg ++ [(INFO, [Text "Backtesting "; Text (name model)])])) as Hn.
    destruct (backtest_single_model data ts h _) as [r o]. simpl in Hn.
    set (res := match r with Ok mr => mr | Raise e => failed e end).
    assert (Hstep : exists lg2,
      (let '(results0, lg0) :=
         match r with
         | Ok model_results => (dict_set results (name (self o)) model_results, logs o)
         | Raise e =>
             (dict_set results (name (self o)) (failed e),
              logs o ++ [(ERROR, [Text "Failed to backtest "; Text (name (self o)); Text ": ";
                                  Text (message e)])])
         end in
       let '(results1, rest0, lg1) := backtest_loop rest data ts h results0 lg0 in
       (results1, self o :: rest0, lg1)) =
      (let '(results1, rest0, lg1) :=
         backtest_loop rest data ts h (dict_set results (name model) res) lg2 in
       (results1, self o :: rest0, lg1))).
    { rewrite Hn. destruct r; eexists; reflexivity. }
    destruct Hstep as (lg2 & ->).
    destruct (IH (dict_set results (name model) res) lg2) as [IH1 IH2].
    destruct (backtest_loop rest data ts h _ lg2) as [[results1 rest0] lg1].
    simpl in *. split; [|now rewrite Hn, IH2].
    rewrite IH1, keys_dict_set.
    destruct (existsb (String.eqb (name model)) (map fst results)) eqn:E; [reflexivity|].
    rewrite <- app_assoc. simpl. do 2 f_equal.
    apply first_occurrences_ext. intros k. apply existsb_eqb_app.
Qed.

(** X14: [backtest_all_models] never raises; its mapping has one key per
    distinct model name, in the order in which the names first appear in the
    roster, and the roster keeps its models' names in place. *)
Theorem backtest_all_models_keys (data : Series) (ts : float64) (h : Z)
    (b : Backtester) (lg : list LogRecord) :
  exists rs o,
    backtest_all_models data ts h (mkObj b lg) = (Ok rs, o) /\
    map fst rs = first_occurrences [] (map name (models b)) /\
    map name (models (self o)) = map name (models b).
Proof.
  unfold backtest_all_models. simpl.
  destruct (backtest_loop_keys (models b) data ts h [] lg) as [H1 H2].
  destruct (backtest_loop (models b) data ts h [] lg) as [[rs ms] lg'].
  simpl in *. eexists. eexists. split; [reflexivity|]. split; assumption.
Qed.

Lemma backtest_loop_other_key (ms : list ForecastingModel) (data : Series) ts h
    (results : Results) lg k :
  ~ In k (map name ms) ->
  dict_get (fst (fst (backtest_loop ms data ts h results lg))) k = dict_get results k.
Proof.
  revert results lg. induction ms as [|model rest IH]; intros results lg Hk; simpl;
    [reflexivity|].
  pose proof (name_after_backtest data ts h model
                (lg ++ [(INFO, [Text "Backtesting "; Text (name model)])])) as Hn.
  destruct (backtest_single_model data ts h _) as [r o]. simpl in Hn, Hk.
  destruct r as [mr|e].
  - specialize (IH (dict_set results (name (self o)) mr) (logs o)).
    destruct (backtest_loop rest data ts h _ _) as [[results1 rest0] lg1].
    simpl in *. rewrite IH by tauto. rewrite Hn. apply dict_get_set_other.
    intros ->. tauto.
  - match goal with
    | |- context [backtest_loop rest data ts h ?rs ?l] => specialize (IH rs l)
    end.
    destruct (backtest_loop rest data ts h _ _) as [[results1 rest0] lg1].
    simpl in *. rewrite IH by tauto. rewrite Hn. apply dict_get_set_other.
    intros ->. tauto.
Qed.

Lemma backtest_loop_lookup (ms : list ForecastingModel) (data : Series) ts h
    (results : Results) lg model :
  NoDup (map name ms) -> In model ms ->
  dict_get (fst (fst (backtest_loop ms data ts h results lg))) (name model) =
    Some (single_result data ts h model).
Proof.
  revert results lg. induction ms as [|m0 rest IH]; intros results lg Hnd Hin; simpl;
    [contradiction|].
  inversion Hnd as [|x l Hfresh Hnd']; subst.
  pose proof (name_after_backtest data ts h m0
                (lg ++ [(INFO, [Text "Backtesting "; Text (name m0)])])) as Hn.
  pose proof (backtest_single_model_single_result data ts h m0
                (lg ++ [(INFO, [Text "Backtesting "; Text (name m0)])])) as Hres.
  destruct (backtest_single_model data ts h _) as [r o]. simpl in Hn, Hres.
  destruct Hin as [<-|Hin].
  - destruct r as [mr|e].
    + pose proof (@backtest_loop_other_key rest data ts h
                    (dict_set results (name (self o)) mr) (logs o) (name m0) Hfresh) as Hk.
      destruct (backtest_loop rest data ts h _ _) as [[results1 rest0] lg1].
      simpl in *. rewrite Hk, Hn, dict_get_set_same. now rewrite Hres.
    + match goal with
      | |- context [backtest_loop rest data ts h ?rs ?l] =>
          pose proof (@backtest_loop_other_key rest data ts h rs l (name m0) Hfresh) as Hk
      end.
      destruct (backtest_loop rest data ts h _ _) as [[results1 rest0] lg1].
      simpl in *. rewrite Hk, Hn, dict_get_set_same. now rewrite Hres.
  - destruct r as [mr|e].
    + specialize (IH (dict_set results (name (self o)) mr) (logs o) Hnd' Hin).
      destruct (backtest_loop rest data ts h _ _) as [[results1 rest0] lg1].
      exact IH.
    + match goal with
      | |- context [backtest_loop rest data ts h ?rs ?l] => specialize (IH rs l Hnd' Hin)
      end.
      destruct (backtest_loop rest data ts h _ _) as [[results1 rest0] lg1].
      exact IH.
Qed.

(** X15: Failure isolation: for a roster of models with distinct names, the entry
    that [backtest_all_models] records for each model is exactly the result
    of backtesting that model alone (or the error entry, if its backtest
    raised), whatever happened to the models before and after it. *)
Theorem backtest_all_models_isolates (data : Series) (ts : float64) (h : Z)
    (b : Backtester) (lg : list LogRecord) (model : ForecastingModel) :
  NoDup (map name (models b)) ->
  In model (models b) ->
  exists rs o,
    backtest_all_models data ts h (mkObj b lg) = (Ok rs, o) /\
    dict_get rs (name model) = Some (single_result data ts h model).
Proof.
  intros Hnd Hin. unfold backtest_all_models. simpl.
  pose proof (@backtest_loop_lookup (models b) data ts h [] lg model Hnd Hin) as H.
  destruct (backtest_loop (models b) data ts h [] lg) as [[rs ms] lg'].
  simpl in *. eexists. eexists. split; [reflexivity|exact H].
Qed.

(** X16: Backtesting a non-empty roster and selecting never fails: the selected
    name is the name of a model of the roster, and the selected result is
    the entry recorded under that name. *)
Theorem select_after_backtest_all (data : Series) (ts : float64) (h : Z)
    (b : Backtester) (lg : list LogRecord) :
  models b <> [] ->
  exists rs o nm r,
    backtest_all_models data ts h (mkObj b lg) = (Ok rs, o) /\
    select_best_model rs = Ok (nm, r) /\
    In nm (map name (models b)) /\ In (nm, r) rs.
Proof.
  intros Hne. unfold backtest_all_models. simpl.
  destruct (backtest_loop_keys (models b) data ts h [] lg) as [Hkeys _].
  destruct (backtest_loop (models b) data ts h [] lg) as [[rs ms] lg'].
  simpl in Hkeys.
  assert (Hrs : rs <> []).
  { intros ->. destruct (models b) as [|m0 rest]; [congruence|]. discriminate. }
  destruct (select_best_model_member Hrs) as ([nm r] & Hsel & Hin).
  exists rs. eexists. exists nm, r. split; [reflexivity|]. split; [exact Hsel|].
  split; [|exact Hin].
  apply (@first_occurrences_incl [] (map name (models b))). rewrite <- Hkeys.
  apply in_map_iff. exists (nm, r). split; [reflexivity|exact Hin].
Qed.

End BacktestProperties.

Lemma backtest_all_models_isolates_witness :
  exists rs o,
    backtest_all_models (L := Exact.libraries) five_days float_0_8 7
      (mkObj (mkBacktester create_default_models) []) = (Ok rs, o) /\
    dict_get rs "Seasonal Naive" =
      Some (single_result (L := Exact.libraries) five_days float_0_8 7
              (SeasonalNaive (SeasonalNaiveModel_init (PInt 7)))).
Proof.
  apply (@backtest_all_models_isolates Exact.libraries five_days float_0_8 7
           (mkBacktester create_default_models) []
           (SeasonalNaive (SeasonalNaiveModel_init (PInt 7)))).
  - simpl. repeat (constructor; [simpl; intuition discriminate|]). constructor.
  - simpl. tauto.
Defined.

Lemma select_after_backtest_all_witness :
  exists rs o nm r,
    backtest_all_models (L := Exact.libraries) five_days float_0_8 7
      (mkObj (mkBacktester create_default_models) []) = (Ok rs, o) /\
    select_best_model rs = Ok (nm, r) /\
    In nm (map name (models (mkBacktester (create_default_models (L := Exact.libraries))))) /\
    In (nm, r) rs.
Proof.
  apply (@select_after_backtest_all Exact.libraries five_days float_0_8 7
           (mkBacktester create_default_models) []).
  discriminate.
Defined.

(** ** Further properties of the grid search *)

Lemma flt_not_below_inf x y : flt x PInf = false -> flt x y = false.
Proof. destruct x, y; simpl; try reflexivity; discriminate. Qed.

Lemma flt_lt_below_inf x y : flt x y = true -> flt x PInf = true.
Proof. destruct x, y; simpl; try reflexivity; discriminate. Qed.

Lemma nth_error_snoc_cases {A} (pre : list A) (x c : A) j :
  nth_error (pre ++ [x]) j = Some c ->
  ((j < List.length pre)%nat /\ nth_error pre j = Some c) \/ (j = List.length pre /\ c = x).
Proof.
  intros H. destruct (Nat.lt_ge_cases j (List.length pre)) as [Hj|Hj].
  - left. split; [exact Hj|]. now rewrite nth_error_app1 in H.
  - right. rewrite nth_error_app2 in H by exact Hj.
    destruct (j - List.length pre)%nat as [|n] eqn:E; simpl in H.
    + injection H as <-. split; [lia|reflexivity].
    + destruct n; discriminate.
Qed.

Lemma grid_inv_step (score : Params -> option pyfloat) pre best x :
  grid_inv score pre best -> grid_inv score (pre ++ [x]) (keep_best score best x).
Proof.
  unfold grid_inv, keep_best. rewrite existsb_app. simpl. rewrite orb_false_r.
  replace (candidate score x)
    with (match score x with Some mae => flt mae PInf | None => false end) by reflexivity.
  intros [[Hnone ->]|[Hsome Hbest]].
  - rewrite Hnone. simpl. destruct (score x) as [mae|] eqn:Hx; [|now left].
    destruct (flt mae PInf) eqn:Hlt; [right|now left]. split; [reflexivity|].
    exists (List.length pre). simpl.
    split; [now rewrite nth_error_app2, Nat.sub_diag by lia|].
    split; [exact Hx|]. split; [exact Hlt|].
    intros j c mc Hj Hc. destruct (nth_error_snoc_cases _ _ _ Hj) as [[Hjl Hj']|[-> ->]].
    + assert (Hcand : candidate score c = false).
      { destruct (candidate score c) eqn:E; [|reflexivity].
        assert (existsb (candidate score) pre = true)
          by (apply existsb_exists; exists c; split; [eapply nth_error_In; eauto|exact E]).
        congruence. }
      unfold candidate in Hcand. rewrite Hc in Hcand. split.
      * now apply flt_not_below_inf.
      * intros _ Hb. congruence.
    + rewrite Hx in Hc. injection Hc as <-. split; [apply flt_irrefl|lia].
  - rewrite Hsome. simpl. right. split; [reflexivity|].
    destruct Hbest as (i & Hi & Hsc & Hinf & Hall).
    assert (Hil : (i < List.length pre)%nat) by (apply nth_error_Some; congruence).
    destruct (score x) as [mae|] eqn:Hx.
    + destruct (flt mae (snd best)) eqn:Hlt.
      * exists (List.length pre). simpl.
        split; [now rewrite nth_error_app2, Nat.sub_diag by lia|].
        split; [exact Hx|]. split; [eapply flt_lt_below_inf; eauto|].
        intros j c mc Hj Hc.
        destruct (nth_error_snoc_cases _ _ _ Hj) as [[Hjl Hj']|[-> ->]].
        -- destruct (Hall j c mc Hj' Hc) as [Hge _]. split.
           ++ eapply flt_lt_ge_not_lt; eauto.
           ++ intros _ Hb. eapply flt_lt_ge_trans; eauto.
              now apply flt_below_inf_not_nan in Hb.
        -- rewrite Hx in Hc. injection Hc as <-. split; [apply flt_irrefl|lia].
      * exists i. split; [now rewrite nth_error_app1|]. split; [exact Hsc|].
        split; [exact Hinf|]. intros j c mc Hj Hc.
        destruct (nth_error_snoc_cases _ _ _ Hj) as [[Hjl Hj']|[-> ->]].
        -- exact (Hall j c mc Hj' Hc).
        -- rewrite Hx in Hc. injection Hc as <-. split; [exact Hlt|lia].
    + exists i. split; [now rewrite nth_error_app1|]. split; [exact Hsc|].
      split; [exact Hinf|]. intros j c mc Hj Hc.
      destruct (nth_error_snoc_cases _ _ _ Hj) as [[Hjl Hj']|[-> ->]].
      * exact (Hall j c mc Hj' Hc).
      * congruence.
Qed.

Lemma grid_inv_fold (score : Params -> option pyfloat) combos pre best :
  grid_inv score pre best ->
  grid_inv score (pre ++ combos) (fold_left (keep_best score) combos best).
Proof.
  revert pre best. induction combos as [|x combos IH]; intros pre best H; simpl.
  - now rewrite app_nil_r.
  - replace (pre ++ x :: combos) with ((pre ++ [x]) ++ combos) by now rewrite <- app_assoc.
    apply IH. now apply grid_inv_step.
Qed.

Lemma keys_fold_dict_set {V} (f : string -> V) (names : list string) (d : list (string * V)) :
  map fst (fold_left (fun d n => dict_set d n (f n)) names d) =
    map fst d ++ first_occurrences (map fst d) names.
Proof.
  revert d. induction names as [|n names IH]; intros d; simpl; [now rewrite app_nil_r|].
  rewrite IH, keys_dict_set.
  destruct (existsb (String.eqb n) (map fst d)); [reflexivity|].
  rewrite <- app_assoc. simpl. do 2 f_equal.
  apply first_occurrences_ext. intros k. apply existsb_eqb_app.
Qed.

Lemma get_fold_dict_set {V} (f : string -> V) (names : list string) (d : list (string * V)) k :
  dict_get (fold_left (fun d n => dict_set d n (f n)) names d) k =
    if existsb (String.eqb k) names then Some (f k) else dict_get d k.
Proof.
  revert d. induction names as [|n names IH]; intros d; simpl; [reflexivity|].
  rewrite IH. destruct (String.eqb_spec k n) as [->|Hk]; simpl.
  - destruct (existsb (String.eqb n) names); [reflexivity|apply dict_get_set_same].
  - destruct (existsb (String.eqb k) names); [reflexivity|now apply dict_get_set_other].
Qed.

Section GridProperties.

Context {L : Libraries}.

Lemma grid_search_step_run data model_name ts h best params (g : GridSearchOptimizer) lg :
  exists lg',
    grid_search_step data model_name ts h best params (mkObj g lg) =
      (Ok (keep_best (combination_score data model_name ts h) best params), mkObj g lg').
Proof.
  unfold grid_search_step, try_except, bind, lift, combination_score, keep_best.
  destruct (create_model_with_params model_name params) as [model|e].
  - destruct (log_blind_backtest_single_model data ts h model lg []) as [Hb _].
    cbn [logs self].
    destruct (backtest_single_model data ts h (mkObj model lg)) as [r om].
    simpl in Hb. rewrite <- Hb. destruct r as [results|e]; unfold log, ret; simpl; eauto.
  - unfold log, ret. simpl. eauto.
Qed.

Lemma grid_search_loop_run data model_name ts h combos best (g : GridSearchOptimizer) lg :
  exists lg',
    grid_search_loop data model_name ts h combos best (mkObj g lg) =
      (Ok (fold_left (keep_best (combination_score data model_name ts h)) combos best),
       mkObj g lg').
Proof.
  revert best lg. induction combos as [|params combos IH]; intros best lg; simpl.
  - unfold ret. eauto.
  - unfold bind.
    destruct (grid_search_step_run data model_name ts h best params g lg) as (lg1 & ->).
    apply IH.
Qed.

Lemma grid_search_run data model_name ts h (g : GridSearchOptimizer) lg :
  exists lg',
    grid_search data model_name ts h (mkObj g lg) =
      (Ok (grid_best g data ts h model_name), mkObj g lg').
Proof.
  unfold grid_search, bind, get_self, log, grid_best. simpl.
  apply grid_search_loop_run.
Qed.

(** X17: [grid_search] never raises and leaves the optimizer as it is.  It
    returns the first combination of lowest MAE among the generated
    combinations whose model could be built and backtested with an MAE below
    +infinity (an earlier such combination has a strictly higher MAE, no
    scored combination a lower one), and ({}, +infinity) when there is no
    such combination. *)
Theorem grid_search_returns_first_best (data : Series) (model_name : string)
    (ts : float64) (h : Z) (g : GridSearchOptimizer) (lg : list LogRecord) :
  let combos := generate_param_combinations g model_name in
  let score := combination_score data model_name ts h in
  exists best lg',
    grid_search data model_name ts h (mkObj g lg) = (Ok best, mkObj g lg') /\
    if existsb (candidate score) combos then first_best score combos best
    else best = ([], PInf).
Proof.
  intros combos score.
  destruct (grid_search_run data model_name ts h g lg) as (lg' & Hrun).
  exists (grid_best g data ts h model_name), lg'. split; [exact Hrun|].
  assert (Hinv : grid_inv score ([] ++ combos) (fold_left (keep_best score) combos ([], PInf))).
  { apply grid_inv_fold. left. split; reflexivity. }
  simpl in Hinv. unfold grid_best. fold combos. fold score.
  destruct Hinv as [[-> ->]|[-> Hb]]; [reflexivity|exact Hb].
Qed.

Lemma optimize_loop_run data ts h names results (g : GridSearchOptimizer) lg :
  exists lg',
    optimize_loop data ts h names results (mkObj g lg) =
      (Ok (fold_left (fun d n => dict_set d n (grid_best g data ts h n)) names results),
       mkObj g lg').
Proof.
  revert results lg. induction names as [|n names IH]; intros results lg; simpl.
  - unfold ret. eauto.
  - unfold bind at 1. unfold try_except, bind, log. simpl.
    destruct (grid_search_run data n ts h g (lg ++ [(INFO, [Text "Optimizing "; Text n])]))
      as (lg1 & ->).
    unfold ret. apply IH.
Qed.

(** X18: [optimize_all_models] never raises: it returns one entry per family of
    the parameter grid, in declaration order, each holding exactly what
    [grid_search] returns for that family; the fallback entry of its
    exception handler is never used, and no other name (such as "Linear
    Regression") gets an entry. *)
Theorem optimize_all_models_entries (data : Series) (ts : float64) (h : Z)
    (g : GridSearchOptimizer) (lg : list LogRecord) :
  exists rs lg',
    optimize_all_models data ts h (mkObj g lg) = (Ok rs, mkObj g lg') /\
    map fst rs = first_occurrences [] (map fst (param_grids g)) /\
    forall model_name,
      dict_get rs model_name =
        if existsb (String.eqb model_name) (map fst (param_grids g))
        then Some (grid_best g data ts h model_name)
        else None.
Proof.
  unfold optimize_all_models, bind, get_self. simpl.
  destruct (optimize_loop_run data ts h (map fst (param_grids g)) [] g lg) as (lg' & ->).
  eexists. eexists. split; [reflexivity|]. split.
  - apply (keys_fold_dict_set (grid_best g data ts h) (map fst (param_grids g)) []).
  - intros model_name.
    apply (get_fold_dict_set (grid_best g data ts h) (map fst (param_grids g)) []).
Qed.

(** X19: [create_model_with_params] builds, for each of the four families it
    knows, an unfitted model whose name is the requested family; for every
    other name, "Linear Regression" included, it raises ValueError "Unknown
    model: <name>". *)
Theorem create_model_with_params_name (model_name : string) (params : Params) :
  match create_model_with_params model_name params with
  | Ok m =>
      name m = model_name /\ fitted m = false /\
      In model_name (map fst (param_grids GridSearchOptimizer_init))
  | Raise e =>
      e = mkExn ValueError ("Unknown model: " ++ model_name) /\
      ~ In model_name (map fst (param_grids GridSearchOptimizer_init))
  end.
Proof.
  unfold create_model_with_params. simpl.
  destruct (String.eqb_spec model_name "Moving Average") as [->|H1]; [simpl; tauto|].
  destruct (String.eqb_spec model_name "Exponential Smoothing") as [->|H2]; [simpl; tauto|].
  destruct (String.eqb_spec model_name "Naive") as [->|H3]; [simpl; tauto|].
  destruct (String.eqb_spec model_name "Seasonal Naive") as [->|H4]; [simpl; tauto|].
  split; [reflexivity|]. intros [H|[H|[H|[H|[]]]]]; congruence.
Qed.

End GridProperties.

(** ** Alignment of forecasts and actual values *)

Lemma filter_none {A} (f : A -> bool) (l : list A) :
  (forall x, In x l -> f x = false) -> filter f l = [].
Proof.
  intros H. induction l as [|x l IH]; simpl; [reflexivity|].
  rewrite (H x (or_introl eq_refl)). apply IH. intros y Hy. apply H. now right.
Qed.

Lemma aligned_pairs_nil_when_unmatched (actual predicted : Series) :
  (forall t a p, In (t, a) actual -> In (t, p) predicted ->
                 fis_nan a || fis_nan p = true) ->
  aligned_pairs actual predicted = [].
Proof.
  intros H. unfold aligned_pairs. apply filter_none.
  intros [t [x y]] Hin. apply in_align in Hin as [Hx Hy]. simpl.
  now rewrite (H t x y Hx Hy).
Qed.

Lemma filter_all {A} (f : A -> bool) (l : list A) :
  (forall x, In x l -> f x = true) -> filter f l = l.
Proof.
  intros H. induction l as [|x l IH]; simpl; [reflexivity|].
  rewrite (H x (or_introl eq_refl)). f_equal. apply IH. intros y Hy. apply H. now right.
Qed.

Lemma in_combine_values (idx : list Z) (xs ys : list pyfloat) t x y :
  In (t, (x, y)) (combine idx (combine xs ys)) -> In x xs /\ In y ys.
Proof.
  intros H. apply in_combine_r in H. split.
  - eapply in_combine_l; eauto.
  - eapply in_combine_r; eauto.
Qed.

Lemma aligned_pairs_same_index (actual predicted : Series) :
  index actual = index predicted -> NoDup (index actual) ->
  no_nan (values actual) -> no_nan (values predicted) ->
  map (fun tap => fst (snd tap)) (aligned_pairs actual predicted) = values actual /\
  map (fun tap => snd (snd tap)) (aligned_pairs actual predicted) = values predicted.
Proof.
  intros Hidx Hnd Ha Hp. unfold aligned_pairs.
  rewrite align_NoDup by (now rewrite <- Hidx).
  rewrite align_inner_same_index by assumption.
  rewrite filter_all.
  - assert (Hlen : List.length (values actual) = List.length (values predicted)).
    { unfold values. rewrite !length_map.
      apply (f_equal (@List.length Z)) in Hidx. unfold index in Hidx.
      now rewrite !length_map in Hidx. }
    assert (Hlen' : List.length (index actual) = List.length (values actual))
      by (unfold index, values; now rewrite !length_map).
    clear - Hlen Hlen'. revert Hlen Hlen'.
    generalize (index actual) (values actual) (values predicted).
    induction l as [|t l IH]; intros [|x xs] [|y ys]; simpl; intros H1 H2;
      try discriminate; [split; reflexivity|].
    destruct (IH xs ys) as [E1 E2]; [lia|lia|]. split; f_equal; assumption.
  - intros [t [x y]] Hin. simpl. apply in_combine_values in Hin as [Hx Hy].
    unfold no_nan in *. rewrite Forall_forall in Ha, Hp.
    now rewrite (Ha x Hx), (Hp y Hy).
Qed.

Lemma map_seq_shift {B} (f : nat -> B) a n :
  map f (seq a n) = map (fun i => f (a + i)%nat) (seq 0 n).
Proof.
  revert a. induction n as [|n IH]; intros a; simpl; [reflexivity|].
  rewrite Nat.add_0_r. f_equal. rewrite (IH (S a)), <- (seq_shift n 0), map_map.
  apply map_ext. intros i. f_equal. lia.
Qed.

Lemma skipn_days_from start n k :
  skipn k (days_from start n) = days_from (start + Z.of_nat k * DAY) (n - k).
Proof.
  unfold days_from. rewrite skipn_map, skipn_seq, map_seq_shift.
  apply map_ext. intros i. simpl. lia.
Qed.

Lemma firstn_days_from start n h :
  firstn h (days_from start n) = days_from start (Nat.min h n).
Proof.
  unfold days_from. rewrite firstn_map. f_equal.
  generalize 0%nat as a. revert n. induction h as [|h IH]; intros [|n] a; simpl;
    try reflexivity. f_equal. apply IH.
Qed.

Section Alignment.

Context {L : Libraries}.

(** X10: [calculate_metrics] returns MAE = MAPE = +infinity, without calling
    a metric routine, whenever no label carries a value on both sides, that
    is, whenever of an actual value and a prediction at the same label at
    least one is missing: in particular when the two indexes are disjoint,
    or when every prediction is missing. *)
Theorem calculate_metrics_unmatched (actual predicted : Series) :
  (forall t a p, In (t, a) actual -> In (t, p) predicted ->
                 fis_nan a || fis_nan p = true) ->
  calculate_metrics actual predicted = Ok (mkMetrics PInf PInf).
Proof.
  intros H. unfold calculate_metrics.
  now rewrite (@aligned_pairs_nil_when_unmatched actual predicted H).
Qed.

(** X11: When the two series carry the same labels, none repeated, and no value
    is missing, [calculate_metrics] scores every point: the MAE of the two
    value lists, and the MAPE of the value lists with each zero actual
    replaced by 1e-10. *)
Theorem calculate_metrics_same_index (actual predicted : Series) :
  index actual = index predicted -> NoDup (index actual) ->
  no_nan (values actual) -> no_nan (values predicted) ->
  actual <> [] ->
  calculate_metrics actual predicted =
    match mean_absolute_error (values actual) (values predicted) with
    | Raise e => Raise e
    | Ok mae =>
        match mean_absolute_percentage_error (replace_zero (values actual))
                (values predicted) with
        | Raise e => Raise e
        | Ok mape => Ok (mkMetrics mae mape)
        end
    end.
Proof.
  intros Hidx Hnd Ha Hp Hne. unfold calculate_metrics.
  destruct (aligned_pairs_same_index actual predicted Hidx Hnd Ha Hp) as [-> ->].
  replace (len (values actual) =? 0) with false.
  - now rewrite replace_zero_when_some.
  - symmetry. apply Z.eqb_neq. unfold len, values. rewrite length_map.
    destruct actual; [congruence|simpl; lia].
Qed.

End Alignment.

Lemma calculate_metrics_unmatched_witness :
  calculate_metrics (L := Exact.libraries) odd_days even_days = Ok (mkMetrics PInf PInf).
Proof.
  apply (@calculate_metrics_unmatched Exact.libraries odd_days even_days).
  intros t a p [[= <- <-]|[[= <- <-]|[]]] [[=]|[[=]|[]]].
Defined.

Lemma calculate_metrics_same_index_witness :
  calculate_metrics (L := Exact.libraries) c7_actual c7_predicted =
    match mean_absolute_error (Libraries := Exact.libraries)
            (values c7_actual) (values c7_predicted) with
    | Raise e => Raise e
    | Ok mae =>
        match mean_absolute_percentage_error (Libraries := Exact.libraries)
                (replace_zero (values c7_actual)) (values c7_predicted) with
        | Raise e => Raise e
        | Ok mape => Ok (mkMetrics mae mape)
        end
    end.
Proof.
  apply (@calculate_metrics_same_index Exact.libraries c7_actual c7_predicted).
  - reflexivity.
  - apply (NoDup_days_from 0 2).
  - repeat constructor.
  - repeat constructor.
  - discriminate.
Defined.

Lemma In_skipn_In {A} (l : list A) n x : In x (skipn n l) -> In x l.
Proof.
  revert l. induction n as [|n IH]; intros [|a l]; simpl; try tauto.
  intros H. right. now apply IH.
Qed.

Lemma no_nan_slice (xs : list pyfloat) a b :
  no_nan xs -> no_nan (firstn a (skipn b xs)).
Proof.
  unfold no_nan. rewrite !Forall_forall. intros H x Hx.
  apply H. eapply In_skipn_In. eapply In_firstn_In. exact Hx.
Qed.

Lemma iloc_upto_firstn {A} (s : list A) k :
  0 <= k -> iloc_upto s k = firstn (Z.to_nat k) s.
Proof.
  intros Hk. unfold iloc_upto, slice_bound.
  replace (k <? 0) with false by (symmetry; apply Z.ltb_ge; lia).
  destruct (Z.le_ge_cases k (len s)) as [Hle|Hge].
  - now rewrite Z.min_l by lia.
  - rewrite Z.min_r by lia. unfold len in *. rewrite Nat2Z.id.
    rewrite !firstn_all2; [reflexivity|lia|lia].
Qed.

Lemma iloc_from_skipn {A} (s : list A) k :
  0 <= k -> iloc_from s k = skipn (Z.to_nat k) s.
Proof.
  intros Hk. unfold iloc_from, slice_bound.
  replace (k <? 0) with false by (symmetry; apply Z.ltb_ge; lia).
  destruct (Z.le_ge_cases k (len s)) as [Hle|Hge].
  - now rewrite Z.min_l by lia.
  - rewrite Z.min_r by lia. unfold len in *. rewrite Nat2Z.id.
    rewrite !skipn_all2; [reflexivity|lia|lia].
Qed.

Section DailyBacktest.

Context {L : Libraries}.

(** X13: On a gap-free daily series without missing values, whose days and
    the day after the last one are timestamps, the backtest of the Naive
    model loses no point to alignment: with a split index [k] that leaves
    both parts non-empty and a positive horizon, the forecast index
    coincides with the index of the first [min(horizon, len(test))] test
    points, and the result is the score of that many copies of the last
    training value against those test values. *)
Theorem naive_backtest_scores_every_step (data : Series) (t0 : Z) (train_size : float64)
    (k h : Z) (m : NaiveModel) (lg : list LogRecord) :
  index data = days_from t0 (List.length data) ->
  t0 + len data * DAY <= Timestamp_max ->
  no_nan (values data) ->
  split_index data train_size = Ok k ->
  0 < k < len data ->
  0 < h ->
  let steps := Z.to_nat (Z.min h (len data - k)) in
  let actual_values := firstn steps (skipn (Z.to_nat k) (values data)) in
  exists last,
    nth_error data (Z.to_nat (k - 1)) = Some last /\
    List.length actual_values = steps /\
    fst (backtest_single_model data train_size h (mkObj (Naive m) lg)) =
      Ok (scored_in_full actual_values (repeat (snd last) steps)).
Proof.
  intros Hidx Hmax Hnan Hsplit Hk Hh steps actual_values.
  set (n := List.length data) in *.
  assert (Hn : len data = Z.of_nat n) by reflexivity.
  set (kk := Z.to_nat k).
  (* the two parts *)
  assert (Htrain : iloc_upto data k = firstn kk data) by (apply iloc_upto_firstn; lia).
  assert (Htest : iloc_from data k = skipn kk data) by (apply iloc_from_skipn; lia).
  assert (Hlt : len (skipn kk data) = len data - k).
  { unfold len. rewrite length_skipn. fold n. unfold kk. lia. }
  (* the horizon *)
  assert (Hh' : (if len (iloc_from data k) <? h then len (iloc_from data k) else h) =
                Z.min h (len data - k)).
  { rewrite Htest, Hlt. destruct (Z.ltb_spec (len data - k) h); lia. }
  assert (Hsteps : (0 < steps <= n - kk)%nat) by (unfold steps, kk; lia).
  (* the last training point *)
  assert (Hlen_train : len (firstn kk data) = k).
  { unfold len. rewrite length_firstn. fold n. unfold kk. lia. }
  destruct (@iloc_at_from_end _ (firstn kk data) 1) as (last & Hlast & Hnth); [lia|].
  change (- (1)) with (-1) in Hlast.
  rewrite Hlen_train in Hnth. rewrite nth_error_firstn in Hnth.
  replace (Z.to_nat (k - 1) <? kk)%nat with true in Hnth
    by (symmetry; apply Nat.ltb_lt; unfold kk; lia).
  assert (Hts : fst last = t0 + (k - 1) * DAY).
  { assert (Hi : nth_error (index data) (Z.to_nat (k - 1)) = Some (fst last))
      by (unfold index; now rewrite nth_error_map, Hnth).
    rewrite Hidx, nth_error_days_from in Hi by (fold n; lia).
    injection Hi as Hi. rewrite Z2Nat.id in Hi by lia. now symmetry. }
  exists last. split; [exact Hnth|].
  assert (Hlen_actual : List.length actual_values = steps).
  { unfold actual_values. rewrite length_firstn, length_skipn. unfold values.
    rewrite length_map. fold n. fold kk. lia. }
  split; [exact Hlen_actual|].
  (* the run *)
  rewrite backtest_single_model_run with (k := k) by exact Hsplit.
  rewrite Hh'. replace (Z.min h (len data - k) <=? 0) with false
    by (symmetry; apply Z.leb_gt; lia).
  rewrite Htrain. unfold fit, on_object. cbn [self logs].
  rewrite NaiveModel_fit_run, Hlast. cbn [fst snd self logs].
  unfold predict, on_object. cbn [self logs].
  assert (Hrep : dates_representable (firstn kk data) steps = true).
  { unfold dates_representable. rewrite Hlast. apply Z.leb_le. rewrite Hts.
    assert (0 < DAY) by reflexivity. assert (Z.of_nat steps <= len data - k) by lia. nia. }
  match goal with
  | |- context [NaiveModel_predict ?s (mkObj _ ?l)] =>
      pose proof (@NaiveModel_predict_ok (firstn kk data) last (snd last) l s Hlast) as Hrun
  end.
  fold steps in Hrun. specialize (Hrun Hrep).
  cbv zeta in Hrun. fold steps. fold steps in Hrun. rewrite Hrun. cbn [fst snd self logs].
  set (fc := combine (days_from (fst last + DAY) steps) (repeat (snd last) steps)).
  set (actual := iloc_upto (iloc_from data k) (Z.min h (len data - k))).
  assert (Hactual : actual = firstn steps (skipn kk data)).
  { unfold actual. rewrite Htest. apply iloc_upto_firstn. lia. }
  assert (Hvals : values actual = actual_values).
  { rewrite Hactual. unfold actual_values, values. now rewrite skipn_map, firstn_map. }
  assert (Hfc_vals : values fc = repeat (snd last) steps).
  { apply values_combine. now rewrite repeat_length, length_days_from. }
  assert (Hfc_idx : index fc = days_from (t0 + k * DAY) steps).
  { unfold fc. rewrite index_combine by now rewrite repeat_length, length_days_from.
    f_equal. rewrite Hts. lia. }
  assert (Hact_idx : index actual = days_from (t0 + k * DAY) steps).
  { rewrite Hactual. unfold index. rewrite <- firstn_map, <- skipn_map. fold (index data).
    rewrite Hidx, skipn_days_from, firstn_days_from. fold n. fold kk.
    f_equal; [unfold kk; lia|lia]. }
  assert (Hcalc : calculate_metrics actual fc =
    match mean_absolute_error actual_values (repeat (snd last) steps) with
    | Raise e => Raise e
    | Ok mae =>
        match mean_absolute_percentage_error (replace_zero actual_values)
                (repeat (snd last) steps) with
        | Raise e => Raise e
        | Ok mape => Ok (mkMetrics mae mape)
        end
    end).
  { unfold calculate_metrics.
    destruct (@aligned_pairs_same_index actual fc) as [-> ->].
    - now rewrite Hact_idx, Hfc_idx.
    - rewrite Hact_idx. apply NoDup_days_from.
    - rewrite Hvals. unfold actual_values. now apply no_nan_slice.
    - rewrite Hfc_vals. unfold no_nan. apply Forall_forall. intros x Hx.
      apply repeat_spec in Hx. subst x.
      unfold no_nan in Hnan. rewrite Forall_forall in Hnan. apply Hnan.
      unfold values. apply in_map. eapply nth_error_In. exact Hnth.
    - rewrite Hvals, Hfc_vals.
      replace (len actual_values =? 0) with false
        by (symmetry; apply Z.eqb_neq; unfold len; lia).
      now rewrite replace_zero_when_some. }
  rewrite Hcalc. unfold scored_in_full, scored.
  destruct (mean_absolute_error _ _) as [mae|e]; [|reflexivity].
  destruct (mean_absolute_percentage_error _ _) as [mape|e]; [|reflexivity].
  simpl. now rewrite Hfc_vals, Hvals.
Qed.

End DailyBacktest.

Lemma naive_backtest_scores_every_step_witness :
  exists last,
    nth_error ten_days (Z.to_nat (7 - 1)) = Some last /\
    List.length (firstn (Z.to_nat (Z.min 7 (10 - 7))) (skipn (Z.to_nat 7) (values ten_days))) =
      Z.to_nat (Z.min 7 (10 - 7)) /\
    fst (backtest_single_model (L := Exact.libraries) ten_days float_0_7 7
           (mkObj (Naive NaiveModel_init) [])) =
      Ok (scored_in_full (L := Exact.libraries)
            (firstn (Z.to_nat (Z.min 7 (10 - 7))) (skipn (Z.to_nat 7) (values ten_days)))
            (repeat (snd last) (Z.to_nat (Z.min 7 (10 - 7))))).
Proof.
  apply (@naive_backtest_scores_every_step Exact.libraries ten_days 0 float_0_7 7 7
           NaiveModel_init []).
  - reflexivity.
  - discriminate.
  - repeat constructor.
  - reflexivity.
  - split; reflexivity.
  - lia.
Defined.

(** ** Further properties of the seasonal naive model *)

Lemma seasonal_pick_periodic (train : Series) p i :
  0 < p -> seasonal_pick train p (i + Z.to_nat p) = seasonal_pick train p i.
Proof.
  intros Hp. unfold seasonal_pick, seasonal_position. do 3 f_equal.
  rewrite Nat2Z.inj_add, Z2Nat.id by lia.
  replace (Z.of_nat i + p) with (Z.of_nat i + 1 * p) by lia.
  apply Z.mod_add. lia.
Qed.

(** X8: Seasonal Naive: the forecast repeats with the period: with an integer
    period [p] between 1 and the length of the training series, and
    forecast dates that are timestamps, the values at steps [i] and [i + p]
    are the same. *)
Theorem seasonal_naive_forecast_periodic (train : Series) (p : Z) (lg : list LogRecord)
    (steps i : nat) :
  0 < p <= len train ->
  (i + Z.to_nat p < steps)%nat ->
  dates_representable train steps = true ->
  exists fc v,
    fst (SeasonalNaiveModel_predict steps
           (mkObj (mkSeasonalNaive true (PInt p) (Some train)) lg)) = Ok fc /\
    nth_error (values fc) i = Some v /\
    nth_error (values fc) (i + Z.to_nat p) = Some v.
Proof.
  intros Hp Hi Hrep.
  destruct (SeasonalNaiveModel_predict_ok train lg steps Hp Hrep) as (last & Hlast & Hrun).
  cbv zeta in Hrun. rewrite Hrun. simpl fst.
  eexists. exists (seasonal_pick train p i). split; [reflexivity|].
  rewrite values_combine by now rewrite length_map, length_seq, length_days_from.
  rewrite !nth_error_map, !nth_error_seq.
  destruct (Nat.ltb_spec i steps); [|lia].
  destruct (Nat.ltb_spec (i + Z.to_nat p) steps); [|lia].
  simpl. split; [reflexivity|]. f_equal. apply seasonal_pick_periodic. lia.
Qed.

Lemma seasonal_naive_forecast_periodic_witness :
  exists fc v,
    fst (SeasonalNaiveModel_predict 7
           (mkObj (mkSeasonalNaive true (PInt 3) (Some five_days)) [])) = Ok fc /\
    nth_error (values fc) 1 = Some v /\
    nth_error (values fc) (1 + Z.to_nat 3) = Some v.
Proof.
  apply (@seasonal_naive_forecast_periodic five_days 3 [] 7 1).
  - split; [lia|]. unfold len. simpl. lia.
  - simpl. lia.
  - reflexivity.
Defined.

(** X9: Seasonal Naive, fitted on a non-empty series whose forecast dates
    are timestamps: [predict(0)] returns the empty forecast whatever the
    period; for one step or more, [predict] raises ZeroDivisionError when
    the period is 0, IndexError when the period is longer than the training
    series, and TypeError when the period is not an integer. *)
Theorem seasonal_naive_predict_errors (train : Series) (period : pval)
    (lg : list LogRecord) :
  train <> [] ->
  let o := mkObj (mkSeasonalNaive true period (Some train)) lg in
  (dates_representable train 0 = true -> fst (SeasonalNaiveModel_predict 0 o) = Ok []) /\
  forall steps, (0 < steps)%nat -> dates_representable train steps = true ->
    (period = PInt 0 ->
       exists e, fst (SeasonalNaiveModel_predict steps o) = Raise e /\
                 kind e = ZeroDivisionError) /\
    ((forall p, period <> PInt p) ->
       exists e, fst (SeasonalNaiveModel_predict steps o) = Raise e /\ kind e = TypeError) /\
    (forall p, period = PInt p -> len train < p ->
       exists e, fst (SeasonalNaiveModel_predict steps o) = Raise e /\ kind e = IndexError).
Proof.
  intros Hne o. destruct (iloc_at_last Hne) as (last & Hlast).
  unfold o, SeasonalNaiveModel_predict, bind, get_self, attr, lift.
  cbn [self sn_fitted negb sn_data sn_seasonal_period].
  rewrite Hlast. split.
  { intros Hrep. destruct (forecast_dates_ok train 0 Hlast Hrep) as [-> ->]. reflexivity. }
  intros [|n] Hpos Hrep; [lia|].
  destruct (forecast_dates_ok train (S n) Hlast Hrep) as [-> ->].
  change (seq 0 (S n)) with (0%nat :: seq 1 n). cbn [seasonal_loop].
  assert (Hlen : 0 < len train) by (destruct train; [congruence|unfold len; simpl; lia]).
  split; [|split].
  - intros ->. unfold seasonal_value. simpl. eauto.
  - intros Hnot. destruct period as [|p|s]; unfold seasonal_value; simpl; eauto.
    now destruct (Hnot p).
  - intros p -> Hlt. unfold seasonal_value, py_mod. simpl.
    replace (p =? 0) with false by (symmetry; apply Z.eqb_neq; lia).
    rewrite Z.mod_0_l by lia. unfold iloc_at.
    replace (- p + 0 <? 0) with true by (symmetry; apply Z.ltb_lt; lia).
    replace (0 <=? len train + (- p + 0)) with false by (symmetry; apply Z.leb_gt; lia).
    simpl. eauto.
Qed.

Lemma seasonal_naive_predict_errors_witness :
  exists e,
    fst (SeasonalNaiveModel_predict 2
           (mkObj (mkSeasonalNaive true (PInt 7) (Some five_days)) [])) = Raise e /\
    kind e = IndexError.
Proof.
  destruct (@seasonal_naive_predict_errors five_days (PInt 7) []) as [_ H].
  - discriminate.
  - destruct (H 2%nat) as (_ & _ & H3); [lia|reflexivity|].
    apply (H3 7); [reflexivity|]. unfold len. simpl. lia.
Defined.

(** ** Fit, then predict; the default roster *)

Section ForecastProperties.

Context {L : Libraries}.

Lemma fit_sets_fitted (data : Series) (o o1 : Obj ForecastingModel) :
  fit data o = (Ok tt, o1) -> fitted (self o1) = true.
Proof.
  destruct o as [m lg]. unfold fit, on_object. cbn [self logs].
  destruct m as [m|m|m|m|m].
  - rewrite MovingAverageModel_fit_slope. destruct (ma_slope data); [|discriminate].
    intros [= <-]. reflexivity.
  - pose proof (ExponentialSmoothingModel_fit_run data m lg) as H.
    destruct (ExponentialSmoothingModel_fit data (mkObj m lg)) as [r oe].
    intros [= -> <-]. simpl.
    destruct (hw_fit data (es_trend m) (es_seasonal m) (es_seasonal_periods m)).
    + tauto.
    + destruct H as [_ H]. destruct (hw_fit data PNone PNone PNone).
      * tauto.
      * destruct H as [H _]. discriminate.
  - rewrite NaiveModel_fit_run. destruct (iloc_at data (-1)); [|discriminate].
    intros [= <-]. reflexivity.
  - rewrite SeasonalNaiveModel_fit_run. intros [= <-]. reflexivity.
  - rewrite LinearRegressionModel_fit_run. destruct (LinearRegression_fit _ _ _); [|discriminate].
    intros [= <-]. reflexivity.
Qed.

(** X20: When [forecast(data, steps)] returns a forecast, the model is left
    fitted, in the state in which [fit] left it, and calling [predict] again
    with the same number of steps returns the same forecast and changes
    nothing. *)
Theorem forecast_then_predict_again (data : Series) (steps : nat)
    (o o' : Obj ForecastingModel) (fc : Series) :
  forecast data steps o = (Ok fc, o') ->
  fit data o = (Ok tt, o') /\
  fitted (self o') = true /\
  predict steps o' = (Ok fc, o').
Proof.
  unfold forecast, bind. destruct (fit data o) as [[[]|e] o1] eqn:Hfit; [|discriminate].
  intros Hp. pose proof (read_only_predict steps o1) as Hro. rewrite Hp in Hro.
  simpl in Hro. subst o'. split; [reflexivity|]. split; [|exact Hp].
  eapply fit_sets_fitted; eauto.
Qed.

(** X21: With the default roster, [backtest_all_models] returns, for every
    series, training proportion and horizon, exactly five entries keyed
    "Linear Regression", "Moving Average", "Exponential Smoothing", "Naive"
    and "Seasonal Naive", in this order (the order in which
    [select_best_model] breaks ties), each one the result of backtesting that
    model alone. *)
Theorem backtest_default_roster (data : Series) (ts : float64) (h : Z)
    (lg : list LogRecord) :
  exists rs o,
    backtest_all_models data ts h (mkObj (mkBacktester create_default_models) lg) =
      (Ok rs, o) /\
    rs = map (fun model => (name model, single_result data ts h model)) create_default_models /\
    map fst rs = [ "Linear Regression"; "Moving Average"; "Exponential Smoothing";
                   "Naive"; "Seasonal Naive" ]%string.
Proof.
  unfold backtest_all_models. cbn [self logs models].
  assert (Hnd : NoDup (map name create_default_models)).
  { simpl. repeat (constructor; [simpl; intuition discriminate|]). constructor. }
  pose proof (backtest_loop_keys create_default_models data ts h [] lg) as [Hkeys _].
  pose proof (fun model => @backtest_loop_lookup L create_default_models data ts h [] lg
                             model Hnd) as Hget.
  destruct (backtest_loop create_default_models data ts h [] lg) as [[rs ms] lg'].
  cbn [fst snd] in *. exists rs. eexists. split; [reflexivity|].
  rewrite first_occurrences_NoDup in Hkeys by (auto; intros n _ []).
  simpl in Hkeys. split; [|exact Hkeys].
  destruct rs as [|[k1 r1] [|[k2 r2] [|[k3 r3] [|[k4 r4] [|[k5 r5] [|? ?]]]]]];
    try discriminate.
  injection Hkeys as -> -> -> -> ->.
  pose proof (Hget (LinearReg LinearRegressionModel_init) ltac:(simpl; tauto)) as G1.
  pose proof (Hget (MovingAverage (MovingAverageModel_init (PInt 7))) ltac:(simpl; tauto)) as G2.
  pose proof (Hget (ExpSmoothing (ExponentialSmoothingModel_init (PStr "add") PNone PNone))
                ltac:(simpl; tauto)) as G3.
  pose proof (Hget (Naive NaiveModel_init) ltac:(simpl; tauto)) as G4.
  pose proof (Hget (SeasonalNaive (SeasonalNaiveModel_init (PInt 7))) ltac:(simpl; tauto)) as G5.
  simpl in G1, G2, G3, G4, G5.
  injection G1 as ->. injection G2 as ->. injection G3 as ->.
  injection G4 as ->. injection G5 as ->. reflexivity.
Qed.

End ForecastProperties.

Lemma forecast_then_predict_again_witness :
  fit (L := Exact.libraries) five_days (mkObj (Naive NaiveModel_init) []) =
    (Ok tt, mkObj (Naive (mkNaive true (Some (Fin 5)) (Some five_days))) []) /\
  fitted (Naive (L := Exact.libraries) (mkNaive true (Some (Fin 5)) (Some five_days))) = true /\
  predict (L := Exact.libraries) 2
      (mkObj (Naive (mkNaive true (Some (Fin 5)) (Some five_days))) []) =
    (Ok [(5 * DAY, Fin 5); (6 * DAY, Fin 5)],
     mkObj (Naive (mkNaive true (Some (Fin 5)) (Some five_days))) []).
Proof.
  apply (@forecast_then_predict_again Exact.libraries five_days 2
           (mkObj (Naive NaiveModel_init) [])).
  reflexivity.
Defined.
